(** * 2023-election-insights: the tweet collector and its normalizer

    A shallow embedding of [src/download_tweets.py] (class [DownloadTweets],
    [main] and the script body) and of [src/modules/twitter.py] (class
    [TwitterDataCleaner]), followed by the properties of the date windows,
    of the normalisation stages and of the collection loops.

    - Methods that mutate [self] or write to the log and the files are
      functions in a state and exception monad; exceptions are values.
    - The class [TwitterRequest], which [get_batch] calls, is imported from
      a module that is not part of these sources: the outcome of its
      pipeline is a parameter of the collector.
    - Tables are column-major lists of cells; only what the two files use of
      pandas, tweepy and [datetime] is represented: the range of [datetime]
      and the [OverflowError] of its addition, the nanosecond range of
      pandas' timestamps, and the type inference that turns an integer
      column with a missing cell to floating point and fills a timestamp
      column with [NaT]. *)

From Stdlib Require Import ZArith List String Ascii Bool Lia DecimalString.
From Equations Require Import Equations.
Import ListNotations.

Open Scope string_scope.
Open Scope Z_scope.

(** ** [datetime]: the part of Python's module the program uses *)

Module Datetime.

(** A naive [datetime] is the number of microseconds elapsed since the
    midnight that starts proleptic-Gregorian ordinal 0; a [timedelta] is a
    number of microseconds; a [calendar_date] is the ordinal of a [date]
    (0001-01-01 is 1). The values Python can hold lie between
    [datetime_min] and [datetime_max]. *)
Definition datetime := Z.
Definition timedelta := Z.
Definition calendar_date := Z.

Definition us_per_second : Z := 1000000.
Definition us_per_day : Z := 86400 * us_per_second.

Definition timedelta_days (days : Z) : timedelta := days * us_per_day.

Definition is_leap (year : Z) : bool :=
  (year mod 4 =? 0) && (negb (year mod 100 =? 0) || (year mod 400 =? 0)).

Definition days_before_year (year : Z) : Z :=
  let y := year - 1 in y * 365 + y / 4 - y / 100 + y / 400.

Definition days_in_month_tbl : list Z :=
  [0; 31; 28; 31; 30; 31; 30; 31; 31; 30; 31; 30; 31].

Definition days_before_month_tbl : list Z :=
  [0; 0; 31; 59; 90; 120; 151; 181; 212; 243; 273; 304; 334].

Definition days_before_month (year month : Z) : Z :=
  nth (Z.to_nat month) days_before_month_tbl 0
  + (if (2 <? month) && is_leap year then 1 else 0).

(** [_ymd2ord] *)
Definition ymd2ord (year month day : Z) : calendar_date :=
  days_before_year year + days_before_month year month + day.

(** [_ord2ymd] *)
Definition ord2ymd (ordinal : calendar_date) : Z * Z * Z :=
  let n := ordinal - 1 in
  let n400 := n / 146097 in
  let n := n mod 146097 in
  let year := n400 * 400 + 1 in
  let n100 := n / 36524 in
  let n := n mod 36524 in
  let n4 := n / 1461 in
  let n := n mod 1461 in
  let n1 := n / 365 in
  let n := n mod 365 in
  let year := year + n100 * 100 + n4 * 4 + n1 in
  if (n1 =? 4) || (n100 =? 4) then (year - 1, 12, 31)
  else
    let leapyear := (n1 =? 3) && (negb (n4 =? 24) || (n100 =? 3)) in
    let month := Z.shiftr (n + 50) 5 in
    let preceding :=
      nth (Z.to_nat month) days_before_month_tbl 0
      + (if (2 <? month) && leapyear then 1 else 0) in
    if n <? preceding then
      let month := month - 1 in
      let preceding :=
        preceding
        - (nth (Z.to_nat month) days_in_month_tbl 0
           + (if (month =? 2) && leapyear then 1 else 0)) in
      (year, month, n - preceding + 1)
    else (year, month, n - preceding + 1).

(** [datetime(year, month, day, hour, minute, second, microsecond)] *)
Definition mk_datetime (year month day hour minute second microsecond : Z)
  : datetime :=
  ymd2ord year month day * us_per_day
  + ((hour * 60 + minute) * 60 + second) * us_per_second + microsecond.

(** [datetime.min] and [datetime.max] *)
Definition datetime_min : datetime := mk_datetime 1 1 1 0 0 0 0.
Definition datetime_max : datetime := mk_datetime 9999 12 31 23 59 59 999999.

(** The values a [datetime] can hold. *)
Definition representable (t : datetime) : Prop :=
  datetime_min <= t <= datetime_max.

Definition representable_dec (t : datetime)
  : {representable t} + {~ representable t} :=
  match Z_le_dec datetime_min t, Z_le_dec t datetime_max with
  | left a, left b => left (conj a b)
  | right a, _ => right (fun H => a (proj1 H))
  | _, right b => right (fun H => b (proj2 H))
  end.

(** [datetime.date()]: the calendar day, the time of day dropped. *)
Definition date_of (t : datetime) : calendar_date := t / us_per_day.

Definition time_of_day (t : datetime) : Z := t mod us_per_day.

Definition digit (n : Z) : ascii := ascii_of_nat (48 + Z.to_nat (n mod 10)).

Definition pad2 (n : Z) : string :=
  String (digit (n / 10)) (String (digit n) EmptyString).

Definition pad4 (n : Z) : string := pad2 (n / 100) ++ pad2 n.

Definition pad6 (n : Z) : string := pad2 (n / 10000) ++ pad4 n.

(** [date.isoformat()] *)
Definition date_isoformat (d : calendar_date) : string :=
  let '(y, m, dd) := ord2ymd d in
  pad4 y ++ "-" ++ pad2 m ++ "-" ++ pad2 dd.

(** [datetime.isoformat()] of a naive value: the fraction is printed only
    when the microsecond field is not zero. *)
Definition isoformat (t : datetime) : string :=
  let tod := time_of_day t in
  let secs := tod / us_per_second in
  let us := tod mod us_per_second in
  date_isoformat (date_of t) ++ "T"
    ++ pad2 (secs / 3600) ++ ":" ++ pad2 (secs / 60 mod 60) ++ ":"
    ++ pad2 (secs mod 60)
    ++ (if us =? 0 then EmptyString else "." ++ pad6 us).

End Datetime.

Export Datetime.

(** ** Python values, dictionaries and exceptions *)

Module Python.

(** The scalars that reach a table cell. [NaN] is pandas' missing value,
    [PyNone] is Python's [None], [NaT] the missing timestamp. [VFloat x] is
    the floating-point number whose value is the integer [x]: the only
    floats of the program are integers that pandas has converted. *)
Inductive value : Type :=
| NaN
| PyNone
| NaT
| VBool (b : bool)
| VInt (n : Z)
| VFloat (x : Z)
| VStr (s : string)
| VDatetime (t : datetime)
| VDate (d : calendar_date).

(** [OutOfBoundsDatetime] is pandas' subclass of [ValueError]. *)
Inductive exn_class : Type :=
| KeyError
| ValueError
| TypeError
| AttributeError
| OverflowError
| OutOfBoundsDatetime
| OtherError (name : string).

(** An exception: its class and [str(e)]. *)
Inductive exn : Type :=
| Exn (cls : exn_class) (msg : string).

Definition exn_cls (e : exn) : exn_class := let 'Exn c _ := e in c.
Definition exn_str (e : exn) : string := let 'Exn _ m := e in m.

Inductive result (A : Type) : Type :=
| Ok (a : A)
| Err (e : exn).
Arguments Ok {A} a.
Arguments Err {A} e.

Definition rbind {A B} (r : result A) (k : A -> result B) : result B :=
  match r with
  | Ok a => k a
  | Err e => Err e
  end.

(** [[f(x) for x in xs]], the first exception ending the traversal. *)
Fixpoint rmap {A B} (f : A -> result B) (xs : list A) : result (list B) :=
  match xs with
  | [] => Ok []
  | x :: xs' =>
      rbind (f x) (fun y => rbind (rmap f xs') (fun ys => Ok (y :: ys)))
  end.

Definition str_of_nat (n : nat) : string :=
  NilZero.string_of_uint (Nat.to_uint n).

Definition str_of_Z (n : Z) : string :=
  NilZero.string_of_int (Z.to_int n).

(** [float(n)]: the nearest number with a significand of 53 bits, a tie
    going to the even significand. *)
Definition float_of_int (n : Z) : Z :=
  let a := Z.abs n in
  if a <? 2 ^ 53 then n
  else
    let e := Z.log2 a - 52 in
    let q := Z.shiftr a e in
    let r := a - Z.shiftl q e in
    let half := Z.shiftl 1 (e - 1) in
    let q' := if (half <? r) || ((r =? half) && Z.odd q) then q + 1 else q in
    Z.sgn n * Z.shiftl q' e.

Definition decimal_digits (a : Z) : Z := Z.of_nat (String.length (str_of_Z a)).

(** The decimal with the fewest significant digits, from [k] digits on,
    that [float] maps to [a]; of two, the nearer one. *)
Fixpoint shortest_decimal (fuel : nat) (k : Z) (a : Z) : Z :=
  match fuel with
  | O => a
  | S fuel' =>
      let p := 10 ^ (decimal_digits a - k) in
      let lo := a / p * p in
      let hi := lo + p in
      let lo_ok := float_of_int lo =? a in
      let hi_ok := float_of_int hi =? a in
      if lo_ok && hi_ok then (if a - lo <=? hi - a then lo else hi)
      else if lo_ok then lo
      else if hi_ok then hi
      else shortest_decimal fuel' (k + 1) a
  end.

Fixpoint strip_zeros (fuel : nat) (c : Z) : Z :=
  match fuel with
  | O => c
  | S fuel' => if (c mod 10 =? 0) && negb (c =? 0) then strip_zeros fuel' (c / 10) else c
  end.

(** [repr] of the float of value [x]: positional below 1e16, with an
    exponent from there on. *)
Definition repr_float (x : Z) : string :=
  let a := Z.abs x in
  let sign := if x <? 0 then "-" else EmptyString in
  if a <? 10 ^ 16 then sign ++ str_of_Z a ++ ".0"
  else
    let c := shortest_decimal 18 1 a in
    let exponent := decimal_digits c - 1 in
    let m := str_of_Z (strip_zeros 400 c) in
    let mantissa :=
      match m with
      | String d EmptyString => m
      | String d rest => String d ("." ++ rest)
      | EmptyString => m
      end in
    sign ++ mantissa ++ "e+" ++ str_of_Z exponent.

Definition repr (v : value) : string :=
  match v with
  | NaN => "nan"
  | PyNone => "None"
  | NaT => "NaT"
  | VBool true => "True"
  | VBool false => "False"
  | VInt n => str_of_Z n
  | VFloat x => repr_float x
  | VStr s => "'" ++ s ++ "'"
  | VDatetime t => isoformat t
  | VDate d => date_isoformat d
  end.

(** Insertion-ordered mappings with unique keys. *)
Section Mapping.
Context {K V : Type} (eqb : K -> K -> bool).

Fixpoint mget (m : list (K * V)) (k : K) : option V :=
  match m with
  | [] => None
  | (k', v) :: m' => if eqb k' k then Some v else mget m' k
  end.

(** [m[k] = v]: the value is replaced where the key sits, a new key goes
    to the end. *)
Fixpoint mset (m : list (K * V)) (k : K) (v : V) : list (K * V) :=
  match m with
  | [] => [(k, v)]
  | (k', v') :: m' =>
      if eqb k' k then (k', v) :: m' else (k', v') :: mset m' k v
  end.

(** [m.update(m')] *)
Definition mupdate (m m' : list (K * V)) : list (K * V) :=
  fold_left (fun acc kv => mset acc (fst kv) (snd kv)) m' m.

(** The mapping without the key [k]. *)
Fixpoint mdel (m : list (K * V)) (k : K) : list (K * V) :=
  match m with
  | [] => []
  | (k', v') :: m' => if eqb k' k then m' else (k', v') :: mdel m' k
  end.
End Mapping.

Definition dict := list (string * value).
Definition dget (d : dict) (k : string) : option value := mget String.eqb d k.
Definition dupdate (d d' : dict) : dict := mupdate String.eqb d d'.

(** [{f"{prefix}{k}": v for k, v in d.items()}] *)
Definition prefix_keys (prefix : string) (d : dict) : dict :=
  mupdate String.eqb [] (map (fun kv => (prefix ++ fst kv, snd kv)) d).

End Python.

Export Python.

(** ** pandas: the table operations the normalizer and the collector use *)

Module Pandas.

(** A [DataFrame] is column-major: the number of rows of its index and,
    per column label, the cells from top to bottom. Indexes are positional
    throughout the program and are not represented. Column labels are
    unique in every table the program builds. The dtype of a column is not
    stored: it shows in the cells, which [infer_objects] converts where
    pandas builds a column from Python objects. *)
Record DataFrame : Type := mkDataFrame {
  nrows : nat;
  cols : list (string * list value)
}.

Definition columns (df : DataFrame) : list string := map fst (cols df).

(** Every column has one cell per row. *)
Definition well_formed (df : DataFrame) : Prop :=
  Forall (fun cs => List.length (snd cs) = nrows df) (cols df).

(** [df[c]] as an optional Series. *)
Definition column (df : DataFrame) (c : string) : option (list value) :=
  mget String.eqb (cols df) c.

(** The cells of [c] after [df.reindex(columns=[c])]: a missing column
    reads as [NaN] on every row. *)
Definition cells (c : string) (df : DataFrame) : list value :=
  match column df c with
  | Some s => s
  | None => repeat NaN (nrows df)
  end.

(** [df[c] = series] and [df.assign(c=series)]: an existing column is
    replaced in place, a new one is added last. *)
Definition set_column (df : DataFrame) (c : string) (s : list value)
  : DataFrame :=
  mkDataFrame (nrows df) (mset String.eqb (cols df) c s).

(** [df[c] = scalar] *)
Definition set_scalar (df : DataFrame) (c : string) (v : value) : DataFrame :=
  set_column df c (repeat v (nrows df)).

(** Nanosecond timestamps are 64-bit integers counted from the epoch, the
    least one standing for [NaT]. *)
Definition unix_epoch : datetime := mk_datetime 1970 1 1 0 0 0 0.

Definition int64_max : Z := 2 ^ 63 - 1.

Definition in_bounds_ns (n : Z) : bool :=
  (- int64_max <=? n) && (n <=? int64_max).

Definition timestamp_ns (t : datetime) : Z := (t - unix_epoch) * 1000.

(** The datetimes between [Timestamp.min] and [Timestamp.max]. *)
Definition in_bounds (t : datetime) : bool := in_bounds_ns (timestamp_ns t).

Definition is_null (v : value) : bool :=
  match v with
  | NaN | PyNone | NaT => true
  | _ => false
  end.

Definition is_timestamp (v : value) : bool :=
  match v with
  | VDatetime t => in_bounds t
  | _ => false
  end.

Definition is_int64 (v : value) : bool :=
  match v with
  | VInt n => (- 2 ^ 63 <=? n) && (n <=? int64_max)
  | _ => false
  end.

Definition is_float (v : value) : bool :=
  match v with
  | VFloat _ => true
  | _ => false
  end.

Definition to_float (v : value) : value :=
  match v with
  | VInt n => VFloat (float_of_int n)
  | VFloat x => VFloat x
  | _ => NaN
  end.

(** The type inference of a column built from Python objects, as in
    [pd.DataFrame(records)] and in the result of [Series.apply]. Timestamps
    with missing cells become a timestamp column, its missing cells [NaT].
    Integers become a floating-point column when a cell is missing ([NaN] or
    [None]) or is a float. Every other column keeps its objects. *)
Definition infer_objects (cells : list value) : list value :=
  if existsb is_timestamp cells
     && forallb (fun v => is_timestamp v || is_null v) cells
  then map (fun v => if is_null v then NaT else v) cells
  else if existsb (fun v => is_int64 v || is_float v) cells
          && forallb (fun v => is_int64 v || is_float v
                               || match v with NaN | PyNone => true | _ => false end)
                     cells
          && existsb (fun v => is_float v || is_null v) cells
  then map to_float cells
  else cells.

(** [seen] followed by the labels of [ls] that are not in it, each once, in
    order of first appearance. *)
Fixpoint union_labels (seen : list string) (ls : list string) : list string :=
  match ls with
  | [] => seen
  | l :: ls' =>
      if existsb (String.eqb l) seen then union_labels seen ls'
      else union_labels (seen ++ [l])%list ls'
  end.

(** What a record holds under a label, [NaN] where it has none. *)
Definition get_or_NaN (c : string) (d : dict) : value :=
  match dget d c with
  | Some v => v
  | None => NaN
  end.

(** [pd.DataFrame(records)] for a list of dictionaries. *)
Definition from_records (records : list dict) : DataFrame :=
  let labels := union_labels [] (List.concat (map (map fst) records)) in
  mkDataFrame (List.length records)
    (map (fun c => (c, infer_objects (map (get_or_NaN c) records))) labels).

(** [df[[c1, ..., cn]]]; the message of the [KeyError] names the first
    label that is missing. *)
Definition select (df : DataFrame) (names : list string) : result DataFrame :=
  rbind
    (rmap (fun c => match column df c with
                    | Some s => Ok (c, s)
                    | None => Err (Exn KeyError ("['" ++ c ++ "'] not in index"))
                    end) names)
    (fun cs => Ok (mkDataFrame (nrows df) cs)).

(** [df.rename(columns=mapping)] *)
Definition rename (df : DataFrame) (mapping : list (string * string))
  : DataFrame :=
  mkDataFrame (nrows df)
    (map (fun cs => (match mget String.eqb mapping (fst cs) with
                     | Some c' => c'
                     | None => fst cs
                     end, snd cs))
         (cols df)).

(** The table [pd.concat(frames)] builds along the rows: the columns are the
    union of the frames' columns in order of first appearance, the rows
    follow frame by frame, and a frame without a column contributes [NaN]. *)
Definition stacked (frames : list DataFrame) : DataFrame :=
  let labels := union_labels [] (List.concat (map columns frames)) in
  mkDataFrame
    (list_sum (map nrows frames))
    (map (fun c => (c, List.concat (map (cells c) frames))) labels).

(** [pd.concat(frames)], with or without [axis=0, ignore_index=True]. *)
Definition concat_frames (frames : list DataFrame) : result DataFrame :=
  match frames with
  | [] => Err (Exn ValueError "No objects to concatenate")
  | _ => Ok (stacked frames)
  end.

Section ToDatetime.
(** The string parser behind [pd.to_datetime] is taken as given. *)
Variable parse : string -> option datetime.

Definition out_of_bounds (what : string) : exn :=
  Exn OutOfBoundsDatetime ("Out of bounds nanosecond timestamp: " ++ what).

(** A datetime as a nanosecond timestamp. *)
Definition timestamp_of (t : datetime) : result value :=
  if in_bounds t then Ok (VDatetime t) else Err (out_of_bounds (isoformat t)).

(** A number as a nanosecond timestamp: nanoseconds since the epoch. *)
Definition timestamp_of_ns (n : Z) (shown : string) : result value :=
  if n =? - 2 ^ 63 then Ok NaT
  else if in_bounds_ns n then Ok (VDatetime (unix_epoch + n / 1000))
  else Err (out_of_bounds shown).

(** One element of [pd.to_datetime(series)]. *)
Definition to_datetime (v : value) : result value :=
  match v with
  | NaN | PyNone | NaT => Ok NaT
  | VDatetime t => timestamp_of t
  | VDate d => timestamp_of (d * us_per_day)
  | VInt n => timestamp_of_ns n (str_of_Z n)
  | VFloat x => timestamp_of_ns x (repr_float x)
  | VStr s =>
      match parse s with
      | Some t => timestamp_of t
      | None =>
          Err (Exn ValueError ("Unknown datetime string format, unable to parse: " ++ s))
      end
  | VBool _ =>
      Err (Exn TypeError "<class 'bool'> is not convertible to datetime")
  end.

(** One element of [series.dt.date]. *)
Definition dt_date (v : value) : value :=
  match v with
  | VDatetime t => VDate (date_of t)
  | _ => NaT
  end.

(** [pd.to_datetime(series).dt.date] *)
Definition to_dates (s : list value) : result (list value) :=
  rmap (fun v => rbind (to_datetime v) (fun t => Ok (dt_date t))) s.
End ToDatetime.

(** [df.to_csv(path, mode='a', index=False, header=h)]: what is appended. *)
Inductive csv_line : Type :=
| CsvHeader (labels : list string)
| CsvRecord (fields : list value).

Definition record_at (df : DataFrame) (i : nat) : list value :=
  map (fun cs => nth i (snd cs) NaN) (cols df).

Definition to_csv (df : DataFrame) (header : bool) : list csv_line :=
  ((if header then [CsvHeader (columns df)] else [])
   ++ map (fun i => CsvRecord (record_at df i)) (seq 0 (nrows df)))%list.

End Pandas.

Export Pandas.

(** ** [src/modules/twitter.py]: class [TwitterDataCleaner] *)

Module TwitterDataCleaner.

(** A tweepy [Tweet]: [tweet_fields] holds, in the order of
    [tweet.data.keys()], [getattr(tweet, key)] for every key other than
    [public_metrics]; [tweet_public_metrics] is that nested mapping when
    the key is present. Every other requested field is a scalar. *)
Record Tweet : Type := mkTweet {
  tweet_fields : dict;
  tweet_public_metrics : option dict
}.

(** A tweepy [User], in the same way; [user_id] is [user.id]. No key is
    ['data']: the attribute of that name is the dictionary itself, not a
    scalar. *)
Record User : Type := mkUser {
  user_id : Z;
  user_fields : dict;
  user_public_metrics : option dict
}.

(** A tweepy [Response]: [data] is [None] on an empty page, and
    [includes] has a ['users'] entry only when authors were expanded. *)
Record Response : Type := mkResponse {
  data : option (list Tweet);
  includes_users : option (list User)
}.

(** The body of the loop of [extract_tweet_data]. *)
Definition tweet_dict (tweet : Tweet) : result dict :=
  match tweet_public_metrics tweet with
  | Some public_metrics => Ok (dupdate (tweet_fields tweet) public_metrics)
  | None => Err (Exn KeyError "'public_metrics'")
  end.

Definition extract_tweet_data (tweets : Response) : result DataFrame :=
  match data tweets with
  | None => Err (Exn TypeError "'NoneType' object is not iterable")
  | Some ts =>
      rbind (rmap tweet_dict ts) (fun tweet_data => Ok (from_records tweet_data))
  end.

(** The body of the first loop of [extract_user_data]. *)
Definition user_data (user : User) : result dict :=
  match user_public_metrics user with
  | Some public_metrics_user =>
      Ok (dupdate (prefix_keys "user_" (user_fields user))
                  (prefix_keys "user_" public_metrics_user))
  | None => Err (Exn KeyError "'user_public_metrics'")
  end.

(** [{user.id: user for user in includes['users']}] followed by the loop
    that replaces every entry by its flat dictionary. *)
Definition users_lookup (includes : list User) : result (list (Z * dict)) :=
  rmap (fun entry => rbind (user_data (snd entry)) (fun d => Ok (fst entry, d)))
       (mupdate Z.eqb [] (map (fun user => (user_id user, user)) includes)).

(** The integer a cell hashes and compares equal to, if any. *)
Definition int_key (x : value) : option Z :=
  match x with
  | VInt n => Some n
  | VFloat x => Some x
  | VBool b => Some (if b then 1 else 0)
  | _ => None
  end.

(** [users[x]] *)
Definition users_getitem (users : list (Z * dict)) (x : value) : result dict :=
  match int_key x with
  | Some k =>
      match mget Z.eqb users k with
      | Some d => Ok d
      | None => Err (Exn KeyError (repr x))
      end
  | None => Err (Exn KeyError (repr x))
  end.

(** [x.get(col, None)] *)
Definition get_or_None (col : string) (x : dict) : value :=
  match dget x col with
  | Some v => v
  | None => PyNone
  end.

(** The loop over [user_columns]. The staging column ['user_data'] is kept
    beside the table: [Some rows] while its cells are the dictionaries,
    [None] once the loop has overwritten it with scalars, which have no
    [get]. (The attributes of a user are scalars here, so a label
    ['user_data'] can only be that of a scalar.) *)
Fixpoint attach_user_columns (df : DataFrame) (staged : option (list dict))
                             (user_columns : list string) : result DataFrame :=
  match user_columns with
  | [] => Ok df
  | col :: rest =>
      match staged with
      | None => Err (Exn AttributeError "object has no attribute 'get'")
      | Some rows =>
          let series := infer_objects (map (get_or_None col) rows) in
          if String.eqb col "user_data"
          then attach_user_columns df None rest
          else attach_user_columns (set_column df col series) staged rest
      end
  end.

Definition extract_user_data (tweets : Response) (df : DataFrame)
  : result DataFrame :=
  match includes_users tweets with
  | None => Err (Exn KeyError "'users'")
  | Some includes =>
      rbind (users_lookup includes) (fun users =>
      match column df "author_id" with
      | None => Err (Exn KeyError "'author_id'")
      | Some author_ids =>
          rbind (rmap (users_getitem users) author_ids) (fun rows =>
          let user_columns := columns (from_records rows) in
          rbind (attach_user_columns df (Some rows) user_columns) (fun df' =>
          Ok (mkDataFrame (nrows df') (mdel String.eqb (cols df') "user_data"))))
      end)
  end.

Definition tweets_columns : list string :=
  ["id"; "author_id"; "created_at"; "text"; "possibly_sensitive"; "retweet_count";
   "reply_count"; "like_count"; "quote_count"; "impression_count"; "lang"].

Definition users_columns : list string :=
  ["user_id"; "user_username"; "user_name"; "user_location"; "user_created_at";
   "user_description"; "user_profile_image_url"; "user_verified";
   "user_followers_count"; "user_following_count"; "user_tweet_count";
   "user_listed_count"].

Definition segregate_data (df : DataFrame) : result (DataFrame * DataFrame) :=
  rbind (select df tweets_columns) (fun tweets_df =>
  rbind (select df users_columns) (fun users_df =>
  Ok (tweets_df, users_df))).

Definition tweets_renaming (prefix : string) : list (string * string) :=
  [("id", prefix ++ "tweet");
   ("author_id", prefix ++ "usuario");
   ("created_at", prefix ++ "fecha");
   ("text", prefix ++ "texto");
   ("possibly_sensitive", prefix ++ "sensitivo");
   ("retweet_count", prefix ++ "retweets");
   ("reply_count", prefix ++ "replies");
   ("like_count", prefix ++ "likes");
   ("quote_count", prefix ++ "quotes");
   ("impression_count", prefix ++ "impresiones");
   ("lang", prefix ++ "idioma")].

Definition users_renaming (prefix : string) : list (string * string) :=
  [("user_id", prefix ++ "usuario");
   ("user_username", prefix ++ "handle");
   ("user_name", prefix ++ "nombre");
   ("user_location", prefix ++ "ubicacion");
   ("user_created_at", prefix ++ "fecha_creacion");
   ("user_description", prefix ++ "descripcion");
   ("user_profile_image_url", prefix ++ "imagen");
   ("user_verified", prefix ++ "verificado");
   ("user_followers_count", prefix ++ "seguidores");
   ("user_following_count", prefix ++ "siguiendo");
   ("user_tweet_count", prefix ++ "tweets");
   ("user_listed_count", prefix ++ "listas")].

(** The destination names of the renaming, without prefix. *)
Definition tweets_destinations : list string :=
  ["tweet"; "usuario"; "fecha"; "texto"; "sensitivo"; "retweets"; "replies";
   "likes"; "quotes"; "impresiones"; "idioma"].

Definition users_destinations : list string :=
  ["usuario"; "handle"; "nombre"; "ubicacion"; "fecha_creacion"; "descripcion";
   "imagen"; "verificado"; "seguidores"; "siguiendo"; "tweets"; "listas"].

Section Cleaner.
Variable parse : string -> option datetime.

(** [.assign(name = lambda x: pd.to_datetime(x.name).dt.date)] *)
Definition assign_dates (df : DataFrame) (name : string) : result DataFrame :=
  match column df name with
  | None =>
      Err (Exn AttributeError
             ("'DataFrame' object has no attribute '" ++ name ++ "'"))
  | Some series =>
      rbind (to_dates parse series) (fun dates => Ok (set_column df name dates))
  end.

Definition clean_data (self_tweets_df self_users_df : DataFrame)
  : result (DataFrame * DataFrame) :=
  let prefix := "tw_" in
  rbind (assign_dates (rename self_tweets_df (tweets_renaming prefix)) "tw_fecha")
    (fun tweets_df =>
  let prefix := "us_" in
  rbind (assign_dates (rename self_users_df (users_renaming prefix))
                      "us_fecha_creacion")
    (fun users_df =>
  Ok (tweets_df, users_df))).

Definition run (tweets : Response) : result (DataFrame * DataFrame) :=
  rbind (extract_tweet_data tweets) (fun df =>
  rbind (extract_user_data tweets df) (fun df =>
  rbind (segregate_data df) (fun dfs =>
  clean_data (fst dfs) (snd dfs)))).
End Cleaner.

End TwitterDataCleaner.

Export TwitterDataCleaner.

(** ** The pipeline of [TwitterRequest], which is not among the sources *)

Module TwitterRequest.

Section Preprocess.
Variable parse : string -> option datetime.

(** Modelled from the spec: [TwitterRequest.preprocess_data(tweets_prefix,
    users_prefix)], the last stage of the pipeline that [get_batch] calls;
    the class is imported from [modules] and its code is missing. The spec
    (4.2, [rename_and_typecast]): it "renames every column to
    <prefix><destination_name> per a fixed mapping table", the two
    prefixes being those passed in, "and casts the two creation/posting
    timestamp columns from full datetime to calendar-date". *)
Definition preprocess_data (tweets_prefix users_prefix : string)
    (tweets_df users_df : DataFrame) : result (DataFrame * DataFrame) :=
  rbind (assign_dates parse (rename tweets_df (tweets_renaming tweets_prefix))
                      (tweets_prefix ++ "fecha"))
    (fun tweets =>
  rbind (assign_dates parse (rename users_df (users_renaming users_prefix))
                      (users_prefix ++ "fecha_creacion"))
    (fun users =>
  Ok (tweets, users))).
End Preprocess.

End TwitterRequest.

Export TwitterRequest.

(** ** [src/download_tweets.py]: class [DownloadTweets], [main], the script *)

Module Download.

(** The attributes [__init__] stores. *)
Record DownloadTweets : Type := mkDownloadTweets {
  candidates : list string;
  start_date : datetime;
  end_date : datetime;
  max_results : Z;
  tweets_prefix : string;
  users_prefix : string
}.

(** The module-level request parameters. *)
Definition config : DownloadTweets :=
  mkDownloadTweets
    ["carlos pineda"; "sandra torres"; "edmond mulet"; "zury rios"; "manuel conde"]
    (mk_datetime 2023 5 21 14 0 0 0)
    (mk_datetime 2023 5 27 13 0 0 0)
    10 "tw_" "us_".

(** The number of times the test [date < self.end_date] of the loop of
    [generate_dates] can still succeed. *)
Definition windows_left (delta self_end_date date : Z) : nat :=
  Z.to_nat ((self_end_date - date + delta - 1) / delta).

Definition date_out_of_range : exn := Exn OverflowError "date value out of range".

(** The [while] loop of [generate_dates], for a positive step [delta]:
    the pairs [self.dates] holds when the loop ends, and the exception that
    ended it, if one did. [date + delta] raises [OverflowError] when the sum
    is not a [datetime]. *)
Equations? dates_loop (delta : timedelta) (Hdelta : 0 < delta)
    (self_end_date date : datetime) (self_dates : list (string * string))
  : list (string * string) * option exn
  by wf (windows_left delta self_end_date date) lt :=
  dates_loop delta Hdelta self_end_date date self_dates
    with Z_lt_dec date self_end_date => {
    | left _ with representable_dec (date + delta) => {
        | left _ :=
            let next_date := date + delta in
            dates_loop delta Hdelta self_end_date next_date
              (self_dates ++ [((isoformat date ++ "Z")%string,
                               (isoformat next_date ++ "Z")%string)])%list;
        | right _ := (self_dates, Some date_out_of_range) };
    | right _ := (self_dates, None) }.
Proof.
  subst next_date. unfold windows_left.
  replace (self_end_date - (date + delta) + delta - 1)
    with (self_end_date - date - 1) by lia.
  replace (self_end_date - date + delta - 1)
    with (self_end_date - date - 1 + 1 * delta) by lia.
  rewrite Z.div_add by lia.
  assert (0 <= (self_end_date - date - 1) / delta) by (apply Z.div_pos; lia).
  lia.
Qed.

Definition one_day : timedelta := timedelta_days 1.

Definition one_day_positive : 0 < one_day := eq_refl.

(** What the loop of [generate_dates] returns for a step [delta]: the pairs,
    unless the loop raises. *)
Definition generate_dates_by (delta : timedelta) (Hdelta : 0 < delta)
    (self_start_date self_end_date : datetime)
  : result (list (string * string)) :=
  match dates_loop delta Hdelta self_end_date self_start_date [] with
  | (self_dates, None) => Ok self_dates
  | (_, Some e) => Err e
  end.

(** The entry [generate_dates] appends for a window. *)
Definition date_pair (w : datetime * datetime) : string * string :=
  (isoformat (fst w) ++ "Z", isoformat (snd w) ++ "Z").

(** The [k]-th boundary reached from [date] by adding [delta] repeatedly. *)
Definition boundary (delta : timedelta) (date : datetime) (k : nat) : datetime :=
  date + Z.of_nat k * delta.

(** The first [n] windows of step [delta] from [date]. *)
Definition windows (delta : timedelta) (date : datetime) (n : nat)
  : list (datetime * datetime) :=
  map (fun k => (boundary delta date k, boundary delta date (S k))) (seq 0 n).

(** One run of the request pipeline [TwitterRequest(...).make_request()
    ... .preprocess_data(...)], identified by its arguments. *)
Record Call : Type := mkCall {
  call_query : string;
  call_start_time : string;
  call_end_time : string;
  call_max_results : Z;
  call_tweets_prefix : string;
  call_users_prefix : string
}.

Inductive level : Type := INFO | ERROR.

(** The mutable attributes of the object ([self.dates], [self.tweets],
    [self.users]) and the world around it: the requests sent so far, the
    log, and the two files under [data/]. *)
Record State : Type := mkState {
  dates : list (string * string);
  tweets : option DataFrame;
  users : option DataFrame;
  requests : list Call;
  logged : list (level * string);
  data_dir : bool;
  tweets_csv : option (list csv_line);
  users_csv : option (list csv_line)
}.

Definition M (A : Type) : Type := State -> result A * State.

Definition ret {A} (a : A) : M A := fun st => (Ok a, st).

Definition raise {A} (e : exn) : M A := fun st => (Err e, st).

Definition bind {A B} (m : M A) (k : A -> M B) : M B :=
  fun st =>
    match m st with
    | (Ok a, st') => k a st'
    | (Err e, st') => (Err e, st')
    end.

Definition lift {A} (r : result A) : M A := fun st => (r, st).

Notation "x <- m ;; k" := (bind m (fun x => k))
  (at level 61, m at next level, right associativity).
Notation "m ;;; k" := (bind m (fun _ => k))
  (at level 61, right associativity).

Definition gets {A} (f : State -> A) : M A := fun st => (Ok (f st), st).

Definition modify (f : State -> State) : M unit := fun st => (Ok tt, f st).

Definition set_dates (ds : list (string * string)) (st : State) : State :=
  mkState ds (tweets st) (users st) (requests st) (logged st)
          (data_dir st) (tweets_csv st) (users_csv st).

Definition set_tweets (df : DataFrame) (st : State) : State :=
  mkState (dates st) (Some df) (users st) (requests st) (logged st)
          (data_dir st) (tweets_csv st) (users_csv st).

Definition set_users (df : DataFrame) (st : State) : State :=
  mkState (dates st) (tweets st) (Some df) (requests st) (logged st)
          (data_dir st) (tweets_csv st) (users_csv st).

Definition sent (c : Call) (st : State) : State :=
  mkState (dates st) (tweets st) (users st) (requests st ++ [c])%list (logged st)
          (data_dir st) (tweets_csv st) (users_csv st).

Definition log_line (l : level) (msg : string) (st : State) : State :=
  mkState (dates st) (tweets st) (users st) (requests st)
          (logged st ++ [(l, msg)])%list
          (data_dir st) (tweets_csv st) (users_csv st).

Definition logger_info (msg : string) : M unit := modify (log_line INFO msg).
Definition logger_error (msg : string) : M unit := modify (log_line ERROR msg).

(** A new object: no attribute beyond those of [__init__] is set. *)
Definition new_object (st : State) : State :=
  mkState [] None None (requests st) (logged st)
          (data_dir st) (tweets_csv st) (users_csv st).

Section Collector.
(** The class [TwitterRequest] is imported from [modules]. Its pipeline
    is taken as given: the outcome of a call, which may depend on the
    calls sent before it. *)
Variable request : Call -> list Call -> result (DataFrame * DataFrame).

Definition twitter_request (c : Call) : M (DataFrame * DataFrame) :=
  fun st => (request c (requests st), sent c st).

Definition init (self : DownloadTweets) : M unit :=
  modify new_object ;;;
  logger_info "DownloadTweets initialized.".

Definition generate_dates (self : DownloadTweets) : M unit :=
  fun st =>
    let delta := one_day in
    match dates_loop delta one_day_positive (end_date self) (start_date self) [] with
    | (self_dates, None) => (Ok tt, set_dates self_dates st)
    | (self_dates, Some e) => (Err e, set_dates self_dates st)
    end.

Definition get_batch (self : DownloadTweets) (candidate : string)
                     (start_date end_date : string)
  : M (DataFrame * DataFrame) :=
  tu <- twitter_request
          (mkCall candidate start_date end_date (max_results self)
                  (tweets_prefix self) (users_prefix self)) ;;
  let tweets := set_scalar (fst tu) "candidato" (VStr candidate) in
  let users := snd tu in
  logger_info ("Downloaded batch of " ++ str_of_nat (nrows tweets)
               ++ " tweets for candidate " ++ candidate ++ ".") ;;;
  ret (tweets, users).

(** The loop over [self.dates], from the collectors built so far. *)
Fixpoint for_dates (self : DownloadTweets) (candidate : string)
                   (pairs : list (string * string))
                   (dates_tweets_collector dates_users_collector : list DataFrame)
  : M (list DataFrame * list DataFrame) :=
  match pairs with
  | [] => ret (dates_tweets_collector, dates_users_collector)
  | (start_date, end_date) :: rest =>
      tu <- get_batch self candidate start_date end_date ;;
      for_dates self candidate rest
                (dates_tweets_collector ++ [fst tu])%list
                (dates_users_collector ++ [snd tu])%list
  end.

(** The loop over [self.candidates]. *)
Fixpoint for_candidates (self : DownloadTweets) (cs : list string)
                        (tweets_collector users_collector : list DataFrame)
  : M (list DataFrame * list DataFrame) :=
  match cs with
  | [] => ret (tweets_collector, users_collector)
  | candidate :: rest =>
      pairs <- gets dates ;;
      collected <- for_dates self candidate pairs [] [] ;;
      t <- lift (concat_frames (fst collected)) ;;
      u <- lift (concat_frames (snd collected)) ;;
      for_candidates self rest
                     (tweets_collector ++ [t])%list (users_collector ++ [u])%list
  end.

Definition download_tweets (self : DownloadTweets)
  : M (DataFrame * DataFrame) :=
  generate_dates self ;;;
  pairs <- gets dates ;;
  logger_info ("Generated " ++ str_of_nat (List.length pairs)
               ++ " date pairs for tweet downloads.") ;;;
  collected <- for_candidates self (candidates self) [] [] ;;
  t <- lift (concat_frames (fst collected)) ;;
  modify (set_tweets t) ;;;
  u <- lift (concat_frames (snd collected)) ;;
  modify (set_users u) ;;;
  logger_info ("Downloaded a total of " ++ str_of_nat (nrows t)
               ++ " tweets and " ++ str_of_nat (nrows u) ++ " users.") ;;;
  ret (t, u).

(** [main], for the request parameters [params]: the [try] block, and
    the handler that logs and raises the exception again. *)
Definition main (params : DownloadTweets) : M (DataFrame * DataFrame) :=
  fun st =>
    match (init params ;;; download_tweets params) st with
    | (Ok tu, st') => (Ok tu, st')
    | (Err e, st') =>
        (logger_error ("Failed to download tweets: " ++ exn_str e) ;;; raise e) st'
    end.

Definition append_csv (file : option (list csv_line)) (df : DataFrame)
  : option (list csv_line) :=
  match file with
  | Some old => Some (old ++ to_csv df false)%list
  | None => Some (to_csv df true)
  end.

Definition save (tweets users : DataFrame) (st : State) : State :=
  mkState (dates st) (Download.tweets st) (Download.users st) (requests st) (logged st)
          true (append_csv (tweets_csv st) tweets) (append_csv (users_csv st) users).

(** The body under [if __name__ == "__main__"]. *)
Definition script (params : DownloadTweets) : M unit :=
  tu <- main params ;;
  tweets_exist <- gets (fun st => match tweets_csv st with
                                  | Some _ => true
                                  | None => false
                                  end) ;;
  modify (save (fst tu) (snd tu)) ;;;
  if (tweets_exist : bool)
  then logger_info "Data appended to 'data/tweets.csv' and 'data/users.csv'"
  else logger_info "Data saved to 'data/tweets.csv' and 'data/users.csv'".

(** The calls of the collection, in the order of the two loops: for each
    candidate, one call per date pair. *)
Definition calls_for (self : DownloadTweets) (pairs : list (string * string))
                     (candidate : string) : list Call :=
  map (fun p => mkCall candidate (fst p) (snd p) (max_results self)
                       (tweets_prefix self) (users_prefix self)) pairs.

Definition grid (self : DownloadTweets) (pairs : list (string * string))
                (cs : list string) : list Call :=
  flat_map (calls_for self pairs) cs.

(** The answers to [calls] sent one after the other after [history], up to
    the first call that raises, and the exception it raises. *)
Fixpoint serve (history : list Call) (calls : list Call)
  : list (DataFrame * DataFrame) * option exn :=
  match calls with
  | [] => ([], None)
  | c :: rest =>
      match request c history with
      | Ok out =>
          let (outs, failure) := serve (history ++ [c])%list rest in
          (out :: outs, failure)
      | Err e => ([], Some e)
      end
  end.

(** The posts table of a batch, labelled as [get_batch] labels it. *)
Definition labelled (c : Call) (out : DataFrame * DataFrame) : DataFrame :=
  set_scalar (fst out) "candidato" (VStr (call_query c)).

(** The state once [get_batch] has returned for the call [c]. *)
Definition batch_done (st : State) (c : Call) (out : DataFrame * DataFrame) : State :=
  log_line INFO
    ("Downloaded batch of " ++ str_of_nat (nrows (labelled c out))
     ++ " tweets for candidate " ++ call_query c ++ ".")
    (sent c st).

(** The state once the calls have been sent, up to the first that raises. *)
Fixpoint after (st : State) (calls : list Call) : State :=
  match calls with
  | [] => st
  | c :: rest =>
      match request c (requests st) with
      | Ok out => after (batch_done st c out) rest
      | Err _ => sent c st
      end
  end.

End Collector.

End Download.

Export Download.

(** ** Sample data *)

Module Samples.

Definition no_parse (s : string) : option datetime := None.

Definition sample_user (id : Z) (handle : string) : User :=
  mkUser id
    [("id", VInt id); ("name", VStr handle); ("username", VStr handle);
     ("location", PyNone);
     ("created_at", VDatetime (mk_datetime 2010 1 2 3 4 5 0));
     ("description", VStr "bio"); ("profile_image_url", VStr "https://pbs/x.jpg");
     ("verified", VBool false)]
    (Some [("followers_count", VInt 12); ("following_count", VInt 7);
           ("tweet_count", VInt 340); ("listed_count", VInt 0)]).

Definition sample_tweet (id author : Z) (posted : datetime) : Tweet :=
  mkTweet
    [("id", VInt id); ("author_id", VInt author); ("created_at", VDatetime posted);
     ("text", VStr "hola"); ("possibly_sensitive", VBool false); ("lang", VStr "es")]
    (Some [("retweet_count", VInt 0); ("reply_count", VInt 1); ("like_count", VInt 5);
           ("quote_count", VInt 0); ("impression_count", VInt 90)]).

(** Three posts, the first two by the same author. *)
Definition sample_response : Response :=
  mkResponse
    (Some [sample_tweet 1 10 (mk_datetime 2023 5 21 14 0 0 0);
           sample_tweet 2 10 (mk_datetime 2023 5 21 23 59 59 999999);
           sample_tweet 3 11 (mk_datetime 2023 5 22 0 0 0 0)])
    (Some [sample_user 10 "ana"; sample_user 11 "luis"]).

(** A page whose second post names an author that is not included. *)
Definition orphan_response : Response :=
  mkResponse
    (Some [sample_tweet 1 10 (mk_datetime 2023 5 21 14 0 0 0);
           sample_tweet 2 12 (mk_datetime 2023 5 21 15 0 0 0)])
    (Some [sample_user 10 "ana"; sample_user 11 "luis"]).

Definition frame_or_empty (r : result DataFrame) : DataFrame :=
  match r with
  | Ok df => df
  | Err _ => mkDataFrame 0 []
  end.

(** The tables of the stages on [sample_response]. *)
Definition sample_posts : DataFrame :=
  frame_or_empty (extract_tweet_data sample_response).

Definition sample_enriched : DataFrame :=
  frame_or_empty (extract_user_data sample_response sample_posts).

Definition sample_tweets_df : DataFrame :=
  frame_or_empty (select sample_enriched tweets_columns).

Definition sample_users_df : DataFrame :=
  frame_or_empty (select sample_enriched users_columns).

Definition orphan_posts : DataFrame :=
  frame_or_empty (extract_tweet_data orphan_response).

(** The scenario of two subjects and two days. *)
Definition scenario : DownloadTweets :=
  mkDownloadTweets ["alice"; "bob"]
    (mk_datetime 2023 5 21 0 0 0 0) (mk_datetime 2023 5 23 0 0 0 0)
    10 "tw_" "us_".

(** The same scenario on an object configured with other prefixes. *)
Definition scenario_xy : DownloadTweets :=
  mkDownloadTweets ["alice"; "bob"]
    (mk_datetime 2023 5 21 0 0 0 0) (mk_datetime 2023 5 23 0 0 0 0)
    10 "x_" "y_".

(** A configuration whose range is empty. *)
Definition reversed_scenario : DownloadTweets :=
  mkDownloadTweets ["alice"; "bob"]
    (mk_datetime 2023 5 23 0 0 0 0) (mk_datetime 2023 5 21 0 0 0 0)
    10 "tw_" "us_".

Definition empty_state : State := mkState [] None None [] [] false None None.

(** The two date pairs of the scenario. *)
Definition scenario_pairs : list (string * string) :=
  [("2023-05-21T00:00:00Z", "2023-05-22T00:00:00Z");
   ("2023-05-22T00:00:00Z", "2023-05-23T00:00:00Z")].

(** A pipeline that answers every call with the tables of
    [sample_response]. *)
Definition sample_request (c : Call) (history : list Call)
  : result (DataFrame * DataFrame) :=
  run no_parse sample_response.

Definition sample_batch : DataFrame * DataFrame :=
  match run no_parse sample_response with
  | Ok out => out
  | Err _ => (mkDataFrame 0 [], mkDataFrame 0 [])
  end.

(** A pipeline whose third call is refused. *)
Definition failing_request (c : Call) (history : list Call)
  : result (DataFrame * DataFrame) :=
  if (List.length history =? 2)%nat
  then Err (Exn (OtherError "TooManyRequests") "429 Too Many Requests")
  else run no_parse sample_response.

End Samples.

Export Samples.

(** * Properties *)

(** ** The model on concrete inputs *)

Example toordinal_2023_05_21 : ymd2ord 2023 5 21 = 738661.
Proof. reflexivity. Qed.

Example ord2ymd_leap_day : ord2ymd (ymd2ord 2024 2 29) = (2024, 2, 29).
Proof. reflexivity. Qed.

Example ord2ymd_last_day : ord2ymd (ymd2ord 9999 12 31) = (9999, 12, 31).
Proof. reflexivity. Qed.

Example isoformat_start_date :
  isoformat (start_date config) = "2023-05-21T14:00:00".
Proof. vm_compute. reflexivity. Qed.

Example isoformat_with_microseconds :
  isoformat (mk_datetime 2024 2 29 23 59 59 120) = "2024-02-29T23:59:59.000120".
Proof. vm_compute. reflexivity. Qed.

Example isoformat_across_new_year :
  isoformat (mk_datetime 2023 12 31 18 30 0 0 + one_day) = "2024-01-01T18:30:00".
Proof. vm_compute. reflexivity. Qed.

Example generate_dates_scenario :
  generate_dates_by one_day one_day_positive (start_date scenario) (end_date scenario)
  = Ok [("2023-05-21T00:00:00Z", "2023-05-22T00:00:00Z");
        ("2023-05-22T00:00:00Z", "2023-05-23T00:00:00Z")].
Proof. vm_compute. reflexivity. Qed.

Example generate_dates_same_instant :
  generate_dates_by one_day one_day_positive (start_date config) (start_date config)
  = Ok [].
Proof. vm_compute. reflexivity. Qed.

Example isoformat_datetime_max :
  isoformat datetime_max = "9999-12-31T23:59:59.999999".
Proof. vm_compute. reflexivity. Qed.

Example float_of_int_rounds_to_even :
  float_of_int (2 ^ 53 + 1) = 2 ^ 53 /\ float_of_int (2 ^ 53 + 3) = 2 ^ 53 + 4.
Proof. split; vm_compute; reflexivity. Qed.

Example repr_float_positional_and_exponent :
  repr_float 12 = "12.0" /\ repr_float (10 ^ 16) = "1e+16"
  /\ repr_float (float_of_int 1660000000000000001) = "1.66e+18".
Proof. repeat split; vm_compute; reflexivity. Qed.

Example infer_objects_missing_cells :
  infer_objects [VInt 5; NaN] = [VFloat 5; NaN]
  /\ infer_objects [VDatetime (mk_datetime 2023 5 21 14 0 0 0); PyNone]
     = [VDatetime (mk_datetime 2023 5 21 14 0 0 0); NaT]
  /\ infer_objects [VStr "es"; PyNone; NaN] = [VStr "es"; PyNone; NaN]
  /\ infer_objects [VBool true; NaN] = [VBool true; NaN]
  /\ infer_objects [VInt 5; VInt 6] = [VInt 5; VInt 6].
Proof. repeat split; vm_compute; reflexivity. Qed.

Example timestamp_bounds :
  isoformat (unix_epoch - int64_max / 1000) = "1677-09-21T00:12:43.145225"
  /\ isoformat (unix_epoch + int64_max / 1000) = "2262-04-11T23:47:16.854775"
  /\ in_bounds (unix_epoch - int64_max / 1000) = true
  /\ in_bounds (unix_epoch - int64_max / 1000 - 1) = false
  /\ in_bounds (unix_epoch + int64_max / 1000) = true
  /\ in_bounds (unix_epoch + int64_max / 1000 + 1) = false.
Proof. repeat split; vm_compute; reflexivity. Qed.

Example sample_enriched_columns :
  columns sample_enriched
  = ["id"; "author_id"; "created_at"; "text"; "possibly_sensitive"; "lang";
     "retweet_count"; "reply_count"; "like_count"; "quote_count"; "impression_count";
     "user_id"; "user_name"; "user_username"; "user_location"; "user_created_at";
     "user_description"; "user_profile_image_url"; "user_verified";
     "user_followers_count"; "user_following_count"; "user_tweet_count";
     "user_listed_count"].
Proof. vm_compute. reflexivity. Qed.

Example run_sample_dates :
  exists t u,
    run no_parse sample_response = Ok (t, u)
    /\ column t "tw_fecha"
       = Some [VDate (ymd2ord 2023 5 21); VDate (ymd2ord 2023 5 21);
               VDate (ymd2ord 2023 5 22)]
    /\ column u "us_usuario" = Some [VInt 10; VInt 10; VInt 11].
Proof.
  destruct (run no_parse sample_response) as [[t u]|] eqn:Hrun;
    vm_compute in Hrun; [|discriminate Hrun].
  injection Hrun as <- <-. do 2 eexists. repeat split.
Qed.

Example run_orphan_response :
  run no_parse orphan_response = Err (Exn KeyError "12").
Proof. vm_compute. reflexivity. Qed.

Example run_empty_page :
  run no_parse (mkResponse None None)
  = Err (Exn TypeError "'NoneType' object is not iterable").
Proof. reflexivity. Qed.

(** ** The windows of [generate_dates] *)

Section Windows.
Variable delta : timedelta.
Hypothesis Hdelta : 0 < delta.

Lemma windows_left_stop (stop date : datetime) :
  stop <= date -> windows_left delta stop date = 0%nat.
Proof.
  intros Hge. unfold windows_left.
  assert ((stop - date + delta - 1) / delta <= 0).
  { apply Z.lt_succ_r. apply Z.div_lt_upper_bound; lia. }
  lia.
Qed.

Lemma windows_left_step (stop date : datetime) :
  date < stop ->
  windows_left delta stop date = S (windows_left delta stop (date + delta)).
Proof.
  intros Hlt. unfold windows_left.
  replace (stop - (date + delta) + delta - 1) with (stop - date - 1) by lia.
  replace (stop - date + delta - 1) with (stop - date - 1 + 1 * delta) by lia.
  rewrite Z.div_add by lia.
  assert (0 <= (stop - date - 1) / delta) by (apply Z.div_pos; lia).
  lia.
Qed.

Lemma boundary_shift (date : datetime) (k : nat) :
  boundary delta (date + delta) k = boundary delta date (S k).
Proof. unfold boundary. lia. Qed.

Lemma windows_step (date : datetime) (n : nat) :
  windows delta date (S n)
  = (date, date + delta) :: windows delta (date + delta) n.
Proof.
  unfold windows. cbn [seq map]. rewrite <- seq_shift, map_map. f_equal.
  - unfold boundary. f_equal; lia.
  - apply map_ext. intros k. now rewrite !boundary_shift.
Qed.

(** When the loop returns, it has appended one pair per window, in order. *)
Lemma dates_loop_returns (stop date : datetime) (acc l : list (string * string)) :
  dates_loop delta Hdelta stop date acc = (l, None) ->
  l = (acc ++ map date_pair (windows delta date (windows_left delta stop date)))%list.
Proof.
  funelim (dates_loop delta Hdelta stop date acc); intros Hrun.
  - injection Hrun as <-. rewrite windows_left_stop by lia. cbn. now rewrite app_nil_r.
  - apply H in Hrun. rewrite Hrun.
    rewrite (windows_left_step self_end_date date) by assumption.
    rewrite windows_step. cbn [map]. now rewrite <- app_assoc.
  - discriminate.
Qed.




Lemma nth_error_map_seq {A} (f : nat -> A) (n i : nat) :
  nth_error (map f (seq 0 n)) i = if (i <? n)%nat then Some (f i) else None.
Proof.
  rewrite nth_error_map.
  destruct (Nat.ltb_spec i n) as [Hi | Hi].
  - rewrite nth_error_nth' with (d := 0%nat) by now rewrite length_seq.
    now rewrite seq_nth.
  - assert (Hnone : nth_error (seq 0 n) i = None)
      by (apply nth_error_None; now rewrite length_seq).
    now rewrite Hnone.
Qed.


Lemma windows_nth (date : datetime) (n i : nat) (w : datetime * datetime) :
  nth_error (windows delta date n) i = Some w ->
  (i < n)%nat /\ w = (boundary delta date i, boundary delta date (S i)).
Proof.
  unfold windows. rewrite nth_error_map_seq.
  destruct (Nat.ltb_spec i n); [|discriminate].
  intros [= <-]. now split.
Qed.


(** The count of windows is the least number of steps that reaches
    [stop]. *)
Lemma windows_left_bounds (start stop : datetime) :
  start < stop ->
  let n := windows_left delta stop start in
  (1 <= n)%nat
  /\ boundary delta start (n - 1) < stop <= boundary delta start n.
Proof.
  intros Hlt n. subst n. unfold windows_left, boundary.
  set (x := stop - start + delta - 1).
  assert (Hq : delta <= x) by (unfold x; lia).
  pose proof (Z.mul_div_le x delta Hdelta) as Hlo.
  pose proof (Z.mul_succ_div_gt x delta Hdelta) as Hhi.
  assert (1 <= x / delta) by (apply Z.div_le_lower_bound; lia).
  rewrite Nat2Z.inj_sub by lia. rewrite Z2Nat.id by lia.
  unfold x in *. split; [lia | split; nia].
Qed.




Lemma generate_dates_by_returns (start stop : datetime) (pairs : list (string * string)) :
  generate_dates_by delta Hdelta start stop = Ok pairs ->
  dates_loop delta Hdelta stop start [] = (pairs, None)
  /\ pairs = map date_pair (windows delta start (windows_left delta stop start)).
Proof.
  unfold generate_dates_by.
  destruct (dates_loop delta Hdelta stop start []) as [l [e|]] eqn:Hrun; [discriminate|].
  intros [= <-]. split; [reflexivity|]. now apply dates_loop_returns in Hrun.
Qed.

Lemma generate_dates_by_nonempty (start stop : datetime) (pairs : list (string * string)) :
  start < stop -> generate_dates_by delta Hdelta start stop = Ok pairs -> pairs <> [].
Proof.
  intros Hlt Hgen. apply generate_dates_by_returns in Hgen as [_ ->].
  destruct (windows_left_bounds start stop Hlt) as [Hpos _].
  destruct (windows_left delta stop start); [lia | discriminate].
Qed.





End Windows.

(** What the method does with the result of its loop. *)
Lemma generate_dates_returns (self : DownloadTweets) (st : State)
      (pairs : list (string * string)) :
  generate_dates_by one_day one_day_positive (start_date self) (end_date self) = Ok pairs ->
  generate_dates self st = (Ok tt, set_dates pairs st).
Proof.
  intros Hgen. apply generate_dates_by_returns in Hgen as [Hrun _].
  unfold generate_dates. now rewrite Hrun.
Qed.


(** A configuration whose range lies in the last day that a [datetime]
    can hold. *)
Definition last_day_scenario : DownloadTweets :=
  mkDownloadTweets ["alice"; "bob"]
    (mk_datetime 9999 12 31 0 0 0 0) (mk_datetime 9999 12 31 12 0 0 0)
    10 "tw_" "us_".

(** C1, as stated, fails where the first boundary not before [end_date] is
    past [datetime.max]: from 9999-12-31T00:00 to 9999-12-31T12:00 the range
    is not empty and the step is positive, but [date + delta] raises
    [OverflowError] in the first pass and [generate_dates] returns no
    window: [self.dates] is empty. *)
Lemma generate_dates_overflows_in_the_last_day :
  start_date last_day_scenario < end_date last_day_scenario
  /\ 0 < one_day
  /\ representable (start_date last_day_scenario)
  /\ representable (end_date last_day_scenario)
  /\ generate_dates last_day_scenario empty_state
     = (Err (Exn OverflowError "date value out of range"), empty_state)
  /\ dates empty_state = []
  /\ ~ (exists pairs,
          generate_dates_by one_day one_day_positive
            (start_date last_day_scenario) (end_date last_day_scenario) = Ok pairs).
Proof.
  split; [reflexivity|]. split; [reflexivity|].
  split; [split; vm_compute; discriminate|].
  split; [split; vm_compute; discriminate|].
  split; [vm_compute; reflexivity|]. split; [reflexivity|].
  intros [pairs Hpairs]. vm_compute in Hpairs. discriminate Hpairs.
Qed.






(** ** Mappings and tables *)

Section Inference.

(** What the inference makes of a cell: nothing, [NaT] of a missing cell,
    or a float. *)
Lemma infer_objects_cases (cells : list value) :
  infer_objects cells = cells
  \/ (infer_objects cells = map (fun v => if is_null v then NaT else v) cells
      /\ forallb (fun v => is_timestamp v || is_null v) cells = true)
  \/ (infer_objects cells = map to_float cells
      /\ forallb (fun v => is_int64 v || is_float v
                           || match v with NaN | PyNone => true | _ => false end)
                 cells = true).
Proof.
  unfold infer_objects.
  destruct (existsb is_timestamp cells); cbn [andb].
  - destruct (forallb (fun v => is_timestamp v || is_null v) cells); [right; left; auto|].
    destruct (existsb (fun v => is_int64 v || is_float v) cells); cbn [andb]; [|now left].
    destruct (forallb _ cells); cbn [andb]; [|now left].
    destruct (existsb (fun v => is_float v || is_null v) cells); [right; right; auto | now left].
  - destruct (existsb (fun v => is_int64 v || is_float v) cells); cbn [andb]; [|now left].
    destruct (forallb _ cells); cbn [andb]; [|now left].
    destruct (existsb (fun v => is_float v || is_null v) cells); [right; right; auto | now left].
Qed.

Lemma infer_objects_length (cells : list value) :
  List.length (infer_objects cells) = List.length cells.
Proof.
  destruct (infer_objects_cases cells) as [-> | [[-> _] | [-> _]]];
    [reflexivity | apply length_map | apply length_map].
Qed.

(** A column without a missing cell and without a float keeps its cells. *)
Lemma infer_objects_plain (cells : list value) :
  (forall v, In v cells -> is_null v = false /\ is_float v = false) ->
  infer_objects cells = cells.
Proof.
  intros Hplain. unfold infer_objects.
  assert (Hnone : existsb (fun v => is_float v || is_null v) cells = false).
  { apply not_true_is_false. intros H. apply existsb_exists in H as (v & Hv & Hor).
    destruct (Hplain v Hv) as [Hn Hf]. rewrite Hn, Hf in Hor. discriminate. }
  rewrite Hnone, !andb_false_r.
  destruct (existsb is_timestamp cells && _); [|reflexivity].
  rewrite <- (map_id cells) at 2. apply map_ext_in. intros v Hv.
  now destruct (Hplain v Hv) as [-> _].
Qed.


(** A column of timestamps and missing cells stays one. *)
Lemma infer_objects_timestamps (cells : list value) :
  (forall v, In v cells -> is_timestamp v = true \/ is_null v = true) ->
  forall v, In v (infer_objects cells) -> is_timestamp v = true \/ is_null v = true.
Proof.
  intros Hall v Hv.
  destruct (infer_objects_cases cells) as [Heq | [[Heq _] | [Heq Hnum]]];
    rewrite Heq in Hv.
  - now apply Hall.
  - apply in_map_iff in Hv as (v0 & <- & Hv0).
    destruct (is_null v0) eqn:Hn; [now right | now apply Hall].
  - apply in_map_iff in Hv as (v0 & <- & Hv0).
    rewrite forallb_forall in Hnum. specialize (Hnum v0 Hv0).
    destruct (Hall v0 Hv0) as [Ht | Hn].
    + destruct v0; try discriminate Ht. discriminate Hnum.
    + right. now destruct v0.
Qed.

End Inference.

Section Tables.

Lemma mget_In {V} (m : list (string * V)) (k : string) :
  In k (map fst m) -> exists v, mget String.eqb m k = Some v.
Proof.
  induction m as [|[k' v'] m IH]; cbn; [easy|].
  intros [-> | Hin].
  - rewrite String.eqb_refl. now exists v'.
  - destruct (String.eqb k' k); [now exists v'|]. now apply IH.
Qed.

Lemma mget_Some_In {V} (m : list (string * V)) (k : string) (v : V) :
  mget String.eqb m k = Some v -> In (k, v) m.
Proof.
  induction m as [|[k' v'] m IH]; cbn; [discriminate|].
  destruct (String.eqb_spec k' k) as [-> | Hne].
  - intros [= ->]. now left.
  - intros Hget. right. now apply IH.
Qed.

Lemma mget_not_In {V} (m : list (string * V)) (k : string) :
  ~ In k (map fst m) -> mget String.eqb m k = None.
Proof.
  intros Hnot. destruct (mget String.eqb m k) as [v|] eqn:Hget; [|reflexivity].
  exfalso. apply Hnot. apply mget_Some_In in Hget.
  now apply (in_map fst) in Hget.
Qed.

Lemma column_In (df : DataFrame) (c : string) :
  In c (columns df) -> exists s, column df c = Some s.
Proof. apply mget_In. Qed.

Lemma column_Some_In (df : DataFrame) (c : string) (s : list value) :
  column df c = Some s -> In c (columns df).
Proof.
  intros Hget. apply mget_Some_In in Hget. now apply (in_map fst) in Hget.
Qed.

(** [rmap] succeeds exactly when every element does. *)
Lemma rmap_Ok {A B} (f : A -> result B) (xs : list A) :
  (forall x, In x xs -> exists y, f x = Ok y) ->
  exists ys, rmap f xs = Ok ys.
Proof.
  induction xs as [|x xs IH]; cbn; intros Hall; [now eexists|].
  destruct (Hall x (or_introl eq_refl)) as [y ->]. cbn.
  destruct IH as [ys ->]; [intros; apply Hall; now right|].
  cbn. now eexists.
Qed.

Lemma rmap_Ok_Forall2 {A B} (f : A -> result B) (xs : list A) (ys : list B) :
  rmap f xs = Ok ys -> Forall2 (fun x y => f x = Ok y) xs ys.
Proof.
  revert ys. induction xs as [|x xs IH]; cbn; intros ys.
  - intros [= <-]. constructor.
  - destruct (f x) as [y|e] eqn:Hfx; cbn; [|discriminate].
    destruct (rmap f xs) as [ys'|e]; cbn; [|discriminate].
    intros [= <-]. constructor; [assumption | now apply IH].
Qed.

Lemma rmap_length {A B} (f : A -> result B) (xs : list A) (ys : list B) :
  rmap f xs = Ok ys -> List.length ys = List.length xs.
Proof.
  intros H. apply rmap_Ok_Forall2 in H. symmetry. eapply Forall2_length; eauto.
Qed.

(** The first failing element decides the exception. *)
Lemma rmap_Err {A B} (f : A -> result B) (P : exn -> Prop) (xs : list A) :
  (forall x e, In x xs -> f x = Err e -> P e) ->
  (exists x, In x xs /\ exists e, f x = Err e) ->
  exists e, rmap f xs = Err e /\ P e.
Proof.
  induction xs as [|x xs IH]; cbn; intros HP (x0 & Hin & e0 & Hfail); [easy|].
  destruct (f x) as [y|e] eqn:Hfx; cbn.
  - destruct Hin as [<- | Hin]; [congruence|].
    destruct IH as (e & Hrm & He).
    + intros x' e' Hx' Hf'. apply (HP x' e'); [now right | assumption].
    + exists x0. split; [assumption | now exists e0].
    + rewrite Hrm. cbn. now exists e.
  - exists e. split; [reflexivity|]. apply (HP x e); [now left | assumption].
Qed.

Lemma select_spec (df : DataFrame) (names : list string) :
  (forall c, In c names -> In c (columns df)) ->
  exists df',
    select df names = Ok df'
    /\ nrows df' = nrows df
    /\ columns df' = names
    /\ (forall c, In c names -> column df' c = column df c).
Proof.
  intros Hall. unfold select.
  assert (Hcs : exists cs,
             rmap (fun c => match column df c with
                            | Some s => Ok (c, s)
                            | None => Err (Exn KeyError ("['" ++ c ++ "'] not in index"))
                            end) names = Ok cs
             /\ map fst cs = names
             /\ forall c, In c names -> mget String.eqb cs c = column df c).
  { induction names as [|c names IH]; cbn [rmap].
    - exists []. repeat split. intros c [].
    - destruct (column_In df c) as [s Hs]; [apply Hall; now left|].
      rewrite Hs. cbn [rbind].
      destruct IH as (cs & Hrm & Hfst & Hget); [intros; apply Hall; now right|].
      rewrite Hrm. cbn [rbind].
      exists ((c, s) :: cs). cbn. repeat split; [now rewrite Hfst|].
      intros c' [<- | Hin].
      + now rewrite String.eqb_refl.
      + destruct (String.eqb_spec c c') as [<- | Hne]; [easy | now apply Hget]. }
  destruct Hcs as (cs & -> & Hfst & Hget). cbn.
  eexists. split; [reflexivity|]. cbn. repeat split; assumption.
Qed.

Lemma rename_columns (df : DataFrame) (mapping : list (string * string)) :
  columns (rename df mapping)
  = map (fun c => match mget String.eqb mapping c with
                  | Some c' => c'
                  | None => c
                  end) (columns df).
Proof. unfold columns, rename. cbn. now rewrite !map_map. Qed.

Lemma rename_nrows (df : DataFrame) (mapping : list (string * string)) :
  nrows (rename df mapping) = nrows df.
Proof. reflexivity. Qed.

Lemma mset_present_keys {V} (m : list (string * V)) (k : string) (v : V) :
  In k (map fst m) -> map fst (mset String.eqb m k v) = map fst m.
Proof.
  induction m as [|[k0 v0] m IH]; cbn; [easy|].
  destruct (String.eqb_spec k0 k) as [-> | Hne]; [reflexivity|].
  intros [Heq | Hin]; [congruence|]. cbn. now rewrite IH.
Qed.

Lemma mset_absent_keys {V} (m : list (string * V)) (k : string) (v : V) :
  ~ In k (map fst m) -> map fst (mset String.eqb m k v) = (map fst m ++ [k])%list.
Proof.
  induction m as [|[k0 v0] m IH]; cbn; [easy|].
  destruct (String.eqb_spec k0 k) as [-> | Hne]; [tauto|].
  intros Hnot. cbn. rewrite IH; tauto.
Qed.

Lemma mget_mset_same {V} (m : list (string * V)) (k : string) (v : V) :
  mget String.eqb (mset String.eqb m k v) k = Some v.
Proof.
  induction m as [|[k0 v0] m IH]; cbn.
  - now rewrite String.eqb_refl.
  - destruct (String.eqb k0 k) eqn:Heq; cbn; now rewrite Heq.
Qed.

Lemma mget_mset_other {V} (m : list (string * V)) (k k' : string) (v : V) :
  k <> k' -> mget String.eqb (mset String.eqb m k v) k' = mget String.eqb m k'.
Proof.
  intros Hne. induction m as [|[k0 v0] m IH]; cbn.
  - destruct (String.eqb_spec k k'); [congruence | reflexivity].
  - destruct (String.eqb_spec k0 k) as [-> | Hk]; cbn.
    + destruct (String.eqb_spec k k'); [congruence | reflexivity].
    + now rewrite IH.
Qed.

End Tables.

(** ** Row counts through the normalizer *)

Section RowCounts.

Lemma column_length (df : DataFrame) (c : string) (series : list value) :
  well_formed df -> column df c = Some series -> List.length series = nrows df.
Proof.
  intros Hwf Hcol. apply mget_Some_In in Hcol.
  unfold well_formed in Hwf. rewrite Forall_forall in Hwf.
  apply (Hwf (c, series) Hcol).
Qed.

Lemma from_records_rows (records : list dict) :
  well_formed (from_records records)
  /\ nrows (from_records records) = List.length records.
Proof.
  split; [|reflexivity]. unfold well_formed, from_records. cbn [cols nrows].
  apply Forall_forall. intros cs Hcs. apply in_map_iff in Hcs as (c & <- & _).
  cbn [snd]. now rewrite infer_objects_length, length_map.
Qed.

Lemma mset_Forall {V} (P : string * V -> Prop) (m : list (string * V))
      (k : string) (v : V) :
  Forall P m -> (forall k', P (k', v)) -> Forall P (mset String.eqb m k v).
Proof.
  intros Hm Hv. induction Hm as [|[k0 v0] m H0 Hm IH]; cbn.
  - constructor; [apply Hv | constructor].
  - destruct (String.eqb k0 k); constructor; auto.
Qed.

Lemma mdel_Forall {V} (P : string * V -> Prop) (m : list (string * V)) (k : string) :
  Forall P m -> Forall P (mdel String.eqb m k).
Proof.
  intros Hm. induction Hm as [|[k0 v0] m H0 Hm IH]; cbn; [constructor|].
  destruct (String.eqb k0 k); [assumption | now constructor].
Qed.

Lemma set_column_rows (df : DataFrame) (c : string) (series : list value) :
  well_formed df -> List.length series = nrows df ->
  well_formed (set_column df c series).
Proof.
  intros Hwf Hlen. unfold well_formed, set_column. cbn [cols nrows].
  apply mset_Forall; [assumption | intros k'; exact Hlen].
Qed.

Lemma attach_user_columns_rows (user_columns : list string) :
  forall (df df' : DataFrame) (staged : option (list dict)),
    well_formed df ->
    (forall rows, staged = Some rows -> List.length rows = nrows df) ->
    attach_user_columns df staged user_columns = Ok df' ->
    well_formed df' /\ nrows df' = nrows df.
Proof.
  induction user_columns as [|col rest IH]; intros df df' staged Hwf Hrows;
    cbn [attach_user_columns].
  - intros [= <-]. now split.
  - destruct staged as [rows|]; [|discriminate].
    destruct (String.eqb col "user_data").
    + intros Hrest. apply (IH df df' None Hwf); [discriminate | assumption].
    + intros Hrest.
      destruct (IH (set_column df col (infer_objects (map (get_or_None col) rows)))
                   df' (Some rows)) as [Hwf' Hn]; try assumption.
      * apply set_column_rows; [assumption|].
        rewrite infer_objects_length, length_map. now apply Hrows.
      * split; assumption.
Qed.

Lemma extract_user_data_rows (tweets : Response) (df df' : DataFrame) :
  well_formed df -> extract_user_data tweets df = Ok df' ->
  well_formed df' /\ nrows df' = nrows df.
Proof.
  intros Hwf. unfold extract_user_data.
  destruct (includes_users tweets) as [includes|]; [|discriminate].
  destruct (users_lookup includes) as [users|]; cbn [rbind]; [|discriminate].
  destruct (column df "author_id") as [author_ids|] eqn:Hcol; [|discriminate].
  destruct (rmap (users_getitem users) author_ids) as [rows|] eqn:Hrows;
    cbn [rbind]; [|discriminate].
  destruct (attach_user_columns df (Some rows) (columns (from_records rows)))
    as [df1|] eqn:Hattach; cbn [rbind]; [|discriminate].
  intros [= <-].
  destruct (attach_user_columns_rows (columns (from_records rows)) df df1 (Some rows) Hwf)
    as [Hwf1 Hn1]; [|assumption|].
  - intros rows' [= <-]. rewrite (rmap_length _ _ _ Hrows).
    now apply (column_length df "author_id").
  - split; [|assumption]. unfold well_formed. cbn [cols nrows].
    now apply mdel_Forall.
Qed.

Lemma select_rows (df df' : DataFrame) (names : list string) :
  well_formed df -> select df names = Ok df' ->
  well_formed df' /\ nrows df' = nrows df.
Proof.
  intros Hwf. unfold select.
  destruct (rmap _ names) as [cs|] eqn:Hcs; cbn [rbind]; [|discriminate].
  intros [= <-]. split; [|reflexivity]. unfold well_formed. cbn [cols nrows].
  apply rmap_Ok_Forall2 in Hcs.
  induction Hcs as [|c [c' series] names cs Hc _ IH]; constructor; [|assumption].
  destruct (column df c) as [series'|] eqn:Hcol; [|discriminate].
  injection Hc as <- <-. cbn. now apply (column_length df c).
Qed.

Lemma rename_rows (df : DataFrame) (mapping : list (string * string)) :
  well_formed df -> well_formed (rename df mapping).
Proof.
  unfold well_formed, rename. cbn [cols nrows]. intros Hwf.
  apply Forall_map. eapply Forall_impl; [|exact Hwf]. now intros [c series].
Qed.

Lemma assign_dates_rows (parse : string -> option datetime)
      (df df' : DataFrame) (name : string) :
  well_formed df -> assign_dates parse df name = Ok df' ->
  well_formed df' /\ nrows df' = nrows df.
Proof.
  intros Hwf. unfold assign_dates.
  destruct (column df name) as [series|] eqn:Hcol; [|discriminate].
  destruct (to_dates parse series) as [dates|] eqn:Hdates; cbn [rbind]; [|discriminate].
  intros [= <-]. split; [|reflexivity].
  apply set_column_rows; [assumption|].
  unfold to_dates in Hdates. rewrite (rmap_length _ _ _ Hdates).
  now apply (column_length df name).
Qed.

(** The two tables [run] returns have one row per post of the page, and
    so has every one of their columns. *)
Lemma run_rows (parse : string -> option datetime) (tweets : Response)
      (t u : DataFrame) :
  run parse tweets = Ok (t, u) ->
  exists posts,
    data tweets = Some posts
    /\ nrows t = List.length posts /\ nrows u = List.length posts
    /\ well_formed t /\ well_formed u.
Proof.
  unfold run, extract_tweet_data.
  destruct (data tweets) as [posts|]; [|discriminate].
  destruct (rmap tweet_dict posts) as [records|] eqn:Hrecords; cbn [rbind]; [|discriminate].
  destruct (from_records_rows records) as [Hwf0 Hn0].
  rewrite (rmap_length _ _ _ Hrecords) in Hn0.
  destruct (extract_user_data tweets (from_records records)) as [df|] eqn:Hjoin;
    cbn [rbind]; [|discriminate].
  destruct (extract_user_data_rows _ _ _ Hwf0 Hjoin) as [Hwf1 Hn1].
  unfold segregate_data.
  destruct (select df tweets_columns) as [a|] eqn:Ha; cbn [rbind]; [|discriminate].
  destruct (select df users_columns) as [b|] eqn:Hb; cbn [rbind fst snd]; [|discriminate].
  destruct (select_rows _ _ _ Hwf1 Ha) as [Hwfa Hna].
  destruct (select_rows _ _ _ Hwf1 Hb) as [Hwfb Hnb].
  unfold clean_data.
  destruct (assign_dates parse (rename a _) "tw_fecha") as [t'|] eqn:Ht;
    cbn [rbind]; [|discriminate].
  destruct (assign_dates parse (rename b _) "us_fecha_creacion") as [u'|] eqn:Hu;
    cbn [rbind]; [|discriminate].
  intros [= <- <-].
  destruct (assign_dates_rows _ _ _ _ (rename_rows a _ Hwfa) Ht) as [Hwft Hnt].
  destruct (assign_dates_rows _ _ _ _ (rename_rows b _ Hwfb) Hu) as [Hwfu Hnu].
  exists posts. split; [reflexivity|].
  cbn [nrows rename] in Hnt, Hnu.
  repeat split; try assumption; congruence.
Qed.

End RowCounts.

(** C8. On a table that has the post and the author columns,
    [segregate_data] returns two projections of the same rows: the author
    table has as many rows as the post table, and each author column holds
    the table's cells row for row, repeated authors included. So the two
    tables that the normalisation of a page returns have one row per post
    each. *)
Theorem segregate_data_one_author_row_per_post
    (parse : string -> option datetime) (tweets : Response) (df : DataFrame) :
  (forall c, In c (tweets_columns ++ users_columns)%list -> In c (columns df)) ->
  (exists tweets_df users_df,
      segregate_data df = Ok (tweets_df, users_df)
      /\ nrows tweets_df = nrows df
      /\ nrows users_df = nrows tweets_df
      /\ columns tweets_df = tweets_columns
      /\ columns users_df = users_columns
      /\ (forall c, In c tweets_columns -> column tweets_df c = column df c)
      /\ (forall c, In c users_columns -> column users_df c = column df c))
  /\ (forall t u,
        run parse tweets = Ok (t, u) ->
        exists posts,
          data tweets = Some posts
          /\ nrows t = List.length posts /\ nrows u = List.length posts
          /\ well_formed t /\ well_formed u).
Proof.
  intros Hall. split; [|intros t u; apply run_rows].
  unfold segregate_data.
  destruct (select_spec df tweets_columns) as (t & -> & Hnt & Hct & Hgt).
  { intros c Hc. apply Hall, in_or_app. now left. }
  destruct (select_spec df users_columns) as (u & -> & Hnu & Hcu & Hgu).
  { intros c Hc. apply Hall, in_or_app. now right. }
  cbn. exists t, u. repeat split; try assumption. congruence.
Qed.

(** The enriched table of the sample page: posts 1 and 2 have the same
    author, and the author table keeps one row for each of them. *)
Lemma segregate_data_one_author_row_per_post_witness :
  (exists tweets_df users_df,
      segregate_data sample_enriched = Ok (tweets_df, users_df)
      /\ nrows tweets_df = 3%nat
      /\ nrows users_df = 3%nat
      /\ column users_df "user_id" = Some [VInt 10; VInt 10; VInt 11]
      /\ column tweets_df "id" = Some [VInt 1; VInt 2; VInt 3])
  /\ (exists t u, run no_parse sample_response = Ok (t, u)
                  /\ nrows t = 3%nat /\ nrows u = 3%nat).
Proof.
  destruct (segregate_data_one_author_row_per_post no_parse sample_response sample_enriched)
    as [(t & u & Hseg & Hnt & Hnu & _ & _ & Hgt & Hgu) Hrun].
  - intros c Hc. vm_compute in Hc. vm_compute.
    repeat (destruct Hc as [<- | Hc]; [tauto|]). destruct Hc.
  - split.
    + exists t, u. split; [exact Hseg|].
      split; [rewrite Hnt; reflexivity|].
      split; [rewrite Hnu, Hnt; reflexivity|].
      split; [rewrite Hgu by (cbn; tauto) | rewrite Hgt by (cbn; tauto)];
        vm_compute; reflexivity.
    + destruct (run no_parse sample_response) as [[t' u']|] eqn:Hr;
        [|vm_compute in Hr; discriminate Hr].
      exists t', u'. split; [reflexivity|].
      destruct (Hrun t' u' eq_refl) as (posts & Hposts & Ht' & Hu' & _).
      injection Hposts as <-. now split.
Defined.

(** ** The author join *)

Section AuthorJoin.




Lemma rmap_Err_inv {A B} (f : A -> result B) (xs : list A) (e : exn) :
  rmap f xs = Err e -> exists x, In x xs /\ f x = Err e.
Proof.
  induction xs as [|x xs IH]; cbn; [discriminate|].
  destruct (f x) as [y|e'] eqn:Hfx; cbn.
  - destruct (rmap f xs) as [ys|e'']; cbn; [discriminate|].
    intros [= ->]. destruct IH as (x' & Hin & Hf); [reflexivity|].
    exists x'. auto.
  - intros [= ->]. exists x. auto.
Qed.


Lemma users_lookup_Err (includes : list User) (e : exn) :
  users_lookup includes = Err e -> exn_cls e = KeyError.
Proof.
  unfold users_lookup. intros Hrm. apply rmap_Err_inv in Hrm as (entry & _ & Hf).
  unfold user_data in Hf. destruct (user_public_metrics (snd entry)); cbn in Hf.
  - discriminate.
  - now injection Hf as <-.
Qed.


End AuthorJoin.

(** ** Renaming and date casting *)

Section Cleaning.
Variable parse : string -> option datetime.

(** A table whose columns are a given list of literals, taken apart. *)
Ltac explode_columns df H :=
  destruct df as [n cs]; unfold columns in H; cbn [cols] in H;
  repeat (destruct cs as [|[? ?] cs]; [discriminate H|]);
  destruct cs; [|discriminate H];
  cbn in H; injection H; intros; subst.

(** The cast of a column, cell by cell. *)
Lemma to_dates_spec (series : list value) :
  (forall v, In v series -> exists t, to_datetime parse v = Ok t) ->
  exists dates,
    to_dates parse series = Ok dates
    /\ List.length dates = List.length series
    /\ (forall i ts, nth_error series i = Some (VDatetime ts) ->
                     nth_error dates i = Some (VDate (date_of ts))).
Proof.
  intros Hall. unfold to_dates.
  destruct (rmap_Ok (fun v => rbind (to_datetime parse v) (fun t => Ok (dt_date t))) series)
    as [dates Hdates].
  { intros v Hv. destruct (Hall v Hv) as [t ->]. cbn. now eexists. }
  exists dates. split; [assumption|]. split; [now apply rmap_length in Hdates|].
  apply rmap_Ok_Forall2 in Hdates.
  induction Hdates as [|v d vs ds Hvd _ IH]; intros i ts Hnth.
  - now destruct i.
  - destruct i as [|i]; cbn [nth_error] in *.
    + injection Hnth as ->. cbn [to_datetime] in Hvd. unfold timestamp_of in Hvd.
      destruct (in_bounds ts); cbn [rbind dt_date] in Hvd; congruence.
    + apply IH; [|assumption]. intros v' Hv'. apply Hall. now right.
Qed.

Lemma assign_dates_spec (df : DataFrame) (name : string) (series : list value) :
  column df name = Some series ->
  (forall v, In v series -> exists t, to_datetime parse v = Ok t) ->
  exists df' dates,
    assign_dates parse df name = Ok df'
    /\ columns df' = columns df
    /\ nrows df' = nrows df
    /\ column df' name = Some dates
    /\ List.length dates = List.length series
    /\ (forall i ts, nth_error series i = Some (VDatetime ts) ->
                     nth_error dates i = Some (VDate (date_of ts)))
    /\ (forall c, c <> name -> column df' c = column df c).
Proof.
  intros Hcol Hall. unfold assign_dates. rewrite Hcol.
  destruct (to_dates_spec series Hall) as (dates & -> & Hlen & Hnth). cbn [rbind].
  exists (set_column df name dates), dates. split; [reflexivity|].
  split; [|split; [reflexivity|split; [|split; [assumption|split; [assumption|]]]]].
  - unfold columns, set_column. cbn [cols]. apply mset_present_keys.
    now apply column_Some_In in Hcol.
  - unfold column, set_column. cbn [cols]. apply mget_mset_same.
  - intros c Hne. unfold column, set_column. cbn [cols]. now apply mget_mset_other.
Qed.

Lemma renamed_tweets (df : DataFrame) :
  columns df = tweets_columns ->
  columns (rename df (tweets_renaming "tw_")) = map (append "tw_") tweets_destinations
  /\ column (rename df (tweets_renaming "tw_")) "tw_fecha" = column df "created_at".
Proof.
  intros H. split.
  - rewrite rename_columns, H. reflexivity.
  - explode_columns df H. reflexivity.
Qed.

Lemma renamed_users (df : DataFrame) :
  columns df = users_columns ->
  columns (rename df (users_renaming "us_")) = map (append "us_") users_destinations
  /\ column (rename df (users_renaming "us_")) "us_fecha_creacion"
     = column df "user_created_at".
Proof.
  intros H. split.
  - rewrite rename_columns, H. reflexivity.
  - explode_columns df H. reflexivity.
Qed.

(** What [clean_data] returns on tables with the segregated schema. *)
Lemma clean_data_spec (tweets_df users_df : DataFrame) (posted created : list value) :
  columns tweets_df = tweets_columns ->
  columns users_df = users_columns ->
  column tweets_df "created_at" = Some posted ->
  column users_df "user_created_at" = Some created ->
  (forall v, In v posted -> exists t, to_datetime parse v = Ok t) ->
  (forall v, In v created -> exists t, to_datetime parse v = Ok t) ->
  exists t u posted_dates created_dates,
    clean_data parse tweets_df users_df = Ok (t, u)
    /\ columns t = map (append "tw_") tweets_destinations
    /\ columns u = map (append "us_") users_destinations
    /\ nrows t = nrows tweets_df
    /\ nrows u = nrows users_df
    /\ column t "tw_fecha" = Some posted_dates
    /\ column u "us_fecha_creacion" = Some created_dates
    /\ (forall i ts, nth_error posted i = Some (VDatetime ts) ->
                     nth_error posted_dates i = Some (VDate (date_of ts)))
    /\ (forall i ts, nth_error created i = Some (VDatetime ts) ->
                     nth_error created_dates i = Some (VDate (date_of ts))).
Proof.
  intros Hct Hcu Hposted Hcreated Hcast_t Hcast_u.
  destruct (renamed_tweets tweets_df Hct) as [Hrt Hft].
  destruct (renamed_users users_df Hcu) as [Hru Hfu].
  unfold clean_data.
  destruct (assign_dates_spec (rename tweets_df (tweets_renaming "tw_")) "tw_fecha" posted)
    as (t & pd & -> & Hcols_t & Hn_t & Hcol_t & _ & Hnth_t & _);
    [congruence | assumption |].
  cbn [rbind].
  destruct (assign_dates_spec (rename users_df (users_renaming "us_"))
                              "us_fecha_creacion" created)
    as (u & cd & -> & Hcols_u & Hn_u & Hcol_u & _ & Hnth_u & _);
    [congruence | assumption |].
  cbn [rbind]. exists t, u, pd, cd.
  repeat split; try assumption; congruence.
Qed.

End Cleaning.








(** ** The collection loops *)

Section Collection.
Variable request : Call -> list Call -> result (DataFrame * DataFrame).
Variable self : DownloadTweets.

Lemma bind_Ok {A B} (m : M A) (k : A -> M B) (st st' : State) (a : A) :
  m st = (Ok a, st') -> bind m k st = k a st'.
Proof. unfold bind. now intros ->. Qed.

Lemma bind_Err {A B} (m : M A) (k : A -> M B) (st st' : State) (e : exn) :
  m st = (Err e, st') -> bind m k st = (Err e, st').
Proof. unfold bind. now intros ->. Qed.

Lemma get_batch_Ok (candidate start_time end_time : string) (st : State)
      (out : DataFrame * DataFrame) :
  let c := mkCall candidate start_time end_time (max_results self)
                  (tweets_prefix self) (users_prefix self) in
  request c (requests st) = Ok out ->
  get_batch request self candidate start_time end_time st
  = (Ok (labelled c out, snd out), batch_done st c out).
Proof.
  intros c Hreq. unfold get_batch, bind, twitter_request. fold c. rewrite Hreq.
  reflexivity.
Qed.

Lemma get_batch_Err (candidate start_time end_time : string) (st : State) (e : exn) :
  let c := mkCall candidate start_time end_time (max_results self)
                  (tweets_prefix self) (users_prefix self) in
  request c (requests st) = Err e ->
  get_batch request self candidate start_time end_time st = (Err e, sent c st).
Proof.
  intros c Hreq. unfold get_batch, bind, twitter_request. fold c. now rewrite Hreq.
Qed.

(** The inner loop sends the calls of its candidate in order and stops at
    the first that raises. *)
Lemma for_dates_serve (candidate : string) (pairs : list (string * string)) :
  forall (st : State) (tc uc : list DataFrame),
    for_dates request self candidate pairs tc uc st
    = (match serve request (requests st) (calls_for self pairs candidate) with
       | (outs, None) =>
           Ok ((tc ++ map (fun co => labelled (fst co) (snd co))
                          (combine (calls_for self pairs candidate) outs))%list,
               (uc ++ map snd outs)%list)
       | (_, Some e) => Err e
       end,
       after request st (calls_for self pairs candidate)).
Proof.
  induction pairs as [|[start_time end_time] pairs IH]; intros st tc uc.
  - cbn. now rewrite !app_nil_r.
  - cbn [for_dates calls_for map serve after fst snd].
    set (c := mkCall candidate start_time end_time (max_results self)
                     (tweets_prefix self) (users_prefix self)).
    destruct (request c (requests st)) as [out|e] eqn:Hreq.
    + rewrite (bind_Ok _ _ st _ _ (get_batch_Ok candidate start_time end_time st out Hreq)).
      fold c. rewrite IH. cbn [fst snd].
      change (requests (batch_done st c out)) with (requests st ++ [c])%list.
      fold (calls_for self pairs candidate).
      destruct (serve request (requests st ++ [c]) (calls_for self pairs candidate))
        as [outs [e|]]; [reflexivity|].
      cbn [combine map fst snd]. now rewrite <- !app_assoc.
    + now rewrite (bind_Err _ _ st _ _ (get_batch_Err candidate start_time end_time st e Hreq)).
Qed.

Lemma serve_length (calls : list Call) :
  forall (history : list Call) (outs : list (DataFrame * DataFrame)),
    serve request history calls = (outs, None) -> List.length outs = List.length calls.
Proof.
  induction calls as [|c calls IH]; intros history outs; cbn.
  - now intros [= <-].
  - destruct (request c history); [|discriminate].
    destruct (serve request (history ++ [c]) calls) as [outs' f] eqn:Hrest.
    intros [= <- ->]. cbn. f_equal. now apply (IH _ _ Hrest).
Qed.

Lemma serve_app_Ok (a b : list Call) :
  forall (history : list Call) (outs : list (DataFrame * DataFrame)),
    serve request history a = (outs, None) ->
    serve request history (a ++ b)
    = (let (outs', failure) := serve request (history ++ a) b in
       ((outs ++ outs')%list, failure)).
Proof.
  induction a as [|c a IH]; intros history outs; cbn.
  - intros [= <-]. rewrite app_nil_r. now destruct (serve request history b).
  - destruct (request c history); [|discriminate].
    destruct (serve request (history ++ [c]) a) as [outs' f] eqn:Ha.
    intros [= <- ->]. rewrite (IH _ _ Ha). rewrite <- app_assoc. cbn.
    now destruct (serve request (history ++ c :: a) b).
Qed.

Lemma serve_app_Err (a b : list Call) :
  forall (history : list Call) (outs : list (DataFrame * DataFrame)) (e : exn),
    serve request history a = (outs, Some e) ->
    serve request history (a ++ b) = (outs, Some e).
Proof.
  induction a as [|c a IH]; intros history outs e; cbn; [discriminate|].
  destruct (request c history); [|easy].
  destruct (serve request (history ++ [c]) a) as [outs' f] eqn:Ha.
  intros [= <- ->]. now rewrite (IH _ _ _ Ha).
Qed.

Lemma after_requests_Ok (calls : list Call) :
  forall (st : State) (outs : list (DataFrame * DataFrame)),
    serve request (requests st) calls = (outs, None) ->
    requests (after request st calls) = (requests st ++ calls)%list.
Proof.
  induction calls as [|c calls IH]; intros st outs; cbn.
  - now rewrite app_nil_r.
  - destruct (request c (requests st)) as [out|]; [|discriminate].
    destruct (serve request (requests st ++ [c]) calls) as [outs' f] eqn:Hrest.
    intros [= <- ->]. rewrite (IH (batch_done st c out) outs' Hrest). cbn.
    now rewrite <- app_assoc.
Qed.

(** When a call raises, it is the last one sent. *)
Lemma after_requests_Err (calls : list Call) :
  forall (st : State) (outs : list (DataFrame * DataFrame)) (e : exn),
    serve request (requests st) calls = (outs, Some e) ->
    requests (after request st calls)
    = (requests st ++ firstn (S (List.length outs)) calls)%list
    /\ (List.length outs < List.length calls)%nat.
Proof.
  induction calls as [|c calls IH]; intros st outs e; cbn [serve after]; [discriminate|].
  destruct (request c (requests st)) as [out|].
  - destruct (serve request (requests st ++ [c]) calls) as [outs' f] eqn:Hrest.
    intros [= <- ->]. destruct (IH (batch_done st c out) outs' e Hrest) as [-> Hlt].
    split; [|cbn; lia]. cbn. now rewrite <- app_assoc.
  - intros [= <- <-]. split; [reflexivity | cbn; lia].
Qed.

Lemma after_app_Ok (a b : list Call) :
  forall (st : State) (outs : list (DataFrame * DataFrame)),
    serve request (requests st) a = (outs, None) ->
    after request st (a ++ b) = after request (after request st a) b.
Proof.
  induction a as [|c a IH]; intros st outs; cbn; [reflexivity|].
  destruct (request c (requests st)) as [out|]; [|discriminate].
  destruct (serve request (requests st ++ [c]) a) as [outs' f] eqn:Ha.
  intros [= <- ->]. now apply (IH (batch_done st c out) outs').
Qed.

Lemma after_app_Err (a b : list Call) :
  forall (st : State) (outs : list (DataFrame * DataFrame)) (e : exn),
    serve request (requests st) a = (outs, Some e) ->
    after request st (a ++ b) = after request st a.
Proof.
  induction a as [|c a IH]; intros st outs e; cbn; [discriminate|].
  destruct (request c (requests st)) as [out|]; [|reflexivity].
  destruct (serve request (requests st ++ [c]) a) as [outs' f] eqn:Ha.
  intros [= <- ->]. now apply (IH (batch_done st c out) outs' e).
Qed.

(** Sending calls touches neither the attributes of the object nor the
    files. *)
Lemma after_frame (calls : list Call) :
  forall st : State,
    dates (after request st calls) = dates st
    /\ tweets (after request st calls) = tweets st
    /\ users (after request st calls) = users st
    /\ data_dir (after request st calls) = data_dir st
    /\ tweets_csv (after request st calls) = tweets_csv st
    /\ users_csv (after request st calls) = users_csv st
    /\ (forall msg, In (ERROR, msg) (logged (after request st calls)) ->
                    In (ERROR, msg) (logged st)).
Proof.
  induction calls as [|c calls IH]; intros st; cbn [after].
  - repeat split; auto.
  - destruct (request c (requests st)) as [out|].
    + destruct (IH (batch_done st c out)) as (H1 & H2 & H3 & H4 & H5 & H6 & H7).
      repeat split; try assumption.
      intros msg Hin. apply H7 in Hin. cbn in Hin.
      apply in_app_or in Hin as [Hin | [Hin | []]]; [assumption | discriminate].
    + repeat split; auto.
Qed.

End Collection.

(** ** Concatenation *)

Section Stacking.

Lemma existsb_eqb_In (l : string) (seen : list string) :
  existsb (String.eqb l) seen = true <-> In l seen.
Proof.
  rewrite existsb_exists. split.
  - intros (x & Hin & Heq). apply String.eqb_eq in Heq. now subst.
  - intros Hin. exists l. split; [assumption | apply String.eqb_refl].
Qed.

Lemma union_labels_app (a b : list string) :
  forall seen, union_labels seen (a ++ b) = union_labels (union_labels seen a) b.
Proof.
  induction a as [|l a IH]; intros seen; cbn; [reflexivity|].
  destruct (existsb (String.eqb l) seen); apply IH.
Qed.

Lemma union_labels_seen (ls : list string) :
  forall seen x, In x seen -> In x (union_labels seen ls).
Proof.
  induction ls as [|l ls IH]; intros seen x Hin; cbn; [assumption|].
  destruct (existsb (String.eqb l) seen); apply IH; [assumption|].
  apply in_or_app. now left.
Qed.

Lemma union_labels_In (ls : list string) :
  forall seen x, In x ls -> In x (union_labels seen ls).
Proof.
  induction ls as [|l ls IH]; intros seen x; cbn; [easy|].
  intros [<- | Hin].
  - destruct (existsb (String.eqb l) seen) eqn:Hseen.
    + apply union_labels_seen. now apply existsb_eqb_In.
    + apply union_labels_seen, in_or_app. right. now left.
  - destruct (existsb (String.eqb l) seen); now apply IH.
Qed.

Lemma union_labels_known (ls seen : list string) :
  (forall x, In x ls -> In x seen) -> union_labels seen ls = seen.
Proof.
  induction ls as [|l ls IH]; intros Hall; cbn; [reflexivity|].
  assert (Hl : existsb (String.eqb l) seen = true)
    by (apply existsb_eqb_In, Hall; now left).
  rewrite Hl. apply IH. intros x Hx. apply Hall. now right.
Qed.

Lemma union_labels_fresh (ls : list string) :
  forall seen, NoDup ls -> (forall x, In x ls -> ~ In x seen) ->
               union_labels seen ls = (seen ++ ls)%list.
Proof.
  induction ls as [|l ls IH]; intros seen Hnd Hfresh; cbn; [now rewrite app_nil_r|].
  inversion Hnd as [|? ? Hnotin Hnd']; subst.
  destruct (existsb (String.eqb l) seen) eqn:Hseen.
  - apply existsb_eqb_In in Hseen. exfalso. apply (Hfresh l); [now left | assumption].
  - rewrite IH; [now rewrite <- app_assoc | assumption |].
    intros x Hx Hin. apply in_app_or in Hin as [Hin | [<- | []]].
    + apply (Hfresh x); [now right | assumption].
    + contradiction.
Qed.

Lemma mget_tabulate {V} (f : string -> V) (labels : list string) (c : string) :
  In c labels -> mget String.eqb (map (fun l => (l, f l)) labels) c = Some (f c).
Proof.
  induction labels as [|l labels IH]; cbn; [easy|].
  destruct (String.eqb_spec l c) as [-> | Hne]; [reflexivity|].
  intros [Heq | Hin]; [congruence | now apply IH].
Qed.

Lemma nrows_stacked (frames : list DataFrame) :
  nrows (stacked frames) = list_sum (map nrows frames).
Proof. reflexivity. Qed.

Lemma columns_stacked (frames : list DataFrame) :
  columns (stacked frames) = union_labels [] (List.concat (map columns frames)).
Proof. unfold columns, stacked. cbn. rewrite map_map. cbn. apply map_id. Qed.

(** The cells of a column of the concatenation are the cells of the frames,
    frame after frame. *)
Lemma cells_stacked (c : string) (frames : list DataFrame) :
  cells c (stacked frames) = List.concat (map (cells c) frames).
Proof.
  unfold cells at 1, column. unfold stacked at 1. cbn [cols].
  set (labels := union_labels [] (List.concat (map columns frames))).
  destruct (in_dec string_dec c labels) as [Hin | Hnot].
  - now rewrite mget_tabulate.
  - rewrite mget_not_In by (rewrite map_map; cbn; now rewrite map_id).
    rewrite nrows_stacked.
    assert (Hall : forall f, In f frames -> cells c f = repeat NaN (nrows f)).
    { intros f Hf. unfold cells.
      destruct (column f c) as [series|] eqn:Hcol; [|reflexivity].
      exfalso. apply Hnot. apply union_labels_In.
      apply in_concat. exists (columns f). split; [now apply in_map|].
      now apply column_Some_In in Hcol. }
    clear Hnot. induction frames as [|f frames IH]; cbn; [reflexivity|].
    rewrite repeat_app, (Hall f) by now left.
    f_equal. apply IH. intros f' Hf'. apply Hall. now right.
Qed.

Lemma columns_stacked_uniform (frames : list DataFrame) (labels : list string) :
  frames <> [] -> NoDup labels ->
  (forall f, In f frames -> columns f = labels) ->
  columns (stacked frames) = labels.
Proof.
  intros Hne Hnd Hall. rewrite columns_stacked.
  destruct frames as [|f frames]; [contradiction|]. cbn [map List.concat].
  rewrite union_labels_app. rewrite (Hall f) by now left.
  rewrite (union_labels_fresh labels []); [|assumption|intros x _ []]. cbn [app].
  apply union_labels_known. intros x Hx.
  apply in_concat in Hx as (l & Hl & Hx). apply in_map_iff in Hl as (f' & <- & Hf').
  rewrite (Hall f') in Hx by now right. assumption.
Qed.

Lemma cells_stacked_groups (c : string) (groups : list (list DataFrame)) :
  cells c (stacked (map stacked groups))
  = List.concat (map (cells c) (List.concat groups)).
Proof.
  rewrite cells_stacked, map_map.
  induction groups as [|g groups IH]; cbn; [reflexivity|].
  now rewrite cells_stacked, map_app, concat_app, IH.
Qed.

Lemma nrows_stacked_groups (groups : list (list DataFrame)) :
  nrows (stacked (map stacked groups)) = list_sum (map nrows (List.concat groups)).
Proof.
  rewrite nrows_stacked, map_map.
  induction groups as [|g groups IH]; [reflexivity|].
  cbn [map List.concat]. rewrite map_app, list_sum_app, <- IH.
  reflexivity.
Qed.

Lemma columns_stacked_groups (groups : list (list DataFrame)) (labels : list string) :
  groups <> [] -> Forall (fun g => g <> []) groups -> NoDup labels ->
  (forall f, In f (List.concat groups) -> columns f = labels) ->
  columns (stacked (map stacked groups)) = labels.
Proof.
  intros Hne Hgroups Hnd Hall. apply columns_stacked_uniform; [|assumption|].
  - destruct groups; [contradiction | discriminate].
  - intros f Hf. apply in_map_iff in Hf as (g & <- & Hg).
    apply columns_stacked_uniform; [|assumption|].
    + rewrite Forall_forall in Hgroups. now apply Hgroups.
    + intros f Hf. apply Hall. apply in_concat. now exists g.
Qed.

End Stacking.

(** ** The outer loop and [download_tweets] *)

Section Collecting.
Variable request : Call -> list Call -> result (DataFrame * DataFrame).
Variable self : DownloadTweets.

Lemma concat_frames_Ok (frames : list DataFrame) :
  frames <> [] -> concat_frames frames = Ok (stacked frames).
Proof. destruct frames; [contradiction | reflexivity]. Qed.

Lemma combine_app_same {A B} (a a' : list A) (b b' : list B) :
  List.length a = List.length b ->
  combine (a ++ a') (b ++ b') = (combine a b ++ combine a' b')%list.
Proof.
  revert b. induction a as [|x a IH]; intros [|y b]; cbn; try discriminate; [reflexivity|].
  intros [= Hlen]. now rewrite IH.
Qed.

Lemma map_snd_combine {A B C} (f : B -> C) (a : list A) (b : list B) :
  List.length b = List.length a ->
  map (fun co => f (snd co)) (combine a b) = map f b.
Proof.
  revert b. induction a as [|x a IH]; intros [|y b]; cbn; try discriminate; [reflexivity|].
  intros [= Hlen]. now rewrite IH.
Qed.

Lemma calls_for_length (pairs : list (string * string)) (candidate : string) :
  List.length (calls_for self pairs candidate) = List.length pairs.
Proof. unfold calls_for. apply length_map. Qed.

Lemma for_candidates_step (candidate : string) (rest : list string)
      (tc uc : list DataFrame) (st : State) :
  for_candidates request self (candidate :: rest) tc uc st
  = match for_dates request self candidate (dates st) [] [] st with
    | (Ok collected, st') =>
        match concat_frames (fst collected) with
        | Ok t =>
            match concat_frames (snd collected) with
            | Ok u => for_candidates request self rest (tc ++ [t]) (uc ++ [u]) st'
            | Err e => (Err e, st')
            end
        | Err e => (Err e, st')
        end
    | (Err e, st') => (Err e, st')
    end.
Proof.
  cbn [for_candidates]. unfold bind, gets, lift.
  destruct (for_dates request self candidate (dates st) [] [] st) as [[collected|e] st'];
    [|reflexivity].
  destruct (concat_frames (fst collected)); [|reflexivity].
  now destruct (concat_frames (snd collected)).
Qed.

(** When every call is answered, the outer loop collects one concatenated
    table per candidate, made of the batches of that candidate in order. *)
Lemma for_candidates_Ok (pairs : list (string * string)) (cs : list string) :
  pairs <> [] ->
  forall (st : State) (tc uc : list DataFrame) (outs : list (DataFrame * DataFrame)),
    dates st = pairs ->
    serve request (requests st) (grid self pairs cs) = (outs, None) ->
    exists gt gu : list (list DataFrame),
      for_candidates request self cs tc uc st
      = (Ok ((tc ++ map stacked gt)%list, (uc ++ map stacked gu)%list),
         after request st (grid self pairs cs))
      /\ List.concat gt
         = map (fun co => labelled (fst co) (snd co)) (combine (grid self pairs cs) outs)
      /\ List.concat gu = map snd outs
      /\ List.length gt = List.length cs
      /\ List.length gu = List.length cs
      /\ Forall (fun g => g <> []) gt
      /\ Forall (fun g => g <> []) gu.
Proof.
  intros Hne. induction cs as [|candidate cs IH]; intros st tc uc outs Hdates Hserve.
  - cbn in Hserve. injection Hserve as <-. exists [], []. cbn.
    rewrite !app_nil_r. repeat split; constructor.
  - cbn [grid flat_map] in Hserve |- *. fold (grid self pairs cs) in Hserve |- *.
    set (a := calls_for self pairs candidate) in *.
    destruct (serve request (requests st) a) as [o1 [e1|]] eqn:Ha.
    { rewrite (serve_app_Err request a _ _ _ _ Ha) in Hserve. discriminate. }
    rewrite (serve_app_Ok request a _ _ _ Ha) in Hserve.
    destruct (serve request (requests st ++ a) (grid self pairs cs)) as [o2 f2] eqn:Hb.
    injection Hserve as <- ->.
    assert (Hlen : List.length a = List.length o1)
      by (symmetry; apply (serve_length request a _ _ Ha)).
    assert (Ho1 : o1 <> []).
    { intros ->. unfold a in Hlen. rewrite calls_for_length in Hlen.
      destruct pairs; [contradiction | discriminate]. }
    rewrite for_candidates_step, Hdates, for_dates_serve. fold a. rewrite Ha.
    cbn [fst snd app].
    rewrite !concat_frames_Ok.
    2:{ destruct o1; [contradiction | discriminate]. }
    2:{ destruct a, o1; try contradiction; discriminate. }
    destruct (after_frame request a st) as (Hd & _).
    destruct (IH (after request st a)
                 (tc ++ [stacked (map (fun co => labelled (fst co) (snd co)) (combine a o1))])%list
                 (uc ++ [stacked (map snd o1)])%list o2)
      as (gt & gu & Hrun & Hgt & Hgu & Hlt & Hlu & Hnt & Hnu).
    { congruence. }
    { now rewrite (after_requests_Ok request a st o1 Ha). }
    exists (map (fun co => labelled (fst co) (snd co)) (combine a o1) :: gt),
           (map snd o1 :: gu).
    rewrite Hrun, (after_app_Ok request a _ st o1 Ha), <- !app_assoc.
    cbn [app map List.concat List.length].
    rewrite Hgt, Hgu, Hlt, Hlu, combine_app_same, !map_app by assumption.
    repeat split; try (constructor; try assumption).
    all: try (destruct a, o1; try contradiction; discriminate).
Qed.

(** When a call raises, the outer loop stops there with its exception. *)
Lemma for_candidates_Err (pairs : list (string * string)) (cs : list string) :
  pairs <> [] ->
  forall (st : State) (tc uc : list DataFrame) (outs : list (DataFrame * DataFrame))
         (e : exn),
    dates st = pairs ->
    serve request (requests st) (grid self pairs cs) = (outs, Some e) ->
    for_candidates request self cs tc uc st
    = (Err e, after request st (grid self pairs cs)).
Proof.
  intros Hne. induction cs as [|candidate cs IH]; intros st tc uc outs e Hdates Hserve.
  - discriminate.
  - cbn [grid flat_map] in Hserve |- *. fold (grid self pairs cs) in Hserve |- *.
    set (a := calls_for self pairs candidate) in *.
    rewrite for_candidates_step, Hdates, for_dates_serve. fold a.
    destruct (serve request (requests st) a) as [o1 [e1|]] eqn:Ha.
    + rewrite (serve_app_Err request a _ _ _ _ Ha) in Hserve. injection Hserve as <- <-.
      now rewrite (after_app_Err request a _ st o1 e1 Ha).
    + rewrite (serve_app_Ok request a _ _ _ Ha) in Hserve.
      destruct (serve request (requests st ++ a) (grid self pairs cs)) as [o2 f2] eqn:Hb.
      injection Hserve as <- ->.
      assert (Hlen : List.length a = List.length o1)
        by (symmetry; apply (serve_length request a _ _ Ha)).
      assert (Ho1 : o1 <> []).
      { intros ->. unfold a in Hlen. rewrite calls_for_length in Hlen.
        destruct pairs; [contradiction | discriminate]. }
      cbn [fst snd app].
      rewrite !concat_frames_Ok.
      2:{ destruct o1; [contradiction | discriminate]. }
      2:{ destruct a, o1; try contradiction; discriminate. }
      destruct (after_frame request a st) as (Hd & _).
      rewrite (after_app_Ok request a _ st o1 Ha).
      apply (IH _ _ _ o2); [congruence|].
      now rewrite (after_requests_Ok request a st o1 Ha).
Qed.


Lemma download_tweets_unfold (st : State) (pairs : list (string * string)) :
  generate_dates_by one_day one_day_positive (start_date self) (end_date self) = Ok pairs ->
  let st1 := log_line INFO ("Generated " ++ str_of_nat (List.length pairs)
                            ++ " date pairs for tweet downloads.")
                      (set_dates pairs st) in
  download_tweets request self st
  = match for_candidates request self (candidates self) [] [] st1 with
    | (Ok collected, st2) =>
        match concat_frames (fst collected) with
        | Ok t =>
            match concat_frames (snd collected) with
            | Ok u =>
                (Ok (t, u),
                 log_line INFO ("Downloaded a total of " ++ str_of_nat (nrows t)
                                ++ " tweets and " ++ str_of_nat (nrows u) ++ " users.")
                          (set_users u (set_tweets t st2)))
            | Err e => (Err e, set_tweets t st2)
            end
        | Err e => (Err e, st2)
        end
    | (Err e, st2) => (Err e, st2)
    end.
Proof.
  intros Hgen st1.
  unfold download_tweets, bind at 1.
  rewrite (generate_dates_returns self st pairs Hgen).
  unfold logger_info, bind, gets, lift, modify, ret.
  cbn [dates set_dates log_line].
  change (log_line INFO ("Generated " ++ str_of_nat (List.length pairs)
                         ++ " date pairs for tweet downloads.") (set_dates pairs st))
    with st1.
  destruct (for_candidates request self (candidates self) [] [] st1)
    as [[collected|e] st2]; [|reflexivity].
  destruct (concat_frames (fst collected)); [|reflexivity].
  now destruct (concat_frames (snd collected)).
Qed.


Lemma cells_labelled (c : Call) (out : DataFrame * DataFrame) :
  cells "candidato" (labelled c out) = repeat (VStr (call_query c)) (nrows (fst out)).
Proof.
  unfold cells, column, labelled, set_scalar, set_column. cbn [cols].
  now rewrite mget_mset_same.
Qed.

End Collecting.

(** ** [download_tweets], [main] and the script *)

Section Runs.
Variable request : Call -> list Call -> result (DataFrame * DataFrame).
Variable self : DownloadTweets.

Lemma grid_length (pairs : list (string * string)) (cs : list string) :
  List.length (grid self pairs cs) = (List.length cs * List.length pairs)%nat.
Proof.
  unfold grid. induction cs as [|c cs IH]; [reflexivity|].
  cbn [flat_map]. rewrite length_app, IH, calls_for_length. cbn. lia.
Qed.

(** Candidate-major, then date-minor: the call of the [i]-th candidate for
    the [j]-th date pair is sent at position [i * |pairs| + j]. *)
Lemma grid_nth (pairs : list (string * string)) (cs : list string)
      (i j : nat) (candidate : string) (p : string * string) :
  nth_error cs i = Some candidate ->
  nth_error pairs j = Some p ->
  nth_error (grid self pairs cs) (i * List.length pairs + j)
  = Some (mkCall candidate (fst p) (snd p) (max_results self)
                 (tweets_prefix self) (users_prefix self)).
Proof.
  revert i. induction cs as [|c cs IH]; intros i Hi Hj; [now destruct i|].
  cbn [grid flat_map]. fold (grid self pairs cs).
  destruct i as [|i]; cbn in Hi.
  - injection Hi as ->. cbn [Nat.mul Nat.add].
    rewrite nth_error_app1
      by (rewrite calls_for_length; apply nth_error_Some; congruence).
    unfold calls_for. rewrite nth_error_map, Hj. reflexivity.
  - rewrite nth_error_app2 by (rewrite calls_for_length; cbn; lia).
    rewrite calls_for_length.
    replace (S i * List.length pairs + j - List.length pairs)%nat
      with (i * List.length pairs + j)%nat by (cbn; lia).
    now apply IH.
Qed.

(** The successful run: the two tables are concatenations of the
    per-candidate concatenations of the batches. *)
Lemma download_tweets_Ok (st : State) (pairs : list (string * string))
      (outs : list (DataFrame * DataFrame)) :
  let calls := grid self pairs (candidates self) in
  generate_dates_by one_day one_day_positive (start_date self) (end_date self) = Ok pairs ->
  candidates self <> [] ->
  start_date self < end_date self ->
  serve request (requests st) calls = (outs, None) ->
  exists (gt gu : list (list DataFrame)) (st' : State),
    download_tweets request self st
    = (Ok (stacked (map stacked gt), stacked (map stacked gu)), st')
    /\ List.concat gt = map (fun co => labelled (fst co) (snd co)) (combine calls outs)
    /\ List.concat gu = map snd outs
    /\ gt <> [] /\ gu <> []
    /\ Forall (fun g => g <> []) gt
    /\ Forall (fun g => g <> []) gu
    /\ requests st' = (requests st ++ calls)%list
    /\ tweets st' = Some (stacked (map stacked gt))
    /\ users st' = Some (stacked (map stacked gu)).
Proof.
  intros calls Hgen Hcs Hlt Hserve.
  assert (Hpairs : pairs <> [])
    by now apply (generate_dates_by_nonempty one_day one_day_positive _ _ pairs Hlt).
  rewrite (download_tweets_unfold request self st pairs Hgen).
  set (st1 := log_line INFO _ (set_dates pairs st)).
  destruct (for_candidates_Ok request self pairs (candidates self) Hpairs st1 [] [] outs)
    as (gt & gu & Hrun & Hgt & Hgu & Hlt' & Hlu & Hnt & Hnu); [reflexivity | exact Hserve |].
  fold calls in Hrun, Hgt. rewrite Hrun. cbn [fst snd app].
  assert (Hgt_ne : gt <> [])
    by (destruct gt, (candidates self); try contradiction; discriminate).
  assert (Hgu_ne : gu <> [])
    by (destruct gu, (candidates self); try contradiction; discriminate).
  rewrite !concat_frames_Ok.
  2:{ destruct gu; [contradiction | discriminate]. }
  2:{ destruct gt; [contradiction | discriminate]. }
  exists gt, gu. eexists. split; [reflexivity|].
  repeat (split; [assumption|]).
  split; [|split; reflexivity].
  cbn [requests log_line set_users set_tweets].
  now rewrite (after_requests_Ok request calls st1 outs Hserve).
Qed.

(** The run in which a request raises. *)
Lemma download_tweets_Err (st : State) (pairs : list (string * string))
      (outs : list (DataFrame * DataFrame)) (e : exn) :
  let calls := grid self pairs (candidates self) in
  generate_dates_by one_day one_day_positive (start_date self) (end_date self) = Ok pairs ->
  serve request (requests st) calls = (outs, Some e) ->
  exists st',
    download_tweets request self st = (Err e, st')
    /\ requests st' = (requests st ++ firstn (S (List.length outs)) calls)%list
    /\ tweets st' = tweets st
    /\ users st' = users st
    /\ data_dir st' = data_dir st
    /\ tweets_csv st' = tweets_csv st
    /\ users_csv st' = users_csv st
    /\ (forall msg, In (ERROR, msg) (logged st') -> In (ERROR, msg) (logged st)).
Proof.
  intros calls Hgen Hserve.
  assert (Hpairs : pairs <> []).
  { intros Hnil. unfold calls in Hserve. rewrite Hnil in Hserve.
    assert (Hgrid : grid self [] (candidates self) = [])
      by (apply length_zero_iff_nil; rewrite grid_length; cbn; lia).
    rewrite Hgrid in Hserve. discriminate. }
  rewrite (download_tweets_unfold request self st pairs Hgen).
  set (st1 := log_line INFO _ (set_dates pairs st)).
  rewrite (for_candidates_Err request self pairs (candidates self) Hpairs st1 [] [] outs e);
    [|reflexivity|exact Hserve].
  fold calls. eexists. split; [reflexivity|].
  destruct (after_frame request calls st1) as (_ & H2 & H3 & H4 & H5 & H6 & H7).
  destruct (after_requests_Err request calls st1 outs e Hserve) as [Hreq _].
  repeat split; try assumption.
  intros msg Hin. apply H7 in Hin. cbn in Hin.
  apply in_app_or in Hin as [Hin | [Hin | []]]; [assumption | discriminate].
Qed.


Lemma main_unfold (st : State) :
  main request self st
  = match download_tweets request self
            (log_line INFO "DownloadTweets initialized." (new_object st)) with
    | (Ok tu, st') => (Ok tu, st')
    | (Err e, st') =>
        (Err e, log_line ERROR ("Failed to download tweets: " ++ exn_str e) st')
    end.
Proof.
  unfold main, init, logger_info, logger_error, bind, modify, raise.
  now destruct (download_tweets request self _) as [[tu|e] st'].
Qed.

End Runs.

(** C2. When every request is answered, [download_tweets] sends exactly the
    calls of [grid]: for each candidate in order, one call per date pair in
    order, and nothing else. The posts table it returns holds, column by
    column, the cells of the labelled batches in that same order, so its
    [candidato] column reads, batch after batch, the candidate the batch was
    requested for, once per row of the batch. *)
Theorem download_tweets_candidate_major
    (request : Call -> list Call -> result (DataFrame * DataFrame))
    (self : DownloadTweets) (st : State) (pairs : list (string * string))
    (outs : list (DataFrame * DataFrame)) :
  generate_dates_by one_day one_day_positive (start_date self) (end_date self) = Ok pairs ->
  let calls := grid self pairs (candidates self) in
  candidates self <> [] ->
  start_date self < end_date self ->
  serve request (requests st) calls = (outs, None) ->
  exists t u st',
    download_tweets request self st = (Ok (t, u), st')
    /\ requests st' = (requests st ++ calls)%list
    /\ List.length calls = (List.length (candidates self) * List.length pairs)%nat
    /\ (forall i j candidate p,
          nth_error (candidates self) i = Some candidate ->
          nth_error pairs j = Some p ->
          nth_error calls (i * List.length pairs + j)
          = Some (mkCall candidate (fst p) (snd p) (max_results self)
                         (tweets_prefix self) (users_prefix self)))
    /\ List.length outs = List.length calls
    /\ (forall c, cells c t
                  = List.concat (map (fun co => cells c (labelled (fst co) (snd co)))
                                     (combine calls outs)))
    /\ cells "candidato" t
       = List.concat (map (fun co => repeat (VStr (call_query (fst co)))
                                            (nrows (fst (snd co))))
                          (combine calls outs))
    /\ nrows t = list_sum (map (fun out => nrows (fst out)) outs)
    /\ (forall c, cells c u = List.concat (map (fun out => cells c (snd out)) outs))
    /\ tweets st' = Some t
    /\ users st' = Some u.
Proof.
  intros Hgen calls Hcs Hlt Hserve.
  destruct (download_tweets_Ok request self st pairs outs Hgen Hcs Hlt Hserve)
    as (gt & gu & st' & Hrun & Hgt & Hgu & _ & _ & _ & _ & Hreq & Htw & Hus).
  fold calls in Hgt, Hreq.
  assert (Hlen : List.length outs = List.length calls)
    by apply (serve_length request calls _ _ Hserve).
  exists (stacked (map stacked gt)), (stacked (map stacked gu)), st'.
  split; [exact Hrun|]. split; [exact Hreq|].
  split; [apply grid_length|].
  split; [intros i j candidate p; apply grid_nth|]. split; [exact Hlen|].
  split; [|split; [|split; [|split; [|split; assumption]]]].
  - intros c. rewrite cells_stacked_groups, Hgt, map_map. reflexivity.
  - rewrite cells_stacked_groups, Hgt, map_map. apply f_equal, map_ext.
    intros co. apply cells_labelled.
  - rewrite nrows_stacked_groups, Hgt, map_map.
    rewrite <- (map_snd_combine (fun out => nrows (fst out)) calls outs Hlen).
    reflexivity.
  - intros c. rewrite cells_stacked_groups, Hgu, map_map. reflexivity.
Qed.

(** The scenario of two subjects and two days: four calls, alice before bob
    and day one before day two, and a [candidato] column that follows them. *)
Lemma download_tweets_candidate_major_witness :
  exists t u st',
    download_tweets sample_request scenario empty_state = (Ok (t, u), st')
    /\ requests st'
       = [mkCall "alice" "2023-05-21T00:00:00Z" "2023-05-22T00:00:00Z" 10 "tw_" "us_";
          mkCall "alice" "2023-05-22T00:00:00Z" "2023-05-23T00:00:00Z" 10 "tw_" "us_";
          mkCall "bob" "2023-05-21T00:00:00Z" "2023-05-22T00:00:00Z" 10 "tw_" "us_";
          mkCall "bob" "2023-05-22T00:00:00Z" "2023-05-23T00:00:00Z" 10 "tw_" "us_"]
    /\ cells "candidato" t
       = (repeat (VStr "alice") 6 ++ repeat (VStr "bob") 6)%list
    /\ nrows t = 12%nat.
Proof.
  destruct (download_tweets_candidate_major sample_request scenario empty_state
              scenario_pairs (repeat sample_batch 4))
    as (t & u & st' & Hrun & Hreq & _ & _ & _ & _ & Hcand & Hrows & _).
  - vm_compute. reflexivity.
  - discriminate.
  - reflexivity.
  - vm_compute. reflexivity.
  - exists t, u, st'. split; [exact Hrun|].
    split; [rewrite Hreq; vm_compute; reflexivity|].
    split; [rewrite Hcand; vm_compute; reflexivity|].
    rewrite Hrows. vm_compute. reflexivity.
Defined.

(** C6. If a request raises, [download_tweets] ends with that exception
    right after the failing call: no table is returned, [self.tweets] and
    [self.users] are not assigned, and nothing is written. [main] logs one
    error line and raises the same exception, and the script stops there,
    before its persistence step. *)
Theorem request_error_aborts_the_run
    (request : Call -> list Call -> result (DataFrame * DataFrame))
    (self : DownloadTweets) (st : State) (pairs : list (string * string))
    (outs : list (DataFrame * DataFrame)) (e : exn) :
  generate_dates_by one_day one_day_positive (start_date self) (end_date self) = Ok pairs ->
  let calls := grid self pairs (candidates self) in
  serve request (requests st) calls = (outs, Some e) ->
  exists st1 st2,
    download_tweets request self st = (Err e, st1)
    /\ requests st1 = (requests st ++ firstn (S (List.length outs)) calls)%list
    /\ tweets st1 = tweets st /\ users st1 = users st
    /\ main request self st = (Err e, st2)
    /\ tweets st2 = None /\ users st2 = None
    /\ (exists earlier,
          logged st2
          = (earlier ++ [(ERROR, ("Failed to download tweets: " ++ exn_str e)%string)])%list
          /\ forall msg, In (ERROR, msg) earlier -> In (ERROR, msg) (logged st))
    /\ script request self st = (Err e, st2)
    /\ data_dir st2 = data_dir st
    /\ tweets_csv st2 = tweets_csv st
    /\ users_csv st2 = users_csv st.
Proof.
  intros Hgen calls Hserve.
  destruct (download_tweets_Err request self st pairs outs e Hgen Hserve)
    as (st1 & Hrun1 & Hreq1 & Htw1 & Hus1 & _).
  set (st0 := log_line INFO "DownloadTweets initialized." (new_object st)).
  destruct (download_tweets_Err request self st0 pairs outs e Hgen Hserve)
    as (st2 & Hrun2 & _ & Htw2 & Hus2 & Hdir & Htcsv & Hucsv & Hlog).
  assert (Hmain : main request self st
                  = (Err e, log_line ERROR ("Failed to download tweets: " ++ exn_str e) st2)).
  { rewrite main_unfold. fold st0. now rewrite Hrun2. }
  exists st1, (log_line ERROR ("Failed to download tweets: " ++ exn_str e) st2).
  split; [exact Hrun1|]. split; [exact Hreq1|].
  split; [exact Htw1|]. split; [exact Hus1|].
  split; [exact Hmain|].
  split; [exact Htw2|]. split; [exact Hus2|].
  split.
  { exists (logged st2). split; [reflexivity|].
    intros msg Hin. apply Hlog in Hin. cbn in Hin.
    apply in_app_or in Hin as [Hin | [Hin | []]]; [assumption | discriminate]. }
  split; [unfold script; now rewrite (bind_Err _ _ _ _ _ Hmain)|].
  repeat split; assumption.
Qed.

(** The third call of the scenario, (bob, day one), is refused. *)
Lemma request_error_aborts_the_run_witness :
  exists st2,
    script failing_request scenario empty_state
    = (Err (Exn (OtherError "TooManyRequests") "429 Too Many Requests"), st2)
    /\ requests st2
       = [mkCall "alice" "2023-05-21T00:00:00Z" "2023-05-22T00:00:00Z" 10 "tw_" "us_";
          mkCall "alice" "2023-05-22T00:00:00Z" "2023-05-23T00:00:00Z" 10 "tw_" "us_";
          mkCall "bob" "2023-05-21T00:00:00Z" "2023-05-22T00:00:00Z" 10 "tw_" "us_"]
    /\ tweets st2 = None /\ users st2 = None
    /\ tweets_csv st2 = None /\ users_csv st2 = None.
Proof.
  destruct (request_error_aborts_the_run failing_request scenario empty_state
              scenario_pairs (repeat sample_batch 2)
              (Exn (OtherError "TooManyRequests") "429 Too Many Requests"))
    as (st1 & st2 & _ & _ & _ & _ & _ & Htw & Hus & _ & Hscript & _ & Htcsv & Hucsv).
  - vm_compute. reflexivity.
  - vm_compute. reflexivity.
  - exists st2. split; [exact Hscript|].
    split.
    + apply (f_equal (fun r => requests (snd r))) in Hscript. cbn [snd] in Hscript.
      rewrite <- Hscript. vm_compute. reflexivity.
    + repeat split; assumption.
Defined.

(** A pipeline that raises the exception of an empty concatenation. *)
Definition no_objects_request (c : Call) (history : list Call)
  : result (DataFrame * DataFrame) :=
  Err (Exn ValueError "No objects to concatenate").

(** C9, as stated, fails: nothing validates the configuration and the
    program has no [ConfigError]. With [start_date] after [end_date] the
    object is built and logged as initialized, the loops run over no date
    pair, and what [main] raises is the [ValueError] of [pd.concat] on an
    empty list; a valid configuration whose pipeline raises that
    [ValueError] ends [main] with the same exception. *)
Lemma empty_configuration_is_not_validated :
  end_date reversed_scenario <= start_date reversed_scenario
  /\ fst (init reversed_scenario empty_state) = Ok tt
  /\ (exists st2,
        main sample_request reversed_scenario empty_state
        = (Err (Exn ValueError "No objects to concatenate"), st2)
        /\ logged st2
           = [(INFO, "DownloadTweets initialized.");
              (INFO, "Generated 0 date pairs for tweet downloads.");
              (ERROR, "Failed to download tweets: No objects to concatenate")])
  /\ ValueError <> OtherError "ConfigError"
  /\ start_date scenario < end_date scenario
  /\ candidates scenario <> []
  /\ fst (main no_objects_request scenario empty_state)
     = Err (Exn ValueError "No objects to concatenate").
Proof.
  split; [vm_compute; discriminate|]. split; [reflexivity|].
  split; [eexists; split; vm_compute; reflexivity|].
  split; [discriminate|]. split; [reflexivity|]. split; [discriminate|].
  vm_compute. reflexivity.
Qed.



(** ** The subject column *)

Lemma assign_dates_columns (parse : string -> option datetime)
      (df df' : DataFrame) (name : string) :
  assign_dates parse df name = Ok df' -> columns df' = columns df.
Proof.
  unfold assign_dates. destruct (column df name) as [series|] eqn:Hcol; [|discriminate].
  destruct (to_dates parse series) as [dates|]; cbn; [|discriminate].
  intros [= <-]. unfold columns, set_column. cbn [cols].
  apply mset_present_keys. now apply column_Some_In in Hcol.
Qed.

(** The columns of whatever [clean_data] returns on the segregated schema. *)
Lemma clean_data_columns (parse : string -> option datetime)
      (tweets_df users_df : DataFrame) (out : DataFrame * DataFrame) :
  columns tweets_df = tweets_columns ->
  columns users_df = users_columns ->
  clean_data parse tweets_df users_df = Ok out ->
  columns (fst out) = map (append "tw_") tweets_destinations
  /\ columns (snd out) = map (append "us_") users_destinations.
Proof.
  intros Hct Hcu. unfold clean_data.
  destruct (assign_dates parse (rename tweets_df (tweets_renaming "tw_")) "tw_fecha")
    as [t|] eqn:Ht; cbn [rbind]; [|discriminate].
  destruct (assign_dates parse (rename users_df (users_renaming "us_")) "us_fecha_creacion")
    as [u|] eqn:Hu; cbn [rbind]; [|discriminate].
  intros [= <-]. cbn [fst snd].
  apply assign_dates_columns in Ht, Hu. rewrite Ht, Hu.
  split; [apply renamed_tweets | apply renamed_users]; assumption.
Qed.

Lemma columns_labelled (c : Call) (out : DataFrame * DataFrame) :
  ~ In "candidato" (columns (fst out)) ->
  columns (labelled c out) = (columns (fst out) ++ ["candidato"])%list.
Proof.
  intros Hnot. unfold labelled, set_scalar, set_column, columns in *. cbn [cols].
  now apply mset_absent_keys.
Qed.

(** ** Prefixed labels *)

Section Prefixes.

Lemma append_injective (p a b : string) : (p ++ a = p ++ b)%string -> a = b.
Proof. induction p as [|ch p IH]; cbn; [auto|]. intros [= H]. now apply IH. Qed.

Lemma prefixed_NoDup (p : string) (names : list string) :
  NoDup names -> NoDup (map (append p) names).
Proof.
  induction 1 as [|x names Hnot _ IH]; cbn; constructor; [|assumption].
  intros Hin. apply in_map_iff in Hin as (y & Heq & Hy).
  apply append_injective in Heq. now subst y.
Qed.

(** No prefix turns a destination name into ["candidato"]. *)
Ltac not_a_suffix p H :=
  repeat (destruct p as [|? p]; cbn [append] in H;
          [discriminate H | injection H as _ H]);
  destruct p; discriminate H.

Lemma prefixed_tweets_not_candidato (p : string) :
  ~ In "candidato" (map (append p) tweets_destinations).
Proof.
  intros Hin. apply in_map_iff in Hin as (d & H & Hd). cbn in Hd.
  repeat (destruct Hd as [<- | Hd]; [not_a_suffix p H|]). destruct Hd.
Qed.

Lemma prefixed_users_not_candidato (p : string) :
  ~ In "candidato" (map (append p) users_destinations).
Proof.
  intros Hin. apply in_map_iff in Hin as (d & H & Hd). cbn in Hd.
  repeat (destruct Hd as [<- | Hd]; [not_a_suffix p H|]). destruct Hd.
Qed.

Lemma grid_prefixes (self : DownloadTweets) (pairs : list (string * string))
      (cs : list string) (c : Call) :
  In c (grid self pairs cs) ->
  call_tweets_prefix c = tweets_prefix self /\ call_users_prefix c = users_prefix self.
Proof.
  unfold grid, calls_for. intros Hin. apply in_flat_map in Hin as (candidate & _ & Hin).
  apply in_map_iff in Hin as (pair & <- & _). now split.
Qed.

(** The columns of what the last stage of the pipeline returns. *)
Lemma preprocess_data_columns (parse : string -> option datetime)
      (tweets_prefix users_prefix : string)
      (tweets_df users_df : DataFrame) (out : DataFrame * DataFrame) :
  columns tweets_df = tweets_columns ->
  columns users_df = users_columns ->
  preprocess_data parse tweets_prefix users_prefix tweets_df users_df = Ok out ->
  columns (fst out) = map (append tweets_prefix) tweets_destinations
  /\ columns (snd out) = map (append users_prefix) users_destinations.
Proof.
  intros Hct Hcu. unfold preprocess_data.
  destruct (assign_dates parse (rename tweets_df _) _) as [t|] eqn:Ht;
    cbn [rbind]; [|discriminate].
  destruct (assign_dates parse (rename users_df _) _) as [u|] eqn:Hu;
    cbn [rbind]; [|discriminate].
  intros [= <-]. cbn [fst snd].
  apply assign_dates_columns in Ht, Hu. rewrite Ht, Hu, !rename_columns, Hct, Hcu.
  split; reflexivity.
Qed.

End Prefixes.

(** C10. Whatever prefixes the object is configured with, [get_batch] adds
    the subject under the label ["candidato"] as it is, after the pipeline
    has renamed the columns. With the last stage of the pipeline as the spec
    describes it, called with the prefixes that [get_batch] passes, the
    posts table [download_tweets] returns has the eleven post columns
    with the configured prefix followed by ["candidato"], which is none of
    them, and the authors table has the twelve author columns with their
    prefix, none of them ["candidato"]. *)
Theorem candidato_column_is_not_prefixed
    (parse : string -> option datetime)
    (request : Call -> list Call -> result (DataFrame * DataFrame))
    (self : DownloadTweets) (st : State) (pairs : list (string * string))
    (outs : list (DataFrame * DataFrame)) :
  generate_dates_by one_day one_day_positive (start_date self) (end_date self) = Ok pairs ->
  let calls := grid self pairs (candidates self) in
  candidates self <> [] ->
  start_date self < end_date self ->
  serve request (requests st) calls = (outs, None) ->
  (forall c out, In (c, out) (combine calls outs) ->
                 exists tweets_df users_df,
                   columns tweets_df = tweets_columns
                   /\ columns users_df = users_columns
                   /\ preprocess_data parse (call_tweets_prefix c) (call_users_prefix c)
                                      tweets_df users_df = Ok out) ->
  exists t u st',
    download_tweets request self st = (Ok (t, u), st')
    /\ columns t
       = (map (append (tweets_prefix self)) tweets_destinations ++ ["candidato"])%list
    /\ List.length (columns t) = 12%nat
    /\ ~ In "candidato" (map (append (tweets_prefix self)) tweets_destinations)
    /\ columns u = map (append (users_prefix self)) users_destinations
    /\ ~ In "candidato" (columns u)
    /\ cells "candidato" t
       = List.concat (map (fun co => repeat (VStr (call_query (fst co)))
                                            (nrows (fst (snd co))))
                          (combine calls outs))
    /\ (forall candidate start_time end_time st0 out,
          request (mkCall candidate start_time end_time (max_results self)
                          (tweets_prefix self) (users_prefix self)) (requests st0)
          = Ok out ->
          fst (get_batch request self candidate start_time end_time st0)
          = Ok (set_scalar (fst out) "candidato" (VStr candidate), snd out)).
Proof.
  intros Hgen calls Hcs Hlt Hserve Hpipeline.
  destruct (download_tweets_Ok request self st pairs outs Hgen Hcs Hlt Hserve)
    as (gt & gu & st' & Hrun & Hgt & Hgu & Hgt_ne & Hgu_ne & Hnt & Hnu & _).
  fold calls in Hgt.
  assert (Hlen : List.length outs = List.length calls)
    by apply (serve_length request calls _ _ Hserve).
  assert (Hbatch : forall co, In co (combine calls outs) ->
             columns (fst (snd co)) = map (append (tweets_prefix self)) tweets_destinations
             /\ columns (snd (snd co)) = map (append (users_prefix self)) users_destinations).
  { intros [c out] Hco. cbn [fst snd].
    destruct (Hpipeline c out Hco) as (tdf & udf & Hct & Hcu & Hout).
    destruct (grid_prefixes self pairs (candidates self) c) as [Htp Hup];
      [now apply in_combine_l in Hco|].
    rewrite Htp, Hup in Hout.
    now apply (preprocess_data_columns parse _ _ tdf udf out). }
  exists (stacked (map stacked gt)), (stacked (map stacked gu)), st'.
  split; [exact Hrun|].
  assert (Ht : columns (stacked (map stacked gt))
               = (map (append (tweets_prefix self)) tweets_destinations
                  ++ ["candidato"])%list).
  { apply columns_stacked_groups; try assumption.
    - apply NoDup_app; [apply prefixed_NoDup; vm_compute;
                        repeat (constructor; [cbn; intuition discriminate|]); constructor
                       | repeat constructor; intros []
                       |].
      intros x Hx [<- | []]. now apply prefixed_tweets_not_candidato in Hx.
    - intros f Hf. rewrite Hgt in Hf. apply in_map_iff in Hf as (co & <- & Hco).
      destruct (Hbatch co Hco) as [Hco_t _].
      rewrite columns_labelled, Hco_t; [reflexivity|].
      rewrite Hco_t. apply prefixed_tweets_not_candidato. }
  assert (Hu : columns (stacked (map stacked gu))
               = map (append (users_prefix self)) users_destinations).
  { apply columns_stacked_groups; try assumption.
    - apply prefixed_NoDup. vm_compute.
      repeat (constructor; [cbn; intuition discriminate|]). constructor.
    - intros f Hf. rewrite Hgu in Hf.
      assert (Houts : map snd (combine calls outs) = outs).
      { transitivity (map (fun out => out) outs);
          [exact (map_snd_combine (fun out => out) calls outs Hlen) | apply map_id]. }
      rewrite <- Houts, map_map in Hf. apply in_map_iff in Hf as (co & <- & Hco).
      now apply Hbatch. }
  split; [exact Ht|]. split; [rewrite Ht, length_app, length_map; reflexivity|].
  split; [apply prefixed_tweets_not_candidato|]. split; [exact Hu|].
  split; [rewrite Hu; apply prefixed_users_not_candidato|].
  split.
  - rewrite cells_stacked_groups, Hgt, map_map. apply f_equal, map_ext.
    intros co. apply cells_labelled.
  - intros candidate start_time end_time st0 out Hout.
    now rewrite (get_batch_Ok request self candidate start_time end_time st0 out Hout).
Qed.

(** The pipeline of the spec on the tables of the sample page, with the
    prefixes of the call. *)
Definition prefixing_request (c : Call) (history : list Call)
  : result (DataFrame * DataFrame) :=
  preprocess_data no_parse (call_tweets_prefix c) (call_users_prefix c)
                  sample_tweets_df sample_users_df.

(** The scenario, configured with the prefixes "x_" and "y_". *)
Lemma candidato_column_is_not_prefixed_witness :
  exists t u st',
    download_tweets prefixing_request scenario_xy empty_state = (Ok (t, u), st')
    /\ columns t
       = ["x_tweet"; "x_usuario"; "x_fecha"; "x_texto"; "x_sensitivo";
          "x_retweets"; "x_replies"; "x_likes"; "x_quotes"; "x_impresiones";
          "x_idioma"; "candidato"]
    /\ columns u
       = ["y_usuario"; "y_handle"; "y_nombre"; "y_ubicacion"; "y_fecha_creacion";
          "y_descripcion"; "y_imagen"; "y_verificado"; "y_seguidores";
          "y_siguiendo"; "y_tweets"; "y_listas"]
    /\ ~ In "candidato" (columns u)
    /\ cells "candidato" t = (repeat (VStr "alice") 6 ++ repeat (VStr "bob") 6)%list.
Proof.
  destruct (candidato_column_is_not_prefixed no_parse prefixing_request scenario_xy
              empty_state scenario_pairs
              (repeat (match prefixing_request
                               (mkCall "alice" EmptyString EmptyString 10 "x_" "y_") [] with
                       | Ok out => out
                       | Err _ => (mkDataFrame 0 [], mkDataFrame 0 [])
                       end) 4))
    as (t & u & st' & Hrun & Ht & _ & _ & Hu & Hnot & Hcells & _).
  - vm_compute. reflexivity.
  - discriminate.
  - reflexivity.
  - vm_compute. reflexivity.
  - intros c out Hco. exists sample_tweets_df, sample_users_df.
    split; [vm_compute; reflexivity|]. split; [vm_compute; reflexivity|].
    destruct (grid_prefixes scenario_xy scenario_pairs (candidates scenario_xy) c
                (in_combine_l _ _ _ _ Hco)) as [-> ->].
    apply in_combine_r, repeat_spec in Hco. subst out.
    vm_compute. reflexivity.
  - exists t, u, st'. split; [exact Hrun|]. split; [exact Ht|]. split; [exact Hu|].
    split; [exact Hnot|]. rewrite Hcells. vm_compute. reflexivity.
Defined.


(** * Further properties of the two files *)

(** ** [generate_dates]: empty ranges, number of pairs, clock time *)



(** X2. With the step of one day that [generate_dates] uses, when the
    method returns, the [i]-th pair it has stored is that of a window that
    starts [i] calendar days after [start_date] at the clock time of
    [start_date], and ends at that same clock time on the next day. *)
Theorem generate_dates_keeps_clock_time (self : DownloadTweets) (st st' : State)
    (i : nat) (p : string * string) :
  generate_dates self st = (Ok tt, st') ->
  nth_error (dates st') i = Some p ->
  exists w,
    p = date_pair w
    /\ time_of_day (fst w) = time_of_day (start_date self)
    /\ time_of_day (snd w) = time_of_day (start_date self)
    /\ date_of (fst w) = date_of (start_date self) + Z.of_nat i
    /\ date_of (snd w) = date_of (fst w) + 1.
Proof.
  unfold generate_dates.
  destruct (dates_loop one_day one_day_positive (end_date self) (start_date self) [])
    as [l [e|]] eqn:Hrun; [discriminate|].
  intros [= <-]. apply dates_loop_returns in Hrun. cbn [app] in Hrun. subst l.
  cbn [dates set_dates]. rewrite nth_error_map.
  destruct (nth_error _ i) as [w|] eqn:Hw; [|discriminate].
  intros [= <-]. exists w. split; [reflexivity|].
  apply windows_nth in Hw as [_ ->]. cbn [fst snd].
  unfold time_of_day, date_of, boundary, one_day, timedelta_days.
  assert (Hday : us_per_day <> 0) by (vm_compute; discriminate).
  rewrite !Z.mul_assoc, !Z.mod_add, !Z.div_add by assumption.
  repeat split; lia.
Qed.

Lemma generate_dates_keeps_clock_time_witness :
  exists w,
    ("2023-05-26T14:00:00Z", "2023-05-27T14:00:00Z") = date_pair w
    /\ time_of_day (fst w) = time_of_day (start_date config)
    /\ time_of_day (snd w) = time_of_day (start_date config)
    /\ date_of (fst w) = date_of (start_date config) + 5
    /\ date_of (snd w) = date_of (fst w) + 1.
Proof.
  apply (generate_dates_keeps_clock_time config empty_state
           (set_dates (map date_pair (windows one_day (start_date config) 6)) empty_state) 5).
  - vm_compute. reflexivity.
  - vm_compute. reflexivity.
Defined.

(** ** Dictionaries and the table built from them *)

Section Records.


Lemma mset_keys_incl {V} (m : list (string * V)) (k k' : string) (v : V) :
  In k' (map fst (mset String.eqb m k v)) <-> k' = k \/ In k' (map fst m).
Proof.
  induction m as [|[k0 v0] m IH]; cbn.
  - intuition.
  - destruct (String.eqb_spec k0 k) as [-> | Hne]; cbn; [intuition|].
    rewrite IH. intuition.
Qed.

Lemma mupdate_keys_incl {V} (l m : list (string * V)) (k : string) :
  In k (map fst (mupdate String.eqb m l)) <-> In k (map fst m) \/ In k (map fst l).
Proof.
  unfold mupdate. revert m. induction l as [|[k0 v0] l IH]; intros m; cbn; [intuition|].
  rewrite IH, mset_keys_incl. intuition.
Qed.

Lemma infer_objects_all_NaN (cells : list value) :
  (forall v, In v cells -> v = NaN) -> infer_objects cells = cells.
Proof.
  intros Hall. unfold infer_objects.
  assert (H1 : existsb is_timestamp cells = false).
  { apply not_true_is_false. intros H. apply existsb_exists in H as (v & Hv & Ht).
    rewrite (Hall v Hv) in Ht. discriminate. }
  assert (H2 : existsb (fun v => is_int64 v || is_float v) cells = false).
  { apply not_true_is_false. intros H. apply existsb_exists in H as (v & Hv & Ht).
    rewrite (Hall v Hv) in Ht. discriminate. }
  now rewrite H1, H2.
Qed.

(** The cells of a column of [pd.DataFrame(records)]: what the inference
    makes of the value each record has under the label, [NaN] where it has
    none. *)
Lemma cells_from_records (records : list dict) (c : string) :
  cells c (from_records records) = infer_objects (map (get_or_NaN c) records).
Proof.
  unfold cells, column, from_records. cbn [cols nrows].
  set (labels := union_labels [] (List.concat (map (map fst) records))).
  destruct (in_dec string_dec c labels) as [Hin | Hnot].
  - now rewrite (mget_tabulate (fun c => infer_objects (map (get_or_NaN c) records))).
  - rewrite mget_not_In by (rewrite map_map; cbn; now rewrite map_id).
    assert (Hall : forall d, In d records -> dget d c = None).
    { intros d Hd. apply mget_not_In. intros Hk. apply Hnot.
      apply union_labels_In, in_concat. exists (map fst d). split; [now apply in_map|].
      assumption. }
    assert (Hmap : map (get_or_NaN c) records = repeat NaN (List.length records)).
    { clear Hnot labels. induction records as [|d records IH]; cbn; [reflexivity|].
      unfold get_or_NaN at 1. rewrite (Hall d) by now left. f_equal.
      apply IH. intros d' Hd'. apply Hall. now right. }
    rewrite Hmap. symmetry. apply infer_objects_all_NaN.
    intros v Hv. now apply repeat_spec in Hv.
Qed.

Lemma columns_from_records (records : list dict) (c : string) :
  In c (columns (from_records records))
  <-> exists d, In d records /\ In c (map fst d).
Proof.
  unfold columns, from_records. cbn [cols]. rewrite map_map. cbn. rewrite map_id.
  split.
  - intros Hin.
    assert (Hgen : forall ls seen, In c (union_labels seen ls) -> In c seen \/ In c ls).
    { induction ls as [|l ls IH]; intros seen; cbn; [auto|].
      destruct (existsb (String.eqb l) seen); intros H; apply IH in H.
      - tauto.
      - destruct H as [H | H]; [|tauto].
        apply in_app_or in H as [H | [<- | []]]; tauto. }
    apply Hgen in Hin as [[] | Hin].
    apply in_concat in Hin as (keys & Hkeys & Hc).
    apply in_map_iff in Hkeys as (d & <- & Hd). now exists d.
  - intros (d & Hd & Hc). apply union_labels_In, in_concat.
    exists (map fst d). split; [now apply in_map | assumption].
Qed.


End Records.

(** ** [extract_tweet_data] and pages without posts *)

(** X3. [run] returns no tables for a page without posts. When the response
    has no data ([None], as tweepy reports an empty result) the loop over it
    raises [TypeError]; when its data is an empty list the table has no
    column and the author join raises [KeyError]. *)
Theorem run_without_posts (parse : string -> option datetime) (tweets : Response) :
  data tweets = None \/ data tweets = Some [] ->
  exists e,
    run parse tweets = Err e
    /\ match data tweets with
       | None =>
           e = Exn TypeError "'NoneType' object is not iterable"
           /\ extract_tweet_data tweets = Err e
       | Some _ =>
           exn_cls e = KeyError
           /\ extract_tweet_data tweets = Ok (mkDataFrame 0 [])
       end.
Proof.
  intros [Hdata | Hdata]; unfold run, extract_tweet_data; rewrite Hdata.
  - eexists. split; [reflexivity|]. now split.
  - cbn. unfold extract_user_data.
    destruct (includes_users tweets) as [includes|]; [|eexists; now repeat split].
    destruct (users_lookup includes) as [users|e] eqn:Hlookup; cbn;
      [eexists; now repeat split|].
    exists e. split; [reflexivity|]. split; [|reflexivity].
    now apply users_lookup_Err in Hlookup.
Qed.

Lemma run_without_posts_witness :
  exists e,
    run no_parse (mkResponse (Some []) (Some [sample_user 10 "ana"])) = Err e
    /\ exn_cls e = KeyError
    /\ extract_tweet_data (mkResponse (Some []) (Some [sample_user 10 "ana"]))
       = Ok (mkDataFrame 0 []).
Proof.
  destruct (run_without_posts no_parse (mkResponse (Some []) (Some [sample_user 10 "ana"])))
    as (e & Hrun & Hcls & Hposts).
  - right. reflexivity.
  - exists e. repeat split; assumption.
Defined.

(** X4. A post without [public_metrics] makes [extract_tweet_data] raise
    [KeyError: 'public_metrics'], and [run] with it, whatever the other
    posts and the included users are. *)
Theorem extract_tweet_data_needs_public_metrics
    (parse : string -> option datetime) (tweets : Response)
    (posts : list Tweet) (tweet : Tweet) :
  data tweets = Some posts ->
  In tweet posts ->
  tweet_public_metrics tweet = None ->
  extract_tweet_data tweets = Err (Exn KeyError "'public_metrics'")
  /\ run parse tweets = Err (Exn KeyError "'public_metrics'").
Proof.
  intros Hdata Hin Hnone.
  assert (Hposts : extract_tweet_data tweets = Err (Exn KeyError "'public_metrics'")).
  { unfold extract_tweet_data. rewrite Hdata.
    destruct (rmap_Err tweet_dict (fun e => e = Exn KeyError "'public_metrics'") posts)
      as (e & -> & ->); [| |reflexivity].
    - intros x e _. unfold tweet_dict.
      destruct (tweet_public_metrics x); [discriminate | now intros [= <-]].
    - exists tweet. split; [assumption|]. unfold tweet_dict. rewrite Hnone. now eexists. }
  split; [assumption|]. unfold run. now rewrite Hposts.
Qed.

Lemma extract_tweet_data_needs_public_metrics_witness :
  extract_tweet_data
    (mkResponse (Some [sample_tweet 1 10 0; mkTweet [("id", VInt 2)] None])
                (Some [sample_user 10 "ana"]))
  = Err (Exn KeyError "'public_metrics'")
  /\ run no_parse
       (mkResponse (Some [sample_tweet 1 10 0; mkTweet [("id", VInt 2)] None])
                   (Some [sample_user 10 "ana"]))
     = Err (Exn KeyError "'public_metrics'").
Proof.
  apply (extract_tweet_data_needs_public_metrics no_parse _
           [sample_tweet 1 10 0; mkTweet [("id", VInt 2)] None]
           (mkTweet [("id", VInt 2)] None)).
  - reflexivity.
  - cbn. tauto.
  - reflexivity.
Defined.




(** ** [extract_user_data]: the lookup of authors and the attached columns *)

Section Lookup.
Context {K V : Type} (eqb : K -> K -> bool).
Hypothesis eqb_eq : forall a b, eqb a b = true <-> a = b.


Lemma gen_mget_mset_same (m : list (K * V)) (k : K) (v : V) :
  mget eqb (mset eqb m k v) k = Some v.
Proof.
  induction m as [|[k0 v0] m IH]; cbn.
  - now rewrite (proj2 (eqb_eq k k) eq_refl).
  - destruct (eqb k0 k) eqn:Heq; cbn; now rewrite Heq.
Qed.

Lemma gen_mget_mset_other (m : list (K * V)) (k k' : K) (v : V) :
  k <> k' -> mget eqb (mset eqb m k v) k' = mget eqb m k'.
Proof.
  intros Hne. induction m as [|[k0 v0] m IH]; cbn.
  - destruct (eqb k k') eqn:Heq; [apply eqb_eq in Heq; congruence | reflexivity].
  - destruct (eqb k0 k) eqn:Hk; cbn.
    + apply eqb_eq in Hk. subst k0.
      destruct (eqb k k') eqn:Heq; [apply eqb_eq in Heq; congruence | reflexivity].
    + now rewrite IH.
Qed.

Lemma gen_mget_mupdate_absent (l : list (K * V)) :
  forall (m : list (K * V)) (k : K),
    ~ In k (map fst l) -> mget eqb (mupdate eqb m l) k = mget eqb m k.
Proof.
  unfold mupdate. induction l as [|[k0 v0] l IH]; intros m k Hnot; cbn; [reflexivity|].
  rewrite IH by (cbn in Hnot; tauto).
  apply gen_mget_mset_other. cbn in Hnot. intros ->. tauto.
Qed.

(** After [m.update(l)], a key reads the value of its last entry in [l]. *)
Lemma gen_mget_mupdate_last (l1 l2 m : list (K * V)) (k : K) (v : V) :
  ~ In k (map fst l2) ->
  mget eqb (mupdate eqb m (l1 ++ (k, v) :: l2)) k = Some v.
Proof.
  intros Hnot. unfold mupdate. rewrite fold_left_app. cbn [fold_left fst snd].
  fold (mupdate eqb m l1).
  change (mget eqb (mupdate eqb (mset eqb (mupdate eqb m l1) k v) l2) k = Some v).
  rewrite gen_mget_mupdate_absent by assumption.
  apply gen_mget_mset_same.
Qed.

Lemma gen_mget_None (m : list (K * V)) (k : K) :
  ~ In k (map fst m) -> mget eqb m k = None.
Proof.
  induction m as [|[k0 v0] m IH]; cbn; [reflexivity|]. intros Hnot.
  destruct (eqb k0 k) eqn:Heq; [apply eqb_eq in Heq; tauto|]. apply IH. tauto.
Qed.


End Lookup.

Section AuthorLookup.

Lemma Z_eqb_eq (a b : Z) : Z.eqb a b = true <-> a = b.
Proof. apply Z.eqb_eq. Qed.

(** The dictionary of ids that [extract_user_data] builds first. *)
Definition users_index (includes : list User) : list (Z * User) :=
  mupdate Z.eqb [] (map (fun user => (user_id user, user)) includes).

(** The lookup table answers with the flat dictionary of the user that the
    index holds under the id. *)
Lemma users_lookup_mget (includes : list User) (users : list (Z * dict)) (k : Z) :
  users_lookup includes = Ok users ->
  match mget Z.eqb (users_index includes) k with
  | Some user => exists d, user_data user = Ok d /\ mget Z.eqb users k = Some d
  | None => mget Z.eqb users k = None
  end.
Proof.
  unfold users_lookup. fold (users_index includes). intros Hrm.
  apply rmap_Ok_Forall2 in Hrm.
  induction Hrm as [|[k0 u0] [k1 d1] idx outs Hout _ IH]; cbn; [reflexivity|].
  cbn in Hout. destruct (user_data u0) as [d0|] eqn:Hd0; cbn in Hout; [|discriminate].
  injection Hout as <- <-.
  destruct (Z.eqb k0 k); [|exact IH]. now exists d0.
Qed.

Lemma users_index_last (earlier later : list User) (user : User) :
  (forall u, In u later -> user_id u <> user_id user) ->
  mget Z.eqb (users_index (earlier ++ user :: later)) (user_id user) = Some user.
Proof.
  intros Hlater. unfold users_index. rewrite map_app. cbn [map].
  apply (gen_mget_mupdate_last Z.eqb Z_eqb_eq).
  rewrite map_map. cbn. intros Hin. apply in_map_iff in Hin as (u & Heq & Hu).
  now apply (Hlater u).
Qed.

Lemma users_index_unique (includes : list User) (user : User) :
  NoDup (map user_id includes) -> In user includes ->
  mget Z.eqb (users_index includes) (user_id user) = Some user.
Proof.
  intros Hnd Hin. apply in_split in Hin as (earlier & later & ->).
  apply users_index_last. intros u Hu Heq.
  rewrite map_app in Hnd. cbn in Hnd. apply NoDup_remove_2 in Hnd.
  apply Hnd, in_or_app. right. rewrite <- Heq. now apply in_map.
Qed.

End AuthorLookup.

(** X6. The lookup [extract_user_data] builds from [includes['users']]
    answers an author id with the attributes of the last included user that
    has this id: a later entry replaces an earlier one with the same id. *)
Theorem users_lookup_last_wins (earlier later : list User) (user : User)
    (users : list (Z * dict)) (d : dict) :
  (forall u, In u later -> user_id u <> user_id user) ->
  users_lookup (earlier ++ user :: later) = Ok users ->
  user_data user = Ok d ->
  users_getitem users (VInt (user_id user)) = Ok d.
Proof.
  intros Hlater Hlookup Hd.
  pose proof (users_lookup_mget _ users (user_id user) Hlookup) as Hget.
  rewrite (users_index_last earlier later user Hlater) in Hget.
  destruct Hget as (d' & Hd' & Hget). unfold users_getitem. cbn [int_key].
  rewrite Hget. congruence.
Qed.

Lemma users_lookup_last_wins_witness :
  users_getitem
    (match users_lookup [sample_user 10 "ana"; sample_user 10 "anita"] with
     | Ok users => users
     | Err _ => []
     end)
    (VInt 10)
  = user_data (sample_user 10 "anita").
Proof.
  destruct (users_lookup [sample_user 10 "ana"; sample_user 10 "anita"])
    as [users|] eqn:Hlookup; [|vm_compute in Hlookup; discriminate Hlookup].
  destruct (user_data (sample_user 10 "anita")) as [d|] eqn:Hd;
    [|vm_compute in Hd; discriminate Hd].
  apply (users_lookup_last_wins [sample_user 10 "ana"] [] (sample_user 10 "anita") users d).
  - intros u [].
  - exact Hlookup.
  - exact Hd.
Defined.

(** X7. When the included users have distinct ids, one of them without
    [public_metrics] makes [extract_user_data] raise
    [KeyError: 'user_public_metrics'] on every table, whether or not a post
    refers to that user. *)
Theorem extract_user_data_needs_user_metrics (tweets : Response)
    (includes : list User) (user : User) (df : DataFrame) :
  includes_users tweets = Some includes ->
  NoDup (map user_id includes) ->
  In user includes ->
  user_public_metrics user = None ->
  extract_user_data tweets df = Err (Exn KeyError "'user_public_metrics'").
Proof.
  intros Hinc Hnd Hin Hnone. unfold extract_user_data. rewrite Hinc.
  assert (Hfail : users_lookup includes = Err (Exn KeyError "'user_public_metrics'")).
  { unfold users_lookup. fold (users_index includes).
    destruct (rmap_Err (fun entry : Z * User =>
                          rbind (user_data (snd entry)) (fun d => Ok (fst entry, d)))
                       (fun e => e = Exn KeyError "'user_public_metrics'")
                       (users_index includes))
      as (e & -> & ->); [| |reflexivity].
    - intros [k u] e _. cbn. unfold user_data.
      destruct (user_public_metrics u); cbn; [discriminate | now intros [= <-]].
    - exists (user_id user, user). split.
      + pose proof (users_index_unique includes user Hnd Hin) as Hget.
        clear -Hget. induction (users_index includes) as [|[k0 u0] idx IH];
          cbn in *; [discriminate|].
        destruct (Z.eqb_spec k0 (user_id user)) as [-> | Hne].
        * injection Hget as ->. now left.
        * right. now apply IH.
      + cbn. unfold user_data. rewrite Hnone. cbn. now eexists. }
  now rewrite Hfail.
Qed.

Lemma extract_user_data_needs_user_metrics_witness :
  extract_user_data
    (mkResponse (Some [sample_tweet 1 10 0])
                (Some [sample_user 10 "ana"; mkUser 11 [("id", VInt 11)] None]))
    sample_posts
  = Err (Exn KeyError "'user_public_metrics'").
Proof.
  apply (extract_user_data_needs_user_metrics _
           [sample_user 10 "ana"; mkUser 11 [("id", VInt 11)] None]
           (mkUser 11 [("id", VInt 11)] None)).
  - reflexivity.
  - cbn. repeat (constructor; [cbn; intuition discriminate|]). constructor.
  - cbn. tauto.
  - reflexivity.
Defined.

Section Attach.

Lemma column_set_column_same (df : DataFrame) (c : string) (series : list value) :
  column (set_column df c series) c = Some series.
Proof. unfold column, set_column. cbn [cols]. apply mget_mset_same. Qed.

Lemma column_set_column_other (df : DataFrame) (c c' : string) (series : list value) :
  c <> c' -> column (set_column df c series) c' = column df c'.
Proof. intros Hne. unfold column, set_column. cbn [cols]. now apply mget_mset_other. Qed.

Lemma mget_mdel_other {V} (m : list (string * V)) (k k' : string) :
  k <> k' -> mget String.eqb (mdel String.eqb m k) k' = mget String.eqb m k'.
Proof.
  intros Hne. induction m as [|[k0 v0] m IH]; cbn; [reflexivity|].
  destruct (String.eqb_spec k0 k) as [-> | Hk]; cbn.
  - destruct (String.eqb_spec k k'); [congruence | reflexivity].
  - now rewrite IH.
Qed.

Lemma mdel_keys {V} (m : list (string * V)) (k k' : string) :
  In k' (map fst (mdel String.eqb m k)) -> In k' (map fst m).
Proof.
  induction m as [|[k0 v0] m IH]; cbn; [easy|].
  destruct (String.eqb k0 k); cbn; [tauto|]. intros [H | H]; auto.
Qed.


(** Unless one of them is ['user_data'], the loop over [user_columns] sets
    each of these columns to what the dictionaries hold and leaves the
    other columns alone. *)
Lemma attach_user_columns_spec (rows : list dict) (user_columns : list string) :
  ~ In "user_data" user_columns ->
  forall df : DataFrame,
  exists df',
    attach_user_columns df (Some rows) user_columns = Ok df'
    /\ nrows df' = nrows df
    /\ (forall k, In k user_columns ->
                  column df' k = Some (infer_objects (map (get_or_None k) rows)))
    /\ (forall c, ~ In c user_columns -> column df' c = column df c)
    /\ (NoDup (columns df) -> NoDup (columns df')).
Proof.
  induction user_columns as [|col rest IH]; intros Hnot df; cbn [attach_user_columns].
  - exists df. repeat split; auto. intros k [].
  - destruct (String.eqb_spec col "user_data") as [-> | Hne]; [cbn in Hnot; tauto|].
    destruct (IH (fun H => Hnot (or_intror H))
                 (set_column df col (infer_objects (map (get_or_None col) rows))))
      as (df' & Hrun & Hn & Hset & Hkeep & Hnd).
    exists df'. split; [exact Hrun|]. split; [exact Hn|]. split; [|split].
    + intros k [<- | Hk].
      * destruct (in_dec string_dec col rest) as [Hin | Hout]; [now apply Hset|].
        rewrite (Hkeep col Hout). apply column_set_column_same.
      * now apply Hset.
    + intros c Hc. cbn in Hc. rewrite Hkeep by tauto.
      apply column_set_column_other. tauto.
    + intros Hdf. apply Hnd. unfold columns, set_column. cbn [cols].
      destruct (in_dec string_dec col (map fst (cols df))) as [Hin | Hout].
      * now rewrite mset_present_keys.
      * rewrite mset_absent_keys by assumption.
        apply NoDup_app; [assumption | repeat constructor; intros [] | ].
        intros x Hx [<- | []]. contradiction.
Qed.

End Attach.

Section AuthorRows.

Lemma mset_entries {V} (m : list (Z * V)) (k : Z) (v : V) (e : Z * V) :
  In e (mset Z.eqb m k v) -> In e m \/ e = (k, v).
Proof.
  induction m as [|[k0 v0] m IH]; cbn; [intuition|].
  destruct (Z.eqb_spec k0 k) as [-> | Hne]; cbn; intuition.
Qed.

Lemma mupdate_entries {V} (l : list (Z * V)) :
  forall (m : list (Z * V)) (e : Z * V),
    In e (mupdate Z.eqb m l) -> In e m \/ In e l.
Proof.
  unfold mupdate. induction l as [|[k0 v0] l IH]; intros m e H; cbn in *; [auto|].
  apply IH in H as [H | H]; [|auto].
  apply mset_entries in H. intuition.
Qed.

Lemma users_index_entries (includes : list User) (k : Z) (user : User) :
  In (k, user) (users_index includes) -> In user includes /\ k = user_id user.
Proof.
  intros H. apply mupdate_entries in H as [[] | H].
  apply in_map_iff in H as (u & [= <- <-] & Hu). now split.
Qed.

Lemma users_lookup_Ok (includes : list User) :
  (forall user, In user includes -> exists d, user_data user = Ok d) ->
  exists users, users_lookup includes = Ok users.
Proof.
  intros Hall. unfold users_lookup. apply rmap_Ok. intros [k u] Hin.
  apply users_index_entries in Hin as [Hu _].
  destruct (Hall u Hu) as [d Hd]. cbn. rewrite Hd. cbn. now eexists.
Qed.

(** With distinct ids, [users[x]] is the flat dictionary of the one
    included user whose id is [x]. *)
Lemma users_getitem_unique (includes : list User) (users : list (Z * dict))
      (x : value) (user : User) (d : dict) :
  NoDup (map user_id includes) ->
  users_lookup includes = Ok users ->
  In user includes -> int_key x = Some (user_id user) ->
  user_data user = Ok d ->
  users_getitem users x = Ok d.
Proof.
  intros Hnd Hlookup Hin Hkey Hd.
  pose proof (users_lookup_mget _ users (user_id user) Hlookup) as Hget.
  rewrite (users_index_unique includes user Hnd Hin) in Hget.
  destruct Hget as (d' & Hd' & Hget). unfold users_getitem. rewrite Hkey, Hget.
  congruence.
Qed.


End AuthorRows.

(** ** The missing author *)

Section MissingAuthor.




End MissingAuthor.

(** C3, as stated, fails: the program defines no [MissingAuthorError]. On a
    page whose second post names the author 12, who is not among the
    included users 10 and 11, the lookup [users[x]] of [extract_user_data]
    raises Python's [KeyError], with the id as its message, and [run] ends
    with that exception. *)
Lemma missing_author_raises_KeyError :
  cells "author_id" orphan_posts = [VInt 10; VInt 12]
  /\ includes_users orphan_response = Some [sample_user 10 "ana"; sample_user 11 "luis"]
  /\ extract_tweet_data orphan_response = Ok orphan_posts
  /\ extract_user_data orphan_response orphan_posts = Err (Exn KeyError "12")
  /\ run no_parse orphan_response = Err (Exn KeyError "12")
  /\ ~ (exists msg, extract_user_data orphan_response orphan_posts
                    = Err (Exn (OtherError "MissingAuthorError") msg)).
Proof.
  split; [vm_compute; reflexivity|]. split; [reflexivity|].
  split; [vm_compute; reflexivity|]. split; [vm_compute; reflexivity|].
  split; [vm_compute; reflexivity|].
  intros [msg Hmsg]. vm_compute in Hmsg. discriminate Hmsg.
Qed.





(** ** Projection and cleaning *)

Section Projection.

Lemma select_Ok_inv (df df' : DataFrame) (names : list string) :
  select df names = Ok df' -> forall c, In c names -> In c (columns df).
Proof.
  unfold select.
  destruct (rmap _ names) as [cs|] eqn:Hcs; cbn [rbind]; [|discriminate].
  intros _ c Hc. apply rmap_Ok_Forall2 in Hcs.
  induction Hcs as [|c0 y names cs Hc0 _ IH]; [contradiction|].
  destruct Hc as [<- | Hc]; [|now apply IH].
  destruct (column df c0) as [s|] eqn:Hcol; [|discriminate].
  now apply column_Some_In in Hcol.
Qed.

Lemma select_Err_inv (df : DataFrame) (names : list string) (e : exn) :
  select df names = Err e ->
  exn_cls e = KeyError /\ exists c, In c names /\ ~ In c (columns df).
Proof.
  unfold select.
  destruct (rmap _ names) as [cs|e'] eqn:Hcs; cbn [rbind]; [discriminate|].
  intros [= ->]. apply rmap_Err_inv in Hcs as (c & Hin & Hc).
  destruct (column df c) as [s|] eqn:Hcol; [discriminate|].
  injection Hc as <-. split; [reflexivity|]. exists c. split; [assumption|].
  intros Hcols. apply column_In in Hcols as [s Hs]. congruence.
Qed.

End Projection.

(** X9. [segregate_data] returns its two tables exactly when the table has
    every one of the eleven post labels and the twelve author labels; in
    every other case it raises, the exception is a [KeyError], and a label
    of the two lists is missing from the table. *)
Theorem segregate_data_needs_every_label (df : DataFrame) :
  ((exists tweets_df users_df, segregate_data df = Ok (tweets_df, users_df))
   <-> (forall c, In c (tweets_columns ++ users_columns)%list -> In c (columns df)))
  /\ (forall e, segregate_data df = Err e ->
                exn_cls e = KeyError
                /\ exists c, In c (tweets_columns ++ users_columns)%list
                             /\ ~ In c (columns df)).
Proof.
  unfold segregate_data. split; [split|].
  - intros (t & u & Hrun).
    destruct (select df tweets_columns) as [a|] eqn:Ha; cbn [rbind] in Hrun; [|discriminate].
    destruct (select df users_columns) as [b|] eqn:Hb; cbn [rbind] in Hrun; [|discriminate].
    intros c Hc. apply in_app_or in Hc as [Hc | Hc].
    + now apply (select_Ok_inv df a tweets_columns).
    + now apply (select_Ok_inv df b users_columns).
  - intros Hall.
    destruct (select_spec df tweets_columns) as (t & -> & _).
    { intros c Hc. apply Hall, in_or_app. now left. }
    destruct (select_spec df users_columns) as (u & -> & _).
    { intros c Hc. apply Hall, in_or_app. now right. }
    cbn. now exists t, u.
  - intros e.
    destruct (select df tweets_columns) as [a|e1] eqn:Ha; cbn [rbind].
    + destruct (select df users_columns) as [b|e2] eqn:Hb; cbn [rbind]; [discriminate|].
      intros [= ->]. apply select_Err_inv in Hb as (Hcls & c & Hin & Hnot).
      split; [assumption|]. exists c. split; [apply in_or_app; now right | assumption].
    + intros [= ->]. apply select_Err_inv in Ha as (Hcls & c & Hin & Hnot).
      split; [assumption|]. exists c. split; [apply in_or_app; now left | assumption].
Qed.

Lemma segregate_data_needs_every_label_witness :
  (exists tweets_df users_df, segregate_data sample_enriched = Ok (tweets_df, users_df))
  /\ exists e, segregate_data sample_posts = Err e /\ exn_cls e = KeyError.
Proof.
  split.
  - apply (segregate_data_needs_every_label sample_enriched).
    intros c Hc. rewrite sample_enriched_columns. cbn in Hc.
    repeat (destruct Hc as [<- | Hc]; [cbn; tauto|]). destruct Hc.
  - destruct (segregate_data_needs_every_label sample_posts) as [_ Herr].
    destruct (segregate_data sample_posts) as [[t u]|e] eqn:Hrun;
      [vm_compute in Hrun; discriminate Hrun|].
    exists e. split; [reflexivity|]. now destruct (Herr e eq_refl).
Defined.

Section Casting.
Variable parse : string -> option datetime.

Lemma to_dates_cells (series dates : list value) :
  to_dates parse series = Ok dates ->
  List.length dates = List.length series
  /\ forall i v, nth_error series i = Some v ->
                 exists t, to_datetime parse v = Ok t
                           /\ nth_error dates i = Some (dt_date t).
Proof.
  intros H. split; [now apply rmap_length in H|].
  apply rmap_Ok_Forall2 in H.
  induction H as [|v0 d vs ds Hvd _ IH]; intros [|i] v Hnth; cbn in *; try discriminate.
  - injection Hnth as ->. destruct (to_datetime parse v) as [t|]; [|discriminate].
    cbn [rbind] in Hvd. injection Hvd as <-. now exists t.
  - now apply IH.
Qed.

(** What the cast of one cell can give. *)
Lemma to_datetime_Ok (v t : value) :
  to_datetime parse v = Ok t -> t = NaT \/ exists ts, t = VDatetime ts.
Proof.
  unfold to_datetime, timestamp_of, timestamp_of_ns.
  destruct v as [| | | b | n | x | s | ts | d].
  - intros [= <-]. now left.
  - intros [= <-]. now left.
  - intros [= <-]. now left.
  - discriminate.
  - destruct (n =? - 2 ^ 63); [intros [= <-]; now left|].
    destruct (in_bounds_ns n); [|discriminate].
    intros H. right. exists (unix_epoch + n / 1000). congruence.
  - destruct (x =? - 2 ^ 63); [intros [= <-]; now left|].
    destruct (in_bounds_ns x); [|discriminate].
    intros H. right. exists (unix_epoch + x / 1000). congruence.
  - destruct (parse s) as [ts|]; [|discriminate].
    destruct (in_bounds ts); [|discriminate]. intros H. right. exists ts. congruence.
  - destruct (in_bounds ts); [|discriminate]. intros H. right. exists ts. congruence.
  - destruct (in_bounds (d * us_per_day)); [|discriminate].
    intros H. right. exists (d * us_per_day). congruence.
Qed.

Lemma to_datetime_Err (v : value) (e : exn) :
  to_datetime parse v = Err e ->
  exn_cls e = ValueError \/ exn_cls e = TypeError \/ exn_cls e = OutOfBoundsDatetime.
Proof.
  unfold to_datetime, timestamp_of, timestamp_of_ns.
  destruct v as [| | | b | n | x | s | ts | d]; try discriminate.
  - intros [= <-]. right. now left.
  - destruct (n =? - 2 ^ 63); [discriminate|].
    destruct (in_bounds_ns n); [discriminate|]. intros [= <-]. right. now right.
  - destruct (x =? - 2 ^ 63); [discriminate|].
    destruct (in_bounds_ns x); [discriminate|]. intros [= <-]. right. now right.
  - destruct (parse s) as [ts|]; [|intros [= <-]; now left].
    destruct (in_bounds ts); [discriminate|]. intros [= <-]. right. now right.
  - destruct (in_bounds ts); [discriminate|]. intros [= <-]. right. now right.
  - destruct (in_bounds (d * us_per_day)); [discriminate|]. intros [= <-]. right. now right.
Qed.






Lemma to_dates_Err (series : list value) (e : exn) :
  to_dates parse series = Err e ->
  exists v, In v series /\ to_datetime parse v = Err e.
Proof.
  intros H. apply rmap_Err_inv in H as (v & Hin & Hv). exists v. split; [assumption|].
  now destruct (to_datetime parse v).
Qed.

Lemma to_dates_Ok_inv (series dates : list value) :
  to_dates parse series = Ok dates ->
  forall v, In v series -> exists t, to_datetime parse v = Ok t.
Proof.
  intros H v Hin. apply In_nth_error in Hin as [i Hi].
  destruct (to_dates_cells series dates H) as [_ Hcells].
  destruct (Hcells i v Hi) as (t & Ht & _). now exists t.
Qed.

Lemma assign_dates_inv (df df' : DataFrame) (name : string) :
  assign_dates parse df name = Ok df' ->
  exists series dates,
    column df name = Some series
    /\ to_dates parse series = Ok dates
    /\ df' = set_column df name dates.
Proof.
  unfold assign_dates. destruct (column df name) as [series|]; [|discriminate].
  destruct (to_dates parse series) as [dates|] eqn:Hd; cbn [rbind]; [|discriminate].
  intros [= <-]. now exists series, dates.
Qed.

Lemma clean_data_inv (tweets_df users_df t u : DataFrame) :
  clean_data parse tweets_df users_df = Ok (t, u) ->
  assign_dates parse (rename tweets_df (tweets_renaming "tw_")) "tw_fecha" = Ok t
  /\ assign_dates parse (rename users_df (users_renaming "us_")) "us_fecha_creacion" = Ok u.
Proof.
  unfold clean_data.
  destruct (assign_dates parse (rename tweets_df _) "tw_fecha") as [t'|];
    cbn [rbind]; [|discriminate].
  destruct (assign_dates parse (rename users_df _) "us_fecha_creacion") as [u'|];
    cbn [rbind]; [|discriminate].
  now intros [= <- <-].
Qed.

End Casting.

Section Renaming.

Lemma mset_same {V} (m : list (string * V)) (k : string) (v : V) :
  mget String.eqb m k = Some v -> mset String.eqb m k v = m.
Proof.
  induction m as [|[k0 v0] m IH]; cbn; [discriminate|].
  destruct (String.eqb k0 k); [now intros [= ->]|].
  intros H. now rewrite IH.
Qed.




End Renaming.



Section RenamedCells.

Ltac explode_table df H :=
  destruct df as [n cs]; unfold columns in H; cbn [cols] in H;
  repeat (destruct cs as [|[? ?] cs]; [discriminate H|]);
  destruct cs; [|discriminate H];
  cbn in H; injection H; intros; subst.

Lemma renamed_tweets_cells (df : DataFrame) (src dst : string) :
  columns df = tweets_columns ->
  In (src, dst) (combine tweets_columns tweets_destinations) ->
  column (rename df (tweets_renaming "tw_")) ("tw_" ++ dst) = column df src.
Proof.
  intros H Hin. explode_table df H. cbn in Hin.
  repeat (destruct Hin as [[= <- <-] | Hin]; [reflexivity|]). destruct Hin.
Qed.

Lemma renamed_users_cells (df : DataFrame) (src dst : string) :
  columns df = users_columns ->
  In (src, dst) (combine users_columns users_destinations) ->
  column (rename df (users_renaming "us_")) ("us_" ++ dst) = column df src.
Proof.
  intros H Hin. explode_table df H. cbn in Hin.
  repeat (destruct Hin as [[= <- <-] | Hin]; [reflexivity|]). destruct Hin.
Qed.

End RenamedCells.

(** X11. Of tables with the segregated schema, [clean_data] changes the
    cells of the two date columns only: every other column of the result
    holds, under its new label, the cells of the column it was renamed
    from. In the date columns a cell is a calendar date or [NaT] and
    nothing else, and a missing timestamp ([NaN], [None] or [NaT]) gives
    [NaT]. *)
Theorem clean_data_keeps_other_cells
    (parse : string -> option datetime) (tweets_df users_df t u : DataFrame) :
  columns tweets_df = tweets_columns ->
  columns users_df = users_columns ->
  clean_data parse tweets_df users_df = Ok (t, u) ->
  (forall src dst, In (src, dst) (combine tweets_columns tweets_destinations) ->
                   src <> "created_at" ->
                   column t ("tw_" ++ dst) = column tweets_df src)
  /\ (forall src dst, In (src, dst) (combine users_columns users_destinations) ->
                      src <> "user_created_at" ->
                      column u ("us_" ++ dst) = column users_df src)
  /\ (forall d, In d (cells "tw_fecha" t ++ cells "us_fecha_creacion" u)%list ->
                d = NaT \/ exists day, d = VDate day)
  /\ (forall i v, nth_error (cells "created_at" tweets_df) i = Some v ->
                  v = NaN \/ v = PyNone \/ v = NaT ->
                  nth_error (cells "tw_fecha" t) i = Some NaT)
  /\ (forall i v, nth_error (cells "user_created_at" users_df) i = Some v ->
                  v = NaN \/ v = PyNone \/ v = NaT ->
                  nth_error (cells "us_fecha_creacion" u) i = Some NaT).
Proof.
  intros Hct Hcu Hclean.
  apply clean_data_inv in Hclean as [Ht Hu].
  apply assign_dates_inv in Ht as (posted & pd & Hposted & Hpd & ->).
  apply assign_dates_inv in Hu as (created & cd & Hcreated & Hcd & ->).
  destruct (renamed_tweets tweets_df Hct) as [_ Hft].
  destruct (renamed_users users_df Hcu) as [_ Hfu].
  rewrite Hft in Hposted. rewrite Hfu in Hcreated.
  destruct (to_dates_cells parse posted pd Hpd) as [Hlen_t Hcells_t].
  destruct (to_dates_cells parse created cd Hcd) as [Hlen_u Hcells_u].
  assert (Hdates : forall series dates d,
             to_dates parse series = Ok dates -> In d dates ->
             d = NaT \/ exists day, d = VDate day).
  { intros series dates d Hto Hd. apply In_nth_error in Hd as [i Hi].
    destruct (to_dates_cells parse series dates Hto) as [Hlen Hcells].
    destruct (nth_error series i) as [v|] eqn:Hv.
    - destruct (Hcells i v Hv) as (ts & Hts & Hnth). rewrite Hi in Hnth.
      injection Hnth as ->.
      destruct (to_datetime_Ok parse v ts Hts) as [-> | [x ->]];
        [now left | right; now eexists].
    - apply nth_error_None in Hv.
      assert (i < List.length dates)%nat by (apply nth_error_Some; congruence). lia. }
  assert (Hmissing : forall series dates i v,
             to_dates parse series = Ok dates -> nth_error series i = Some v ->
             v = NaN \/ v = PyNone \/ v = NaT -> nth_error dates i = Some NaT).
  { intros series dates i v Hto Hv Hmiss.
    destruct (to_dates_cells parse series dates Hto) as [_ Hcells].
    destruct (Hcells i v Hv) as (ts & Hts & ->).
    destruct Hmiss as [-> | [-> | ->]]; cbn [to_datetime] in Hts; now injection Hts as <-. }
  assert (Hcol_t : column (set_column (rename tweets_df (tweets_renaming "tw_"))
                                      "tw_fecha" pd) "tw_fecha" = Some pd)
    by apply mget_mset_same.
  assert (Hcol_u : column (set_column (rename users_df (users_renaming "us_"))
                                      "us_fecha_creacion" cd) "us_fecha_creacion" = Some cd)
    by apply mget_mset_same.
  unfold cells. rewrite Hposted, Hcreated, Hcol_t, Hcol_u.
  split; [|split; [|split; [|split]]].
  - intros src dst Hin Hne.
    unfold column at 1, set_column. cbn [cols]. rewrite mget_mset_other.
    + now apply renamed_tweets_cells.
    + cbn in Hin.
      repeat (destruct Hin as [[= <- <-] | Hin]; [try discriminate; try congruence|]).
      destruct Hin.
  - intros src dst Hin Hne.
    unfold column at 1, set_column. cbn [cols]. rewrite mget_mset_other.
    + now apply renamed_users_cells.
    + cbn in Hin.
      repeat (destruct Hin as [[= <- <-] | Hin]; [try discriminate; try congruence|]).
      destruct Hin.
  - intros d Hd. apply in_app_or in Hd as [Hd | Hd].
    + now apply (Hdates posted pd).
    + now apply (Hdates created cd).
  - intros i v. now apply Hmissing.
  - intros i v. now apply Hmissing.
Qed.

Lemma clean_data_keeps_other_cells_witness :
  exists t u,
    clean_data no_parse sample_tweets_df sample_users_df = Ok (t, u)
    /\ column t "tw_texto" = column sample_tweets_df "text"
    /\ column u "us_handle" = column sample_users_df "user_username".
Proof.
  destruct (clean_data no_parse sample_tweets_df sample_users_df) as [[t u]|e] eqn:Hclean;
    [|vm_compute in Hclean; discriminate Hclean].
  destruct (clean_data_keeps_other_cells no_parse sample_tweets_df sample_users_df t u)
    as (Ht & Hu & _).
  - vm_compute. reflexivity.
  - vm_compute. reflexivity.
  - exact Hclean.
  - exists t, u. split; [reflexivity|]. split.
    + apply (Ht "text" "texto"); [cbn; tauto | discriminate].
    + apply (Hu "user_username" "handle"); [cbn; tauto | discriminate].
Defined.

(** X12. On tables with the segregated schema, [clean_data] returns exactly
    when [pd.to_datetime] accepts every cell of [created_at] and of
    [user_created_at]. Otherwise it raises what the cast of one of these
    cells raises: a [ValueError] (a string that is no timestamp), a
    [TypeError] (a boolean) or an [OutOfBoundsDatetime] (a time outside the
    nanosecond range of pandas), and no table is returned. *)
Theorem clean_data_returns_iff_dates_cast
    (parse : string -> option datetime) (tweets_df users_df : DataFrame) :
  columns tweets_df = tweets_columns ->
  columns users_df = users_columns ->
  ((exists t u, clean_data parse tweets_df users_df = Ok (t, u))
   <-> (forall v, In v (cells "created_at" tweets_df
                        ++ cells "user_created_at" users_df)%list ->
                  exists t, to_datetime parse v = Ok t))
  /\ (forall e, clean_data parse tweets_df users_df = Err e ->
                (exn_cls e = ValueError \/ exn_cls e = TypeError
                 \/ exn_cls e = OutOfBoundsDatetime)
                /\ exists v, In v (cells "created_at" tweets_df
                                   ++ cells "user_created_at" users_df)%list
                             /\ to_datetime parse v = Err e).
Proof.
  intros Hct Hcu.
  destruct (column_In tweets_df "created_at") as [posted Hposted];
    [rewrite Hct; cbn; tauto|].
  destruct (column_In users_df "user_created_at") as [created Hcreated];
    [rewrite Hcu; cbn; tauto|].
  destruct (renamed_tweets tweets_df Hct) as [_ Hft].
  destruct (renamed_users users_df Hcu) as [_ Hfu].
  unfold cells. rewrite Hposted, Hcreated.
  split; [split|].
  - intros (t & u & Hclean). apply clean_data_inv in Hclean as [Ht Hu].
    apply assign_dates_inv in Ht as (posted' & pd & Hposted' & Hpd & _).
    apply assign_dates_inv in Hu as (created' & cd & Hcreated' & Hcd & _).
    assert (posted' = posted) as -> by congruence.
    assert (created' = created) as -> by congruence.
    intros v Hv. apply in_app_or in Hv as [Hv | Hv].
    + now apply (to_dates_Ok_inv parse posted pd).
    + now apply (to_dates_Ok_inv parse created cd).
  - intros Hall.
    destruct (clean_data_spec parse tweets_df users_df posted created)
      as (t & u & _ & _ & Hclean & _); try assumption.
    + intros v Hv. apply Hall, in_or_app. now left.
    + intros v Hv. apply Hall, in_or_app. now right.
    + now exists t, u.
  - intros e. unfold clean_data, assign_dates. rewrite Hft, Hfu, Hposted, Hcreated.
    destruct (to_dates parse posted) as [pd|e1] eqn:Hpd; cbn [rbind].
    + destruct (to_dates parse created) as [cd|e2] eqn:Hcd; cbn [rbind]; [discriminate|].
      intros [= ->]. apply to_dates_Err in Hcd as (v & Hin & Hv).
      split; [now apply (to_datetime_Err parse v)|].
      exists v. split; [apply in_or_app; now right | assumption].
    + intros [= ->]. apply to_dates_Err in Hpd as (v & Hin & Hv).
      split; [now apply (to_datetime_Err parse v)|].
      exists v. split; [apply in_or_app; now left | assumption].
Qed.

Lemma clean_data_returns_iff_dates_cast_witness :
  (exists t u, clean_data no_parse sample_tweets_df sample_users_df = Ok (t, u))
  /\ (exists e,
        clean_data no_parse
          (set_column sample_tweets_df "created_at" [VBool true; NaN; VStr "ayer"])
          sample_users_df = Err e
        /\ exn_cls e = TypeError)
  /\ (exists e,
        clean_data no_parse
          (set_column sample_tweets_df "created_at"
             [NaN; VDatetime (mk_datetime 1600 1 1 0 0 0 0); NaN])
          sample_users_df = Err e
        /\ exn_cls e = OutOfBoundsDatetime).
Proof.
  split; [|split].
  - apply (clean_data_returns_iff_dates_cast no_parse sample_tweets_df sample_users_df).
    + vm_compute. reflexivity.
    + vm_compute. reflexivity.
    + intros v Hv. vm_compute in Hv.
      repeat (destruct Hv as [<- | Hv]; [eexists; vm_compute; reflexivity|]). destruct Hv.
  - destruct (clean_data_returns_iff_dates_cast no_parse
                (set_column sample_tweets_df "created_at" [VBool true; NaN; VStr "ayer"])
                sample_users_df) as [_ Herr].
    + vm_compute. reflexivity.
    + vm_compute. reflexivity.
    + destruct (clean_data no_parse
                  (set_column sample_tweets_df "created_at" [VBool true; NaN; VStr "ayer"])
                  sample_users_df) as [[t u]|e] eqn:Hclean;
        [vm_compute in Hclean; discriminate Hclean|].
      exists e. split; [reflexivity|].
      vm_compute in Hclean. injection Hclean as <-. reflexivity.
  - destruct (clean_data_returns_iff_dates_cast no_parse
                (set_column sample_tweets_df "created_at"
                   [NaN; VDatetime (mk_datetime 1600 1 1 0 0 0 0); NaN])
                sample_users_df) as [_ Herr].
    + vm_compute. reflexivity.
    + vm_compute. reflexivity.
    + destruct (clean_data no_parse
                  (set_column sample_tweets_df "created_at"
                     [NaN; VDatetime (mk_datetime 1600 1 1 0 0 0 0); NaN])
                  sample_users_df) as [[t u]|e] eqn:Hclean;
        [vm_compute in Hclean; discriminate Hclean|].
      exists e. split; [reflexivity|].
      vm_compute in Hclean. injection Hclean as <-. reflexivity.
Defined.

(** ** One batch *)

(** X13. When the request is answered, [get_batch] returns the authors table
    as it came and the posts table with the same rows and a [candidato]
    column that reads the candidate on every row: a [candidato] column the
    batch already had is overwritten where it stands, otherwise the column
    is added last, and no other column changes. The call is the one thing
    sent, one line with the number of rows is logged, and the attributes of
    the object and the files are not touched. *)
Theorem get_batch_labels_in_place
    (request : Call -> list Call -> result (DataFrame * DataFrame))
    (self : DownloadTweets) (candidate start_time end_time : string)
    (st : State) (t u : DataFrame) :
  let c := mkCall candidate start_time end_time (max_results self)
                  (tweets_prefix self) (users_prefix self) in
  request c (requests st) = Ok (t, u) ->
  exists t' st',
    get_batch request self candidate start_time end_time st = (Ok (t', u), st')
    /\ nrows t' = nrows t
    /\ column t' "candidato" = Some (repeat (VStr candidate) (nrows t))
    /\ (forall l, l <> "candidato" -> column t' l = column t l)
    /\ (In "candidato" (columns t) -> columns t' = columns t)
    /\ (~ In "candidato" (columns t) -> columns t' = (columns t ++ ["candidato"])%list)
    /\ (well_formed t -> well_formed t')
    /\ requests st' = (requests st ++ [c])%list
    /\ logged st'
       = (logged st
          ++ [(INFO, ("Downloaded batch of " ++ str_of_nat (nrows t)
                      ++ " tweets for candidate " ++ candidate ++ ".")%string)])%list
    /\ dates st' = dates st /\ tweets st' = tweets st /\ users st' = users st
    /\ data_dir st' = data_dir st
    /\ tweets_csv st' = tweets_csv st /\ users_csv st' = users_csv st.
Proof.
  intros c Hreq.
  rewrite (get_batch_Ok request self candidate start_time end_time st (t, u) Hreq).
  fold c. exists (labelled c (t, u)), (batch_done st c (t, u)).
  split; [reflexivity|]. split; [reflexivity|].
  unfold labelled, set_scalar, set_column, column, columns. cbn [fst snd cols nrows call_query c].
  split; [apply mget_mset_same|].
  split; [intros l Hl; apply mget_mset_other; congruence|].
  split; [apply mset_present_keys|]. split; [apply mset_absent_keys|].
  split.
  - intros Hwf. apply (set_column_rows t "candidato"); [assumption | apply repeat_length].
  - repeat split.
Qed.

Lemma get_batch_labels_in_place_witness :
  exists t' st',
    get_batch (fun _ _ => Ok (mkDataFrame 2 [("candidato", [VStr "x"; NaN]);
                                               ("tw_tweet", [VInt 1; VInt 2])],
                              mkDataFrame 0 []))
              scenario "alice" "a" "b" empty_state
    = (Ok (t', mkDataFrame 0 []), st')
    /\ cols t' = [("candidato", [VStr "alice"; VStr "alice"]);
                  ("tw_tweet", [VInt 1; VInt 2])]
    /\ logged st' = [(INFO, "Downloaded batch of 2 tweets for candidate alice.")].
Proof.
  destruct (get_batch_labels_in_place
              (fun _ _ => Ok (mkDataFrame 2 [("candidato", [VStr "x"; NaN]);
                                             ("tw_tweet", [VInt 1; VInt 2])],
                              mkDataFrame 0 []))
              scenario "alice" "a" "b" empty_state
              (mkDataFrame 2 [("candidato", [VStr "x"; NaN]);
                              ("tw_tweet", [VInt 1; VInt 2])])
              (mkDataFrame 0 []))
    as (t' & st' & Hrun & _ & _ & _ & _ & _ & _ & _ & Hlog & _).
  - reflexivity.
  - exists t', st'. split; [exact Hrun|].
    vm_compute in Hrun. injection Hrun as <- <-. split; reflexivity.
Defined.

(** ** The log and the files *)

Section Logs.
Variable request : Call -> list Call -> result (DataFrame * DataFrame).
Variable self : DownloadTweets.

(** The line [get_batch] logs for a call and its answer. *)
Definition batch_line (co : Call * (DataFrame * DataFrame)) : level * string :=
  (INFO, "Downloaded batch of " ++ str_of_nat (nrows (fst (snd co)))
         ++ " tweets for candidate " ++ call_query (fst co) ++ ".").

Lemma after_logged_Ok (calls : list Call) :
  forall (st : State) (outs : list (DataFrame * DataFrame)),
    serve request (requests st) calls = (outs, None) ->
    logged (after request st calls)
    = (logged st ++ map batch_line (combine calls outs))%list.
Proof.
  induction calls as [|c calls IH]; intros st outs; cbn [serve after].
  - intros [= <-]. cbn. now rewrite app_nil_r.
  - destruct (request c (requests st)) as [out|]; [|discriminate].
    destruct (serve request (requests st ++ [c]) calls) as [outs' f] eqn:Hrest.
    intros [= <- ->]. rewrite (IH (batch_done st c out) outs' Hrest).
    cbn [combine map logged batch_done log_line sent]. now rewrite <- app_assoc.
Qed.

(** The run of [main] in which every request is answered, with the state
    it ends in. *)
Lemma main_Ok (st : State) (pairs : list (string * string))
    (outs : list (DataFrame * DataFrame)) :
  generate_dates_by one_day one_day_positive (start_date self) (end_date self) = Ok pairs ->
  let calls := grid self pairs (candidates self) in
  candidates self <> [] ->
  start_date self < end_date self ->
  serve request (requests st) calls = (outs, None) ->
  exists (gt gu : list (list DataFrame)) (st' : State),
    let t := stacked (map stacked gt) in
    let u := stacked (map stacked gu) in
    main request self st = (Ok (t, u), st')
    /\ List.concat gt = map (fun co => labelled (fst co) (snd co)) (combine calls outs)
    /\ List.concat gu = map snd outs
    /\ logged st'
       = (logged st
          ++ [(INFO, "DownloadTweets initialized.");
              (INFO, ("Generated " ++ str_of_nat (List.length pairs)
                      ++ " date pairs for tweet downloads.")%string)]
          ++ map batch_line (combine calls outs)
          ++ [(INFO, ("Downloaded a total of " ++ str_of_nat (nrows t)
                      ++ " tweets and " ++ str_of_nat (nrows u) ++ " users.")%string)])%list
    /\ requests st' = (requests st ++ calls)%list
    /\ dates st' = pairs /\ tweets st' = Some t /\ users st' = Some u
    /\ data_dir st' = data_dir st
    /\ tweets_csv st' = tweets_csv st /\ users_csv st' = users_csv st.
Proof.
  intros Hgen calls Hcs Hlt Hserve.
  assert (Hpairs : pairs <> []) 
    by exact (generate_dates_by_nonempty one_day one_day_positive _ _ pairs Hlt Hgen).
  rewrite main_unfold, (download_tweets_unfold request self _ pairs Hgen). cbn zeta.
  set (st0 := log_line INFO "DownloadTweets initialized." (new_object st)).
  set (st1 := log_line INFO _ (set_dates pairs st0)).
  destruct (for_candidates_Ok request self pairs (candidates self) Hpairs st1 [] [] outs)
    as (gt & gu & Hrun & Hgt & Hgu & Hlt' & Hlu & _); [reflexivity | exact Hserve |].
  fold calls in Hrun, Hgt. rewrite Hrun. cbn [fst snd app].
  rewrite !concat_frames_Ok.
  2:{ destruct gu, (candidates self); try contradiction; discriminate. }
  2:{ destruct gt, (candidates self); try contradiction; discriminate. }
  exists gt, gu. eexists. cbn zeta. split; [reflexivity|].
  split; [exact Hgt|]. split; [exact Hgu|].
  destruct (after_frame request calls st1) as (H1 & H2 & H3 & H4 & H5 & H6 & _).
  cbn [logged requests dates tweets users data_dir tweets_csv users_csv
       log_line set_users set_tweets].
  rewrite (after_logged_Ok calls st1 outs Hserve),
    (after_requests_Ok request calls st1 outs Hserve), H1, H4, H5, H6.
  split; [|repeat split].
  cbn [logged st1 st0 log_line set_dates new_object]. now rewrite <- !app_assoc.
Qed.

Lemma list_sum_labelled (calls : list Call) (outs : list (DataFrame * DataFrame)) :
  List.length outs = List.length calls ->
  list_sum (map nrows (map (fun co => labelled (fst co) (snd co)) (combine calls outs)))
  = list_sum (map (fun out => nrows (fst out)) outs).
Proof.
  intros Hlen. rewrite map_map.
  now rewrite <- (map_snd_combine (fun out => nrows (fst out)) calls outs Hlen).
Qed.

End Logs.

(** X14. When every request is answered, [main] logs, after what the log
    held: that the object was initialized, the number of date pairs, one
    line per batch in the order of the calls with the number of posts of the
    batch and its candidate, and the totals, which are the sums of the rows
    of the batches. It logs no error, returns the tables it stored in
    [self.tweets] and [self.users], and leaves the files alone. *)
Theorem main_logs_every_batch
    (request : Call -> list Call -> result (DataFrame * DataFrame))
    (self : DownloadTweets) (st : State) (pairs : list (string * string))
    (outs : list (DataFrame * DataFrame)) :
  generate_dates_by one_day one_day_positive (start_date self) (end_date self) = Ok pairs ->
  let calls := grid self pairs (candidates self) in
  candidates self <> [] ->
  start_date self < end_date self ->
  serve request (requests st) calls = (outs, None) ->
  exists t u st',
    main request self st = (Ok (t, u), st')
    /\ logged st'
       = (logged st
          ++ [(INFO, "DownloadTweets initialized.");
              (INFO, ("Generated " ++ str_of_nat (List.length pairs)
                      ++ " date pairs for tweet downloads.")%string)]
          ++ map (fun co =>
                    (INFO, ("Downloaded batch of " ++ str_of_nat (nrows (fst (snd co)))
                            ++ " tweets for candidate " ++ call_query (fst co) ++ ".")%string))
                 (combine calls outs)
          ++ [(INFO, ("Downloaded a total of "
                      ++ str_of_nat (list_sum (map (fun out => nrows (fst out)) outs))
                      ++ " tweets and "
                      ++ str_of_nat (list_sum (map (fun out => nrows (snd out)) outs))
                      ++ " users.")%string)])%list
    /\ List.length (logged st')
       = (List.length (logged st)
          + (3 + List.length (candidates self) * List.length pairs))%nat
    /\ (forall msg, In (ERROR, msg) (logged st') -> In (ERROR, msg) (logged st))
    /\ tweets st' = Some t /\ users st' = Some u
    /\ data_dir st' = data_dir st
    /\ tweets_csv st' = tweets_csv st /\ users_csv st' = users_csv st.
Proof.
  intros Hgen calls Hcs Hlt Hserve.
  destruct (main_Ok request self st pairs outs Hgen Hcs Hlt Hserve)
    as (gt & gu & st' & Hmain & Hgt & Hgu & Hlog & _ & _ & Htw & Hus & Hdir & Htcsv & Hucsv).
  cbn zeta in *. fold calls in Hgt, Hlog.
  assert (Hlen : List.length outs = List.length calls)
    by apply (serve_length request calls _ _ Hserve).
  assert (Hnt : nrows (stacked (map stacked gt))
                = list_sum (map (fun out => nrows (fst out)) outs)).
  { rewrite nrows_stacked_groups, Hgt. now apply list_sum_labelled. }
  assert (Hnu : nrows (stacked (map stacked gu))
                = list_sum (map (fun out => nrows (snd out)) outs)).
  { rewrite nrows_stacked_groups, Hgu, map_map. reflexivity. }
  rewrite Hnt, Hnu in Hlog.
  exists (stacked (map stacked gt)), (stacked (map stacked gu)), st'.
  split; [exact Hmain|]. split; [exact Hlog|].
  split; [|split; [|repeat split; assumption]].
  - rewrite Hlog, !length_app, length_map, length_combine, Hlen, Nat.min_id.
    unfold calls. rewrite grid_length. cbn [List.length]. lia.
  - intros msg Hin. rewrite Hlog in Hin.
    apply in_app_or in Hin as [Hin | Hin]; [assumption|]. exfalso.
    apply in_app_or in Hin as [Hin | Hin].
    { destruct Hin as [Hin | [Hin | []]]; discriminate. }
    apply in_app_or in Hin as [Hin | [Hin | []]]; [|discriminate].
    apply in_map_iff in Hin as (co & Hco & _). discriminate.
Qed.

Lemma main_logs_every_batch_witness :
  exists t u st',
    main sample_request scenario empty_state = (Ok (t, u), st')
    /\ logged st'
       = [(INFO, "DownloadTweets initialized.");
          (INFO, "Generated 2 date pairs for tweet downloads.");
          (INFO, "Downloaded batch of 3 tweets for candidate alice.");
          (INFO, "Downloaded batch of 3 tweets for candidate alice.");
          (INFO, "Downloaded batch of 3 tweets for candidate bob.");
          (INFO, "Downloaded batch of 3 tweets for candidate bob.");
          (INFO, "Downloaded a total of 12 tweets and 12 users.")].
Proof.
  destruct (main_logs_every_batch sample_request scenario empty_state
              scenario_pairs (repeat sample_batch 4))
    as (t & u & st' & Hmain & Hlog & _).
  - vm_compute. reflexivity.
  - discriminate.
  - reflexivity.
  - vm_compute. reflexivity.
  - exists t, u, st'. split; [exact Hmain|]. rewrite Hlog. vm_compute. reflexivity.
Defined.

Section Files.
Variable request : Call -> list Call -> result (DataFrame * DataFrame).
Variable self : DownloadTweets.

Lemma script_unfold (st : State) :
  script request self st
  = match main request self st with
    | (Ok tu, st1) =>
        (Ok tt,
         log_line INFO
           (match tweets_csv st1 with
            | Some _ => "Data appended to 'data/tweets.csv' and 'data/users.csv'"
            | None => "Data saved to 'data/tweets.csv' and 'data/users.csv'"
            end)
           (save (fst tu) (snd tu) st1))
    | (Err e, st1) => (Err e, st1)
    end.
Proof.
  unfold script, bind, gets, modify, logger_info.
  destruct (main request self st) as [[tu|e] st1]; [|reflexivity].
  now destruct (tweets_csv st1).
Qed.

(** What [to_csv] appends without a header: one record per row, with one
    field per column. *)
Lemma to_csv_records (df : DataFrame) :
  List.length (to_csv df false) = nrows df
  /\ to_csv df true = CsvHeader (columns df) :: to_csv df false
  /\ forall line, In line (to_csv df false) ->
                  exists fields, line = CsvRecord fields
                                 /\ List.length fields = List.length (columns df).
Proof.
  unfold to_csv. cbn [app]. split; [now rewrite length_map, length_seq|].
  split; [reflexivity|].
  intros line Hin. apply in_map_iff in Hin as (i & <- & _).
  eexists. split; [reflexivity|]. unfold record_at, columns. now rewrite !length_map.
Qed.

End Files.

(** X15. When every request is answered, the script creates [data/] if
    needed and appends the two tables of the run to the two files, each
    for itself: a file that exists keeps its lines and gets the records
    only, a file that does not exist starts with the header. One record is
    written per row, so many as the batches had rows, with one field per
    column. The last log line says "appended" or "saved" after
    [data/tweets.csv] alone, whether [data/users.csv] existed or not. *)
Theorem script_appends_to_both_files
    (request : Call -> list Call -> result (DataFrame * DataFrame))
    (self : DownloadTweets) (st : State) (pairs : list (string * string))
    (outs : list (DataFrame * DataFrame)) :
  generate_dates_by one_day one_day_positive (start_date self) (end_date self) = Ok pairs ->
  let calls := grid self pairs (candidates self) in
  candidates self <> [] ->
  start_date self < end_date self ->
  serve request (requests st) calls = (outs, None) ->
  exists t u st' earlier,
    script request self st = (Ok tt, st')
    /\ fst (main request self st) = Ok (t, u)
    /\ data_dir st' = true
    /\ tweets_csv st'
       = Some (match tweets_csv st with
               | Some old => old ++ to_csv t false
               | None => CsvHeader (columns t) :: to_csv t false
               end)%list
    /\ users_csv st'
       = Some (match users_csv st with
               | Some old => old ++ to_csv u false
               | None => CsvHeader (columns u) :: to_csv u false
               end)%list
    /\ List.length (to_csv t false)
       = list_sum (map (fun out => nrows (fst out)) outs)
    /\ List.length (to_csv u false)
       = list_sum (map (fun out => nrows (snd out)) outs)
    /\ (forall line, In line (to_csv t false) ->
                     exists fields, line = CsvRecord fields
                                    /\ List.length fields = List.length (columns t))
    /\ (forall line, In line (to_csv u false) ->
                     exists fields, line = CsvRecord fields
                                    /\ List.length fields = List.length (columns u))
    /\ logged st'
       = (earlier
          ++ [(INFO, match tweets_csv st with
                     | Some _ => "Data appended to 'data/tweets.csv' and 'data/users.csv'"
                     | None => "Data saved to 'data/tweets.csv' and 'data/users.csv'"
                     end)])%list.
Proof.
  intros Hgen calls Hcs Hlt Hserve.
  destruct (main_Ok request self st pairs outs Hgen Hcs Hlt Hserve)
    as (gt & gu & st1 & Hmain & Hgt & Hgu & _ & _ & _ & _ & _ & _ & Htcsv & Hucsv).
  cbn zeta in *. fold calls in Hgt.
  assert (Hlen : List.length outs = List.length calls)
    by apply (serve_length request calls _ _ Hserve).
  set (t := stacked (map stacked gt)) in *. set (u := stacked (map stacked gu)) in *.
  destruct (to_csv_records t) as (Hnt & Hht & Hrt).
  destruct (to_csv_records u) as (Hnu & Hhu & Hru).
  exists t, u. eexists. exists (logged st1).
  rewrite script_unfold, Hmain. cbn [fst snd]. split; [reflexivity|].
  split; [reflexivity|]. split; [reflexivity|].
  cbn [tweets_csv users_csv log_line save logged]. rewrite Htcsv, Hucsv.
  split; [unfold append_csv; destruct (tweets_csv st); now rewrite ?Hht|].
  split; [unfold append_csv; destruct (users_csv st); now rewrite ?Hhu|].
  split.
  { rewrite Hnt. unfold t. rewrite nrows_stacked_groups, Hgt.
    now apply list_sum_labelled. }
  split.
  { rewrite Hnu. unfold u. rewrite nrows_stacked_groups, Hgu, map_map. reflexivity. }
  repeat split; assumption.
Qed.

Lemma script_appends_to_both_files_witness :
  exists t u st' earlier,
    script sample_request scenario
           (mkState [] None None [] [] true (Some [CsvRecord [VInt 0]]) None)
    = (Ok tt, st')
    /\ fst (main sample_request scenario
                 (mkState [] None None [] [] true (Some [CsvRecord [VInt 0]]) None))
       = Ok (t, u)
    /\ tweets_csv st' = Some (CsvRecord [VInt 0] :: to_csv t false)
    /\ users_csv st' = Some (CsvHeader (columns u) :: to_csv u false)
    /\ List.length (to_csv t false) = 12%nat
    /\ logged st'
       = (earlier
          ++ [(INFO, "Data appended to 'data/tweets.csv' and 'data/users.csv'")])%list.
Proof.
  destruct (script_appends_to_both_files sample_request scenario
              (mkState [] None None [] [] true (Some [CsvRecord [VInt 0]]) None)
              scenario_pairs (repeat sample_batch 4))
    as (t & u & st' & earlier & Hrun & Hmain & _ & Ht & Hu & Hnt & _ & _ & _ & Hlog).
  - vm_compute. reflexivity.
  - discriminate.
  - reflexivity.
  - vm_compute. reflexivity.
  - exists t, u, st', earlier. split; [exact Hrun|]. split; [exact Hmain|].
    split; [exact Ht|]. split; [exact Hu|]. split; [|exact Hlog].
    rewrite Hnt. vm_compute. reflexivity.
Defined.

(** X16. Two runs of the script, the first without the two files and every
    request of both answered: each file then holds the header of the first
    run once, the records of the first run and the records of the second
    run, in this order; nothing compares the columns of the second run with
    that header. The log says "saved" for the first run and "appended" for
    the second. *)
Theorem script_twice_writes_one_header
    (request : Call -> list Call -> result (DataFrame * DataFrame))
    (self : DownloadTweets) (st : State) (pairs : list (string * string))
    (outs1 outs2 : list (DataFrame * DataFrame)) :
  generate_dates_by one_day one_day_positive (start_date self) (end_date self) = Ok pairs ->
  let calls := grid self pairs (candidates self) in
  candidates self <> [] ->
  start_date self < end_date self ->
  tweets_csv st = None -> users_csv st = None ->
  serve request (requests st) calls = (outs1, None) ->
  serve request (requests st ++ calls)%list calls = (outs2, None) ->
  exists t1 u1 st1 t2 u2 st2 earlier1 earlier2,
    script request self st = (Ok tt, st1)
    /\ fst (main request self st) = Ok (t1, u1)
    /\ script request self st1 = (Ok tt, st2)
    /\ fst (main request self st1) = Ok (t2, u2)
    /\ tweets_csv st2
       = Some (CsvHeader (columns t1) :: to_csv t1 false ++ to_csv t2 false)%list
    /\ users_csv st2
       = Some (CsvHeader (columns u1) :: to_csv u1 false ++ to_csv u2 false)%list
    /\ requests st2 = (requests st ++ calls ++ calls)%list
    /\ logged st1
       = (earlier1 ++ [(INFO, "Data saved to 'data/tweets.csv' and 'data/users.csv'")])%list
    /\ logged st2
       = (logged st1 ++ earlier2
          ++ [(INFO, "Data appended to 'data/tweets.csv' and 'data/users.csv'")])%list.
Proof.
  intros Hgen calls Hcs Hlt Htnone Hunone Hserve1 Hserve2.
  destruct (main_Ok request self st pairs outs1 Hgen Hcs Hlt Hserve1)
    as (gt1 & gu1 & m1 & Hmain1 & _ & _ & _ & Hreq1 & _ & _ & _ & _ & Htcsv1 & Hucsv1).
  cbn zeta in *. fold calls in Hreq1.
  set (t1 := stacked (map stacked gt1)) in *. set (u1 := stacked (map stacked gu1)) in *.
  set (st1 := log_line INFO "Data saved to 'data/tweets.csv' and 'data/users.csv'"
                       (save t1 u1 m1)).
  assert (Hrun1 : script request self st = (Ok tt, st1)).
  { rewrite script_unfold, Hmain1. cbn [fst snd]. now rewrite Htcsv1, Htnone. }
  assert (Hreq : requests st1 = (requests st ++ calls)%list) by exact Hreq1.
  rewrite <- Hreq in Hserve2.
  destruct (main_Ok request self st1 pairs outs2 Hgen Hcs Hlt Hserve2)
    as (gt2 & gu2 & m2 & Hmain2 & _ & _ & Hlog2 & Hreq2 & _ & _ & _ & _ & Htcsv2 & Hucsv2).
  cbn zeta in *. fold calls in Hreq2, Hlog2.
  set (t2 := stacked (map stacked gt2)) in *. set (u2 := stacked (map stacked gu2)) in *.
  assert (Hbetween : exists between, logged m2 = (logged st1 ++ between)%list)
    by (eexists; exact Hlog2).
  destruct Hbetween as [between Hbetween].
  assert (Hfile_t : tweets_csv st1 = Some (CsvHeader (columns t1) :: to_csv t1 false)).
  { unfold st1. cbn [tweets_csv log_line save]. now rewrite Htcsv1, Htnone. }
  assert (Hfile_u : users_csv st1 = Some (CsvHeader (columns u1) :: to_csv u1 false)).
  { unfold st1. cbn [users_csv log_line save]. now rewrite Hucsv1, Hunone. }
  exists t1, u1, st1, t2, u2. eexists. exists (logged m1), between.
  split; [exact Hrun1|]. split; [now rewrite Hmain1|].
  rewrite script_unfold, Hmain2. cbn [fst snd]. split; [reflexivity|].
  split; [reflexivity|].
  cbn [tweets_csv users_csv requests logged log_line save].
  rewrite Htcsv2, Hucsv2, Hreq2, Hreq, Hbetween, Hfile_t, Hfile_u.
  cbn [append_csv app].
  split; [reflexivity|]. split; [reflexivity|].
  split; [now rewrite <- app_assoc|]. split; [reflexivity|].
  now rewrite <- app_assoc.
Qed.

Lemma script_twice_writes_one_header_witness :
  exists st1 st2 t u,
    script sample_request scenario empty_state = (Ok tt, st1)
    /\ script sample_request scenario st1 = (Ok tt, st2)
    /\ fst (main sample_request scenario empty_state) = Ok (t, u)
    /\ tweets_csv st2
       = Some (CsvHeader (columns t) :: to_csv t false ++ to_csv t false)%list
    /\ List.length (requests st2) = 8%nat.
Proof.
  destruct (script_twice_writes_one_header sample_request scenario empty_state
              scenario_pairs (repeat sample_batch 4) (repeat sample_batch 4))
    as (t1 & u1 & st1 & t2 & u2 & st2 & e1 & e2
        & Hrun1 & Hmain1 & Hrun2 & Hmain2 & Ht & _ & Hreq & _).
  - vm_compute. reflexivity.
  - discriminate.
  - reflexivity.
  - reflexivity.
  - reflexivity.
  - vm_compute. reflexivity.
  - vm_compute. reflexivity.
  - exists st1, st2, t1, u1. split; [exact Hrun1|]. split; [exact Hrun2|].
    split; [exact Hmain1|]. split.
    + rewrite Ht. do 3 f_equal.
      assert (Hsame : fst (main sample_request scenario st1)
                      = fst (main sample_request scenario empty_state)).
      { apply (f_equal snd) in Hrun1. cbn [snd] in Hrun1. rewrite <- Hrun1.
        vm_compute. reflexivity. }
      rewrite Hmain1, Hmain2 in Hsame. now injection Hsame as -> _.
    + rewrite Hreq. vm_compute. reflexivity.
Defined.

(** ** Tables of batches with different columns *)

Section Rectangular.

Lemma union_labels_inv (ls : list string) :
  forall seen x, In x (union_labels seen ls) -> In x seen \/ In x ls.
Proof.
  induction ls as [|l ls IH]; intros seen x; cbn; [auto|].
  destruct (existsb (String.eqb l) seen); intros H; apply IH in H.
  - tauto.
  - destruct H as [H | H]; [|tauto].
    apply in_app_or in H as [H | [<- | []]]; tauto.
Qed.

Lemma union_labels_NoDup (ls : list string) :
  forall seen, NoDup seen -> NoDup (union_labels seen ls).
Proof.
  induction ls as [|l ls IH]; intros seen Hnd; cbn; [assumption|].
  destruct (existsb (String.eqb l) seen) eqn:Hseen; apply IH; [assumption|].
  apply NoDup_app; [assumption | repeat constructor; intros [] |].
  intros x Hx [<- | []].
  assert (existsb (String.eqb l) seen = true) by now apply existsb_eqb_In.
  congruence.
Qed.

Lemma columns_stacked_In (frames : list DataFrame) (c : string) :
  In c (columns (stacked frames)) <-> exists f, In f frames /\ In c (columns f).
Proof.
  rewrite columns_stacked. split.
  - intros Hin. apply union_labels_inv in Hin as [[] | Hin].
    apply in_concat in Hin as (l & Hl & Hc). apply in_map_iff in Hl as (f & <- & Hf).
    now exists f.
  - intros (f & Hf & Hc). apply union_labels_In, in_concat.
    exists (columns f). split; [now apply in_map | assumption].
Qed.

Lemma columns_stacked_NoDup (frames : list DataFrame) : NoDup (columns (stacked frames)).
Proof. rewrite columns_stacked. apply union_labels_NoDup. constructor. Qed.

Lemma cells_length (c : string) (f : DataFrame) :
  well_formed f -> List.length (cells c f) = nrows f.
Proof.
  intros Hwf. unfold cells. destruct (column f c) as [series|] eqn:Hcol.
  - now apply (column_length f c).
  - apply repeat_length.
Qed.

(** The concatenation of rectangular tables is rectangular, whatever their
    columns. *)
Lemma stacked_well_formed (frames : list DataFrame) :
  Forall well_formed frames -> well_formed (stacked frames).
Proof.
  intros Hall. unfold well_formed, stacked. cbn [cols nrows].
  apply Forall_forall. intros cs Hcs. apply in_map_iff in Hcs as (c & <- & _).
  cbn [snd]. induction Hall as [|f frames Hf _ IH]; [reflexivity|].
  cbn [map List.concat list_sum]. now rewrite length_app, IH, cells_length.
Qed.

Lemma labelled_well_formed (c : Call) (out : DataFrame * DataFrame) :
  well_formed (fst out) -> well_formed (labelled c out).
Proof.
  intros Hwf. apply set_column_rows; [assumption | apply repeat_length].
Qed.

Lemma columns_labelled_In (c : Call) (out : DataFrame * DataFrame) (l : string) :
  In l (columns (labelled c out)) <-> l = "candidato" \/ In l (columns (fst out)).
Proof. apply mset_keys_incl. Qed.

Lemma Forall_concat_groups {A} (P : A -> Prop) (groups : list (list A)) :
  Forall P (List.concat groups) -> Forall (Forall P) groups.
Proof.
  induction groups as [|g groups IH]; cbn; [constructor|].
  intros H. apply Forall_app in H as [Hg Hrest]. constructor; auto.
Qed.

Lemma stacked_groups_well_formed (groups : list (list DataFrame)) :
  Forall well_formed (List.concat groups) -> well_formed (stacked (map stacked groups)).
Proof.
  intros H. apply stacked_well_formed, Forall_map.
  apply Forall_concat_groups in H. eapply Forall_impl; [|exact H].
  intros g. apply stacked_well_formed.
Qed.

Lemma columns_stacked_groups_In (groups : list (list DataFrame)) (c : string) :
  In c (columns (stacked (map stacked groups)))
  <-> exists f, In f (List.concat groups) /\ In c (columns f).
Proof.
  rewrite columns_stacked_In. split.
  - intros (s & Hs & Hc). apply in_map_iff in Hs as (g & <- & Hg).
    apply columns_stacked_In in Hc as (f & Hf & Hc).
    exists f. split; [|assumption]. apply in_concat. now exists g.
  - intros (f & Hf & Hc). apply in_concat in Hf as (g & Hg & Hf).
    exists (stacked g). split; [now apply in_map|].
    apply columns_stacked_In. now exists f.
Qed.

End Rectangular.

(** X17. The batches need not have the same columns. When every request is
    answered with rectangular tables, the two tables [download_tweets]
    returns are rectangular: every column has one cell per row. The labels
    of the posts table are [candidato] and the labels of the posts tables of
    the batches, each once; the labels of the authors table are those of the
    authors tables of the batches, each once. *)
Theorem download_tweets_unites_the_columns
    (request : Call -> list Call -> result (DataFrame * DataFrame))
    (self : DownloadTweets) (st : State) (pairs : list (string * string))
    (outs : list (DataFrame * DataFrame)) :
  generate_dates_by one_day one_day_positive (start_date self) (end_date self) = Ok pairs ->
  let calls := grid self pairs (candidates self) in
  candidates self <> [] ->
  start_date self < end_date self ->
  serve request (requests st) calls = (outs, None) ->
  (forall out, In out outs -> well_formed (fst out) /\ well_formed (snd out)) ->
  exists t u st',
    download_tweets request self st = (Ok (t, u), st')
    /\ well_formed t /\ well_formed u
    /\ (forall c, List.length (cells c t) = nrows t)
    /\ (forall c, List.length (cells c u) = nrows u)
    /\ NoDup (columns t) /\ NoDup (columns u)
    /\ (forall c, In c (columns t)
                  <-> c = "candidato" \/ exists out, In out outs /\ In c (columns (fst out)))
    /\ (forall c, In c (columns u)
                  <-> exists out, In out outs /\ In c (columns (snd out))).
Proof.
  intros Hgen calls Hcs Hlt Hserve Hwf.
  destruct (download_tweets_Ok request self st pairs outs Hgen Hcs Hlt Hserve)
    as (gt & gu & st' & Hrun & Hgt & Hgu & _).
  fold calls in Hgt.
  assert (Hlen : List.length outs = List.length calls)
    by apply (serve_length request calls _ _ Hserve).
  assert (Houts : map snd (combine calls outs) = outs).
  { transitivity (map (fun out => out) outs);
      [exact (map_snd_combine (fun out => out) calls outs Hlen) | apply map_id]. }
  assert (Hsome : exists out, In out outs).
  { destruct outs as [|out outs]; [|exists out; now left]. exfalso.
    unfold calls in Hlen. rewrite grid_length in Hlen. cbn in Hlen.
    assert (Hpairs : pairs <> []) 
    by exact (generate_dates_by_nonempty one_day one_day_positive _ _ pairs Hlt Hgen).
    destruct (candidates self); [contradiction|]. destruct pairs; [contradiction|].
    cbn in Hlen. lia. }
  assert (Hwt : well_formed (stacked (map stacked gt))).
  { apply stacked_groups_well_formed. rewrite Hgt. apply Forall_forall.
    intros f Hf. apply in_map_iff in Hf as ([c out] & <- & Hco).
    apply labelled_well_formed, Hwf. now apply in_combine_r in Hco. }
  assert (Hwu : well_formed (stacked (map stacked gu))).
  { apply stacked_groups_well_formed. rewrite Hgu. apply Forall_forall.
    intros f Hf. apply in_map_iff in Hf as (out & <- & Hout). now apply Hwf. }
  exists (stacked (map stacked gt)), (stacked (map stacked gu)), st'.
  split; [exact Hrun|]. split; [exact Hwt|]. split; [exact Hwu|].
  split; [intros c; now apply cells_length|].
  split; [intros c; now apply cells_length|].
  split; [apply columns_stacked_NoDup|]. split; [apply columns_stacked_NoDup|].
  split.
  - intros c. rewrite columns_stacked_groups_In, Hgt. split.
    + intros (f & Hf & Hc). apply in_map_iff in Hf as ([c0 out] & <- & Hco).
      apply columns_labelled_In in Hc as [-> | Hc]; [now left|].
      right. exists out. split; [now apply in_combine_r in Hco | assumption].
    + intros Hc.
      assert (Hpick : exists out, In out outs
                                  /\ (c = "candidato" \/ In c (columns (fst out)))).
      { destruct Hc as [-> | (out & Hout & Hc)].
        - destruct Hsome as [out Hout]. exists out. auto.
        - exists out. auto. }
      destruct Hpick as (out & Hout & Hc').
      rewrite <- Houts in Hout. apply in_map_iff in Hout as ([c0 out'] & Heq & Hco).
      cbn in Heq. subst out'.
      exists (labelled c0 out). split.
      * apply in_map_iff. now exists (c0, out).
      * now apply columns_labelled_In.
  - intros c. rewrite columns_stacked_groups_In, Hgu. split.
    + intros (f & Hf & Hc). apply in_map_iff in Hf as (out & <- & Hout). now exists out.
    + intros (out & Hout & Hc). exists (snd out). split; [now apply in_map | assumption].
Qed.

Lemma download_tweets_unites_the_columns_witness :
  exists t u st',
    download_tweets
      (fun c _ => if String.eqb (call_query c) "alice"
                  then Ok (mkDataFrame 1 [("tw_idioma", [VStr "es"])], mkDataFrame 1 [])
                  else Ok (mkDataFrame 1 [("tw_texto", [VStr "hola"])], mkDataFrame 1 []))
      scenario empty_state = (Ok (t, u), st')
    /\ well_formed t
    /\ cols t = [("tw_idioma", [VStr "es"; VStr "es"; NaN; NaN]);
                 ("candidato", [VStr "alice"; VStr "alice"; VStr "bob"; VStr "bob"]);
                 ("tw_texto", [NaN; NaN; VStr "hola"; VStr "hola"])].
Proof.
  destruct (download_tweets_unites_the_columns
              (fun c _ => if String.eqb (call_query c) "alice"
                          then Ok (mkDataFrame 1 [("tw_idioma", [VStr "es"])], mkDataFrame 1 [])
                          else Ok (mkDataFrame 1 [("tw_texto", [VStr "hola"])],
                                   mkDataFrame 1 []))
              scenario empty_state scenario_pairs
              [(mkDataFrame 1 [("tw_idioma", [VStr "es"])], mkDataFrame 1 []);
               (mkDataFrame 1 [("tw_idioma", [VStr "es"])], mkDataFrame 1 []);
               (mkDataFrame 1 [("tw_texto", [VStr "hola"])], mkDataFrame 1 []);
               (mkDataFrame 1 [("tw_texto", [VStr "hola"])], mkDataFrame 1 [])])
    as (t & u & st' & Hrun & Hwt & _).
  - vm_compute. reflexivity.
  - discriminate.
  - reflexivity.
  - vm_compute. reflexivity.
  - intros out Hout. cbn in Hout.
    repeat (destruct Hout as [<- | Hout];
            [split; unfold well_formed; cbn; repeat constructor|]).
    destruct Hout.
  - exists t, u, st'. split; [exact Hrun|]. split; [exact Hwt|].
    vm_compute in Hrun. now injection Hrun as <- _ _.
Defined.

(** ** Whole pages *)

Section Pairs.

Lemma Forall2_In_l {A B} (R : A -> B -> Prop) (xs : list A) (ys : list B) :
  Forall2 R xs ys -> forall x, In x xs -> exists y, In y ys /\ R x y.
Proof.
  induction 1 as [|x0 y0 xs ys Hxy _ IH]; intros x; [intros []|].
  intros [<- | Hin].
  - exists y0. split; [now left | assumption].
  - destruct (IH x Hin) as (y & Hy & HR). exists y. split; [now right | assumption].
Qed.

Lemma Forall2_In_r {A B} (R : A -> B -> Prop) (xs : list A) (ys : list B) :
  Forall2 R xs ys -> forall y, In y ys -> exists x, In x xs /\ R x y.
Proof.
  induction 1 as [|x0 y0 xs ys Hxy _ IH]; intros y; [intros []|].
  intros [<- | Hin].
  - exists x0. split; [now left | assumption].
  - destruct (IH y Hin) as (x & Hx & HR). exists x. split; [now right | assumption].
Qed.

Lemma Forall2_map_left {A B C} (R : B -> C -> Prop) (f : A -> B)
      (xs : list A) (ys : list C) :
  Forall2 R (map f xs) ys -> Forall2 (fun x y => R (f x) y) xs ys.
Proof.
  revert ys. induction xs as [|x xs IH]; intros ys H; inversion H; subst; constructor.
  - assumption.
  - now apply IH.
Qed.

Lemma Forall2_weaken_In {A B} (R R' : A -> B -> Prop) (xs : list A) (ys : list B) :
  Forall2 R xs ys ->
  (forall x y, In x xs -> R x y -> R' x y) ->
  Forall2 R' xs ys.
Proof.
  induction 1 as [|x0 y0 xs ys Hxy _ IH]; intros Himp; constructor.
  - apply Himp; [now left | assumption].
  - apply IH. intros x y Hx. apply Himp. now right.
Qed.

End Pairs.

Section Pages.
Variable tweets : Response.
Variable posts : list Tweet.
Variable includes : list User.
Hypothesis Hdata : data tweets = Some posts.
Hypothesis Hincludes : includes_users tweets = Some includes.
Hypothesis Hids : NoDup (map user_id includes).
Hypothesis Hposts_ne : posts <> [].
Hypothesis Hposts :
  forall post, In post posts ->
               exists record x user,
                 tweet_dict post = Ok record
                 /\ dget record "author_id" = Some x
                 /\ In user includes /\ int_key x = Some (user_id user)
                 /\ is_float x = false.
Hypothesis Husers :
  forall user, In user includes ->
               exists d, user_data user = Ok d /\ ~ In "user_data" (map fst d).

(** The author of a record: the included user its [author_id] names, with
    the flat dictionary of that user. *)
Definition author_row (record row : dict) : Prop :=
  exists x user,
    dget record "author_id" = Some x
    /\ In user includes /\ int_key x = Some (user_id user)
    /\ user_data user = Ok row.

(** The table [extract_user_data] leaves for [segregate_data] on a page
    whose posts have their metrics and an included author each. *)
Lemma enriched_page :
  exists (records rows : list dict) (df : DataFrame),
    Forall2 (fun post record => tweet_dict post = Ok record) posts records
    /\ extract_tweet_data tweets = Ok (from_records records)
    /\ extract_user_data tweets (from_records records) = Ok df
    /\ nrows df = List.length posts
    /\ Forall2 author_row records rows
    /\ (forall k, In k (columns (from_records rows)) ->
                  column df k = Some (infer_objects (map (get_or_None k) rows)))
    /\ (forall c, c <> "user_data" -> ~ In c (columns (from_records rows)) ->
                  column df c = column (from_records records) c).
Proof.
  destruct (rmap_Ok tweet_dict posts) as [records Hrecords].
  { intros p Hp. destruct (Hposts p Hp) as (r & _ & _ & Hr & _). now exists r. }
  pose proof (rmap_Ok_Forall2 _ _ _ Hrecords) as Hpr.
  assert (Hrec : forall r, In r records ->
                           exists x user, dget r "author_id" = Some x
                                          /\ In user includes
                                          /\ int_key x = Some (user_id user)
                                          /\ is_float x = false).
  { intros r Hr. destruct (Forall2_In_r _ _ _ Hpr r Hr) as (p & Hp & Hpr').
    destruct (Hposts p Hp) as (r' & x & user & Hr' & Hx & Hu & Hkey & Hfloat).
    assert (r' = r) by congruence. subst r'. now exists x, user. }
  set (f := get_or_NaN "author_id").
  assert (Hhas : In "author_id" (columns (from_records records))).
  { apply columns_from_records. destruct posts as [|p ps]; [contradiction|].
    destruct (Forall2_In_l _ _ _ Hpr p (or_introl eq_refl)) as (r & Hr & _).
    exists r. split; [assumption|].
    destruct (Hrec r Hr) as (x & _ & Hx & _).
    apply mget_Some_In in Hx. now apply (in_map fst) in Hx. }
  destruct (column_In _ _ Hhas) as [author_ids Hcol].
  assert (Hauthor_ids : author_ids = map f records).
  { pose proof (cells_from_records records "author_id") as Hcells.
    unfold cells in Hcells. rewrite Hcol in Hcells. rewrite Hcells.
    apply infer_objects_plain. intros v Hv. apply in_map_iff in Hv as (r & <- & Hr).
    destruct (Hrec r Hr) as (x & user & Hx & _ & Hkey & Hfloat).
    unfold f, get_or_NaN. rewrite Hx. split; [|assumption].
    destruct x; try reflexivity; discriminate Hkey. }
  subst author_ids.
  destruct (users_lookup_Ok includes) as [users Hlookup].
  { intros user Hu. destruct (Husers user Hu) as (d & Hd & _). now exists d. }
  destruct (rmap_Ok (users_getitem users) (map f records)) as [rows Hrows].
  { intros x Hx. apply in_map_iff in Hx as (r & <- & Hr).
    destruct (Hrec r Hr) as (x & user & Hx & Hu & Hkey & _).
    destruct (Husers user Hu) as (d & Hd & _). exists d. unfold f, get_or_NaN. rewrite Hx.
    now apply (users_getitem_unique includes users x user d). }
  pose proof (rmap_Ok_Forall2 _ _ _ Hrows) as Hxr.
  assert (Hjoin : Forall2 author_row records rows).
  { apply Forall2_map_left in Hxr.
    apply (Forall2_weaken_In _ _ _ _ Hxr). intros r d Hr Hget.
    destruct (Hrec r Hr) as (x & user & Hx & Hu & Hkey & _).
    destruct (Husers user Hu) as (du & Hdu & _).
    unfold f, get_or_NaN in Hget. rewrite Hx in Hget.
    rewrite (users_getitem_unique includes users x user du Hids Hlookup Hu Hkey Hdu) in Hget.
    injection Hget as <-. now exists x, user. }
  assert (Hstage : ~ In "user_data" (columns (from_records rows))).
  { intros Hin. apply columns_from_records in Hin as (d & Hd & Hk).
    destruct (Forall2_In_r _ _ _ Hjoin d Hd) as (r & _ & x & user & _ & Hu & _ & Hud).
    destruct (Husers user Hu) as (d' & Hd' & Hnot). congruence. }
  destruct (attach_user_columns_spec rows _ Hstage (from_records records))
    as (df1 & Hrun & Hn & Hset & Hkeep & _).
  exists records, rows. eexists. split; [exact Hpr|]. split.
  { unfold extract_tweet_data. now rewrite Hdata, Hrecords. }
  split.
  { unfold extract_user_data. rewrite Hincludes, Hlookup. cbn [rbind].
    rewrite Hcol, Hrows. cbn [rbind]. rewrite Hrun. reflexivity. }
  cbn [nrows]. split.
  { rewrite Hn. cbn [nrows from_records]. apply (rmap_length _ _ _ Hrecords). }
  split; [exact Hjoin|]. split.
  - intros k Hk. unfold column. cbn [cols]. rewrite mget_mdel_other.
    + now apply Hset.
    + intros <-. contradiction.
  - intros c Hc Hnot. unfold column at 1. cbn [cols].
    rewrite mget_mdel_other by congruence. now apply Hkeep.
Qed.

(** Two included users with the same id are the same user. *)
Lemma same_author (a b : User) :
  In a includes -> In b includes -> user_id a = user_id b -> a = b.
Proof.
  intros Ha Hb Heq.
  pose proof (users_index_unique includes a Hids Ha) as H1.
  pose proof (users_index_unique includes b Hids Hb) as H2.
  rewrite Heq in H1. congruence.
Qed.

End Pages.

Section AuthorLabels.

(** Every label [extract_user_data] takes from an author starts with
    ["user_"]. *)
Lemma user_data_keys (user : User) (d : dict) (k : string) :
  user_data user = Ok d -> In k (map fst d) -> exists k', k = "user_" ++ k'.
Proof.
  unfold user_data. destruct (user_public_metrics user) as [metrics|]; [|discriminate].
  intros [= <-] Hin. unfold dupdate in Hin.
  assert (Hprefixed : forall fields, In k (map fst (prefix_keys "user_" fields)) ->
                                     exists k', k = "user_" ++ k').
  { intros fields H. unfold prefix_keys in H.
    apply mupdate_keys_incl in H as [[] | H].
    rewrite map_map in H. apply in_map_iff in H as (kv & <- & _). now eexists. }
  apply mupdate_keys_incl in Hin as [Hin | Hin]; now apply Hprefixed in Hin.
Qed.

(** [pd.to_datetime] accepts a timestamp of pandas and a missing value. *)
Lemma timestamp_or_null_casts (parse : string -> option datetime) (v : value) :
  is_timestamp v = true \/ is_null v = true -> exists t, to_datetime parse v = Ok t.
Proof.
  intros [Ht | Hn].
  - destruct v; try discriminate Ht. cbn [to_datetime is_timestamp] in *.
    unfold timestamp_of. rewrite Ht. now eexists.
  - destruct v; try discriminate Hn; now exists NaT.
Qed.

End AuthorLabels.

(** X18. [run] returns on a complete page. The included users have
    distinct ids, their [public_metrics] and no attribute named [data];
    every post has its [public_metrics] and an [author_id] that is the id of
    an included user, and is no float; each of the eleven post labels is a
    key of some post, each of the twelve author labels an attribute of the
    author of some post; and every [created_at] is a datetime within the
    nanosecond range of pandas, or a missing value. Then [run] returns two
    tables with one row per post and exactly the renamed columns. *)
Theorem run_returns_on_a_complete_page
    (parse : string -> option datetime) (tweets : Response)
    (posts : list Tweet) (includes : list User) :
  data tweets = Some posts ->
  includes_users tweets = Some includes ->
  NoDup (map user_id includes) ->
  (forall post, In post posts ->
                exists record x user,
                  tweet_dict post = Ok record
                  /\ dget record "author_id" = Some x
                  /\ In user includes /\ int_key x = Some (user_id user)
                  /\ is_float x = false) ->
  (forall user, In user includes ->
                exists d, user_data user = Ok d /\ ~ In "user_data" (map fst d)) ->
  (forall c, In c tweets_columns ->
             exists post record,
               In post posts /\ tweet_dict post = Ok record /\ In c (map fst record)) ->
  (forall c, In c users_columns ->
             exists post record x user d,
               In post posts /\ tweet_dict post = Ok record
               /\ dget record "author_id" = Some x
               /\ In user includes /\ int_key x = Some (user_id user)
               /\ user_data user = Ok d /\ In c (map fst d)) ->
  (forall post record v,
      In post posts -> tweet_dict post = Ok record ->
      dget record "created_at" = Some v ->
      is_timestamp v = true \/ is_null v = true) ->
  (forall user d v,
      In user includes -> user_data user = Ok d ->
      dget d "user_created_at" = Some v ->
      is_timestamp v = true \/ is_null v = true) ->
  exists t u,
    run parse tweets = Ok (t, u)
    /\ columns t = map (append "tw_") tweets_destinations
    /\ columns u = map (append "us_") users_destinations
    /\ nrows t = List.length posts
    /\ nrows u = List.length posts.
Proof.
  intros Hdata Hincludes Hids Hposts Husers Htlabels Hulabels Hcast_t Hcast_u.
  assert (Hne : posts <> []).
  { destruct (Htlabels "id") as (p & _ & Hp & _); [cbn; tauto|].
    intros ->. destruct Hp. }
  destruct (enriched_page tweets posts includes Hdata Hincludes Hids Hne Hposts Husers)
    as (records & rows & df & Hpr & Hextract & Hjoin_run & Hn & Hjoin & Hset & Hkeep).
  (* the labels of the authors *)
  assert (Hrow : forall row, In row rows ->
                             exists user, In user includes /\ user_data user = Ok row).
  { intros row Hrow. destruct (Forall2_In_r _ _ _ Hjoin row Hrow)
      as (r & _ & x & user & _ & Hu & _ & Hd). now exists user. }
  assert (Hprefix : forall c, In c (columns (from_records rows)) ->
                              exists k', c = "user_" ++ k').
  { intros c Hc. apply columns_from_records in Hc as (row & Hrow' & Hk).
    destruct (Hrow row Hrow') as (user & _ & Hd). now apply (user_data_keys user row). }
  assert (Hucols : forall c, In c users_columns -> In c (columns (from_records rows))).
  { intros c Hc.
    destruct (Hulabels c Hc) as (p & r & x & user & d & Hp & Hr & Hx & Hu & Hkey & Hd & Hk).
    destruct (Forall2_In_l _ _ _ Hpr p Hp) as (r' & Hr' & Hpr').
    assert (r' = r) by congruence. subst r'.
    destruct (Forall2_In_l _ _ _ Hjoin r Hr') as (row & Hrow' & x' & user' & Hx' & Hu' & Hkey' & Hd').
    assert (x' = x) by congruence. subst x'.
    assert (user' = user)
      by (apply (same_author includes Hids); [assumption | assumption | congruence]).
    subst user'. assert (row = d) by congruence. subst row.
    apply columns_from_records. now exists d. }
  assert (Htcols : forall c, In c tweets_columns ->
                             column df c = column (from_records records) c
                             /\ In c (columns (from_records records))).
  { intros c Hc. split.
    - apply Hkeep.
      + intros ->. cbn in Hc. intuition discriminate.
      + intros Hin. apply Hprefix in Hin as [k' ->]. cbn in Hc. intuition discriminate.
    - destruct (Htlabels c Hc) as (p & r & Hp & Hr & Hk).
      destruct (Forall2_In_l _ _ _ Hpr p Hp) as (r' & Hr' & Hpr').
      assert (r' = r) by congruence. subst r'.
      apply columns_from_records. now exists r. }
  (* the projection *)
  assert (Hall : forall c, In c (tweets_columns ++ users_columns)%list -> In c (columns df)).
  { intros c Hc. apply in_app_or in Hc as [Hc | Hc].
    - destruct (Htcols c Hc) as [Heq Hin]. apply column_In in Hin as [s Hs].
      apply (column_Some_In df c s). congruence.
    - apply (column_Some_In df c (infer_objects (map (get_or_None c) rows))).
      now apply Hset, Hucols. }
  destruct (select_spec df tweets_columns) as (t0 & Ht0 & Hnt0 & Hct0 & Hgt0).
  { intros c Hc. apply Hall, in_or_app. now left. }
  destruct (select_spec df users_columns) as (u0 & Hu0 & Hnu0 & Hcu0 & Hgu0).
  { intros c Hc. apply Hall, in_or_app. now right. }
  (* the timestamps *)
  assert (Hposted : column t0 "created_at"
                    = Some (infer_objects (map (get_or_NaN "created_at") records))).
  { rewrite Hgt0 by (cbn; tauto).
    destruct (Htcols "created_at") as [-> Hin]; [cbn; tauto|].
    pose proof (cells_from_records records "created_at") as Hcells.
    unfold cells in Hcells. apply column_In in Hin as [s Hs]. rewrite Hs in Hcells |- *.
    now rewrite Hcells. }
  assert (Hcreated : column u0 "user_created_at"
                     = Some (infer_objects (map (get_or_None "user_created_at") rows))).
  { rewrite Hgu0 by (cbn; tauto). apply Hset, Hucols. cbn. tauto. }
  destruct (clean_data_spec parse t0 u0 _ _ Hct0 Hcu0 Hposted Hcreated)
    as (t & u & _ & _ & Hclean & Hct & Hcu & Hnt & Hnu & _).
  { intros v Hv. apply timestamp_or_null_casts.
    revert v Hv. apply infer_objects_timestamps.
    intros v Hv. apply in_map_iff in Hv as (r & <- & Hr). unfold get_or_NaN.
    destruct (dget r "created_at") as [v|] eqn:Hget; [|now right].
    destruct (Forall2_In_r _ _ _ Hpr r Hr) as (p & Hp & Hpr').
    now apply (Hcast_t p r v). }
  { intros v Hv. apply timestamp_or_null_casts.
    revert v Hv. apply infer_objects_timestamps.
    intros v Hv. apply in_map_iff in Hv as (row & <- & Hrow').
    unfold get_or_None.
    destruct (dget row "user_created_at") as [v|] eqn:Hget; [|now right].
    destruct (Hrow row Hrow') as (user & Hu & Hd). now apply (Hcast_u user row v). }
  exists t, u. split.
  { unfold run. rewrite Hextract. cbn [rbind]. rewrite Hjoin_run. cbn [rbind].
    unfold segregate_data. rewrite Ht0. cbn [rbind]. rewrite Hu0. cbn [rbind fst snd].
    exact Hclean. }
  repeat split; congruence.
Qed.

Lemma run_returns_on_a_complete_page_witness :
  exists t u,
    run no_parse sample_response = Ok (t, u)
    /\ columns t = map (append "tw_") tweets_destinations
    /\ columns u = map (append "us_") users_destinations
    /\ nrows t = 3%nat /\ nrows u = 3%nat.
Proof.
  apply (run_returns_on_a_complete_page no_parse sample_response
           [sample_tweet 1 10 (mk_datetime 2023 5 21 14 0 0 0);
            sample_tweet 2 10 (mk_datetime 2023 5 21 23 59 59 999999);
            sample_tweet 3 11 (mk_datetime 2023 5 22 0 0 0 0)]
           [sample_user 10 "ana"; sample_user 11 "luis"]).
  - reflexivity.
  - reflexivity.
  - cbn. repeat (constructor; [cbn; intuition discriminate|]). constructor.
  - intros post Hpost. cbn in Hpost.
    destruct Hpost as [<- | [<- | [<- | []]]]; eexists; eexists.
    + exists (sample_user 10 "ana"). repeat split; cbn; tauto.
    + exists (sample_user 10 "ana"). repeat split; cbn; tauto.
    + exists (sample_user 11 "luis"). repeat split; cbn; tauto.
  - intros user Hu. cbn in Hu.
    destruct Hu as [<- | [<- | []]]; eexists; (split; [reflexivity|]);
      vm_compute; intros Hin;
      repeat (destruct Hin as [Hin | Hin]; [discriminate Hin|]); exact Hin.
  - intros c Hc. exists (sample_tweet 1 10 (mk_datetime 2023 5 21 14 0 0 0)).
    eexists. split; [cbn; tauto|]. split; [reflexivity|].
    cbn in Hc. repeat (destruct Hc as [<- | Hc]; [vm_compute; tauto|]). destruct Hc.
  - intros c Hc. exists (sample_tweet 1 10 (mk_datetime 2023 5 21 14 0 0 0)).
    eexists. exists (VInt 10), (sample_user 10 "ana"). eexists.
    split; [cbn; tauto|]. split; [reflexivity|]. split; [reflexivity|].
    split; [cbn; tauto|]. split; [reflexivity|]. split; [reflexivity|].
    cbn in Hc. repeat (destruct Hc as [<- | Hc]; [vm_compute; tauto|]). destruct Hc.
  - intros post record v Hpost Hrecord Hv. cbn in Hpost.
    destruct Hpost as [<- | [<- | [<- | []]]];
      vm_compute in Hrecord; injection Hrecord as <-;
      vm_compute in Hv; injection Hv as <-; left; vm_compute; reflexivity.
  - intros user d v Hu Hd Hv. cbn in Hu.
    destruct Hu as [<- | [<- | []]];
      vm_compute in Hd; injection Hd as <-;
      vm_compute in Hv; injection Hv as <-; left; vm_compute; reflexivity.
Defined.

(** A page whose one author has no [location]. *)
Definition page_without_location : Response :=
  mkResponse
    (Some [sample_tweet 1 10 (mk_datetime 2023 5 21 14 0 0 0)])
    (Some [mkUser 10
             [("id", VInt 10); ("name", VStr "ana"); ("username", VStr "ana");
              ("created_at", VDatetime (mk_datetime 2010 1 2 3 4 5 0));
              ("description", VStr "bio");
              ("profile_image_url", VStr "https://pbs/x.jpg");
              ("verified", VBool false)]
             (Some [("followers_count", VInt 12); ("following_count", VInt 7);
                    ("tweet_count", VInt 340); ("listed_count", VInt 0)])]).

(** X19. A label that no post and no author of a post of the page carries
    makes [run] raise [KeyError]: on a page on which the two extraction
    steps succeed, when one of the twenty-three labels of [segregate_data]
    is a key of no post and an attribute of the author of no post (no
    author has a [location], say), the table has no such column, and
    [run] returns no tables. *)
Theorem run_needs_every_label_on_the_page
    (parse : string -> option datetime) (tweets : Response)
    (posts : list Tweet) (includes : list User) (c : string) :
  data tweets = Some posts ->
  includes_users tweets = Some includes ->
  NoDup (map user_id includes) ->
  posts <> [] ->
  (forall post, In post posts ->
                exists record x user,
                  tweet_dict post = Ok record
                  /\ dget record "author_id" = Some x
                  /\ In user includes /\ int_key x = Some (user_id user)
                  /\ is_float x = false) ->
  (forall user, In user includes ->
                exists d, user_data user = Ok d /\ ~ In "user_data" (map fst d)) ->
  In c (tweets_columns ++ users_columns)%list ->
  (forall post record,
      In post posts -> tweet_dict post = Ok record -> ~ In c (map fst record)) ->
  (forall post record x user d,
      In post posts -> tweet_dict post = Ok record ->
      dget record "author_id" = Some x ->
      In user includes -> int_key x = Some (user_id user) ->
      user_data user = Ok d -> ~ In c (map fst d)) ->
  exists e, run parse tweets = Err e /\ exn_cls e = KeyError.
Proof.
  intros Hdata Hincludes Hids Hne Hposts Husers Hc Hno_post Hno_author.
  destruct (enriched_page tweets posts includes Hdata Hincludes Hids Hne Hposts Husers)
    as (records & rows & df & Hpr & Hextract & Hjoin_run & Hn & Hjoin & Hset & Hkeep).
  assert (Hno_row : ~ In c (columns (from_records rows))).
  { intros Hin. apply columns_from_records in Hin as (row & Hrow & Hk).
    destruct (Forall2_In_r _ _ _ Hjoin row Hrow) as (r & Hr & x & user & Hx & Hu & Hkey & Hd).
    destruct (Forall2_In_r _ _ _ Hpr r Hr) as (p & Hp & Hpr').
    now apply (Hno_author p r x user row). }
  assert (Hno_record : ~ In c (columns (from_records records))).
  { intros Hin. apply columns_from_records in Hin as (r & Hr & Hk).
    destruct (Forall2_In_r _ _ _ Hpr r Hr) as (p & Hp & Hpr').
    now apply (Hno_post p r). }
  assert (Hmissing : ~ In c (columns df)).
  { intros Hin. apply column_In in Hin as [s Hs].
    rewrite Hkeep in Hs; [|intros ->; cbn in Hc; intuition discriminate | assumption].
    now apply column_Some_In in Hs. }
  unfold run. rewrite Hextract. cbn [rbind]. rewrite Hjoin_run. cbn [rbind].
  destruct (segregate_data df) as [[t u]|e] eqn:Hseg.
  - exfalso. apply Hmissing.
    unfold segregate_data in Hseg.
    destruct (select df tweets_columns) as [a|] eqn:Ha; cbn [rbind] in Hseg; [|discriminate].
    destruct (select df users_columns) as [b|] eqn:Hb; cbn [rbind] in Hseg; [|discriminate].
    apply in_app_or in Hc as [Hc | Hc].
    + now apply (select_Ok_inv df a tweets_columns).
    + now apply (select_Ok_inv df b users_columns).
  - cbn [rbind]. exists e. split; [reflexivity|].
    unfold segregate_data in Hseg.
    destruct (select df tweets_columns) as [a|e1] eqn:Ha; cbn [rbind] in Hseg.
    + destruct (select df users_columns) as [b|e2] eqn:Hb; cbn [rbind] in Hseg;
        [discriminate|].
      injection Hseg as <-. now apply select_Err_inv in Hb.
    + injection Hseg as <-. now apply select_Err_inv in Ha.
Qed.

Lemma run_needs_every_label_on_the_page_witness :
  exists e, run no_parse page_without_location = Err e /\ exn_cls e = KeyError.
Proof.
  apply (run_needs_every_label_on_the_page no_parse page_without_location
           [sample_tweet 1 10 (mk_datetime 2023 5 21 14 0 0 0)]
           [mkUser 10
             [("id", VInt 10); ("name", VStr "ana"); ("username", VStr "ana");
              ("created_at", VDatetime (mk_datetime 2010 1 2 3 4 5 0));
              ("description", VStr "bio");
              ("profile_image_url", VStr "https://pbs/x.jpg");
              ("verified", VBool false)]
             (Some [("followers_count", VInt 12); ("following_count", VInt 7);
                    ("tweet_count", VInt 340); ("listed_count", VInt 0)])]
           "user_location").
  - reflexivity.
  - reflexivity.
  - cbn. repeat (constructor; [cbn; intuition discriminate|]). constructor.
  - discriminate.
  - intros post Hpost. cbn in Hpost. destruct Hpost as [<- | []].
    do 3 eexists. repeat split; cbn; tauto.
  - intros user Hu. cbn in Hu.
    destruct Hu as [<- | []]; eexists; (split; [reflexivity|]);
      vm_compute; intros Hin;
      repeat (destruct Hin as [Hin | Hin]; [discriminate Hin|]); exact Hin.
  - cbn. tauto.
  - intros post record Hpost Hrecord Hin. cbn in Hpost. destruct Hpost as [<- | []].
    vm_compute in Hrecord. injection Hrecord as <-. cbn in Hin.
    repeat (destruct Hin as [Hin | Hin]; [discriminate Hin|]). exact Hin.
  - intros post record x user d _ _ _ Hu _ Hd Hin. cbn in Hu. destruct Hu as [<- | []].
    vm_compute in Hd. injection Hd as <-. cbn in Hin.
    repeat (destruct Hin as [Hin | Hin]; [discriminate Hin|]). exact Hin.
Defined.

(** ** Every outcome of a run *)

Section Outcomes.
Variable request : Call -> list Call -> result (DataFrame * DataFrame).
Variable self : DownloadTweets.

Lemma after_logged_Err (calls : list Call) :
  forall (st : State) (outs : list (DataFrame * DataFrame)) (e : exn),
    serve request (requests st) calls = (outs, Some e) ->
    logged (after request st calls)
    = (logged st ++ map batch_line (combine calls outs))%list.
Proof.
  induction calls as [|c calls IH]; intros st outs e; cbn [serve after]; [discriminate|].
  destruct (request c (requests st)) as [out|].
  - destruct (serve request (requests st ++ [c]) calls) as [outs' f] eqn:Hrest.
    intros [= <- ->]. rewrite (IH (batch_done st c out) outs' e Hrest).
    cbn [combine map logged batch_done log_line sent]. now rewrite <- app_assoc.
  - intros [= <- <-]. cbn. now rewrite app_nil_r.
Qed.

End Outcomes.



(** X21. When a request fails, [main] has logged the batches that were
    answered before it, one line each, and then one error line with the
    message of the exception; the tables of these batches are dropped with
    the collectors. *)
Theorem main_logs_the_failure
    (request : Call -> list Call -> result (DataFrame * DataFrame))
    (self : DownloadTweets) (st : State) (pairs : list (string * string))
    (outs : list (DataFrame * DataFrame)) (e : exn) :
  generate_dates_by one_day one_day_positive (start_date self) (end_date self) = Ok pairs ->
  let calls := grid self pairs (candidates self) in
  serve request (requests st) calls = (outs, Some e) ->
  exists st',
    main request self st = (Err e, st')
    /\ logged st'
       = (logged st
          ++ [(INFO, "DownloadTweets initialized.");
              (INFO, ("Generated " ++ str_of_nat (List.length pairs)
                      ++ " date pairs for tweet downloads.")%string)]
          ++ map (fun co =>
                    (INFO, ("Downloaded batch of " ++ str_of_nat (nrows (fst (snd co)))
                            ++ " tweets for candidate " ++ call_query (fst co) ++ ".")%string))
                 (combine calls outs)
          ++ [(ERROR, ("Failed to download tweets: " ++ exn_str e)%string)])%list
    /\ (List.length outs < List.length calls)%nat
    /\ tweets st' = None /\ users st' = None.
Proof.
  intros Hgen calls Hserve.
  assert (Hpairs : pairs <> []).
  { intros Hnil. unfold calls in Hserve. rewrite Hnil in Hserve.
    assert (Hgrid : grid self [] (candidates self) = [])
      by (apply length_zero_iff_nil; rewrite grid_length; cbn; lia).
    rewrite Hgrid in Hserve. discriminate. }
  rewrite main_unfold, (download_tweets_unfold request self _ pairs Hgen). cbn zeta.
  set (st0 := log_line INFO "DownloadTweets initialized." (new_object st)).
  set (st1 := log_line INFO _ (set_dates pairs st0)).
  rewrite (for_candidates_Err request self pairs (candidates self) Hpairs st1 [] [] outs e);
    [|reflexivity|exact Hserve].
  fold calls. eexists. split; [reflexivity|].
  destruct (after_frame request calls st1) as (_ & H2 & H3 & _).
  destruct (after_requests_Err request calls st1 outs e Hserve) as [_ Hlt].
  cbn [logged tweets users log_line].
  rewrite (after_logged_Err request calls st1 outs e Hserve), H2, H3.
  split; [|split; [exact Hlt | split; reflexivity]].
  cbn [logged st1 st0 log_line set_dates new_object]. now rewrite <- !app_assoc.
Qed.

Lemma main_logs_the_failure_witness :
  exists st',
    main failing_request scenario empty_state
    = (Err (Exn (OtherError "TooManyRequests") "429 Too Many Requests"), st')
    /\ logged st'
       = [(INFO, "DownloadTweets initialized.");
          (INFO, "Generated 2 date pairs for tweet downloads.");
          (INFO, "Downloaded batch of 3 tweets for candidate alice.");
          (INFO, "Downloaded batch of 3 tweets for candidate alice.");
          (ERROR, "Failed to download tweets: 429 Too Many Requests")].
Proof.
  destruct (main_logs_the_failure failing_request scenario empty_state
              scenario_pairs (repeat sample_batch 2)
              (Exn (OtherError "TooManyRequests") "429 Too Many Requests"))
    as (st' & Hmain & Hlog & _).
  - vm_compute. reflexivity.
  - vm_compute. reflexivity.
  - exists st'. split; [exact Hmain|]. rewrite Hlog. vm_compute. reflexivity.
Defined.

(** X22. The authors table is not deduplicated. When every batch has as many
    author rows as posts, as the batches of [run] have, the two tables
    [download_tweets] returns have the same number of rows: the sum of the
    posts of the batches; an author is there once per post. *)
Theorem download_tweets_keeps_one_author_row_per_post
    (request : Call -> list Call -> result (DataFrame * DataFrame))
    (self : DownloadTweets) (st : State) (pairs : list (string * string))
    (outs : list (DataFrame * DataFrame)) :
  generate_dates_by one_day one_day_positive (start_date self) (end_date self) = Ok pairs ->
  let calls := grid self pairs (candidates self) in
  candidates self <> [] ->
  start_date self < end_date self ->
  serve request (requests st) calls = (outs, None) ->
  (forall out, In out outs -> nrows (snd out) = nrows (fst out)) ->
  exists t u st',
    download_tweets request self st = (Ok (t, u), st')
    /\ nrows u = nrows t
    /\ nrows t = list_sum (map (fun out => nrows (fst out)) outs)
    /\ (forall c, cells c u = List.concat (map (fun out => cells c (snd out)) outs)).
Proof.
  intros Hgen calls Hcs Hlt Hserve Hrows.
  destruct (download_tweets_Ok request self st pairs outs Hgen Hcs Hlt Hserve)
    as (gt & gu & st' & Hrun & Hgt & Hgu & _).
  fold calls in Hgt.
  assert (Hlen : List.length outs = List.length calls)
    by apply (serve_length request calls _ _ Hserve).
  assert (Hnt : nrows (stacked (map stacked gt))
                = list_sum (map (fun out => nrows (fst out)) outs)).
  { rewrite nrows_stacked_groups, Hgt. now apply list_sum_labelled. }
  exists (stacked (map stacked gt)), (stacked (map stacked gu)), st'.
  split; [exact Hrun|]. split; [|split; [exact Hnt|]].
  - rewrite Hnt, nrows_stacked_groups, Hgu, map_map. f_equal.
    apply map_ext_in. intros out Hout. now apply Hrows.
  - intros c. rewrite cells_stacked_groups, Hgu, map_map. reflexivity.
Qed.

Lemma download_tweets_keeps_one_author_row_per_post_witness :
  exists t u st',
    download_tweets sample_request scenario empty_state = (Ok (t, u), st')
    /\ nrows u = nrows t
    /\ nrows t = 12%nat.
Proof.
  destruct (download_tweets_keeps_one_author_row_per_post sample_request scenario
              empty_state scenario_pairs (repeat sample_batch 4))
    as (t & u & st' & Hrun & Hsame & Hsum & _).
  - vm_compute. reflexivity.
  - discriminate.
  - reflexivity.
  - vm_compute. reflexivity.
  - intros out Hout. apply repeat_spec in Hout. subst out. vm_compute. reflexivity.
  - exists t, u, st'. split; [exact Hrun|]. split; [exact Hsame|].
    rewrite Hsum. vm_compute. reflexivity.
Defined.
